(** * ethspec.tools: fixture resolution, decode dispatch and completeness audit

    A shallow embedding of [scripts/deserialize_ssz.py] and
    [scripts/check_missing_yamls.py].

    Conventions of the embedding:
    - a Python [str] is a [string] of 8-bit characters; the text handled is
      ASCII (case mapping and white space of characters above 127 are not
      modelled);
    - a Python [int] is a [Z], a counter that only grows from 0 is a [nat];
    - a [dict] is a [gmap]; [PREVIOUS_FORK_OF] and the YAML mappings are only
      ever looked up with string keys, so they are [gmap string _];
    - a [Path] is its [parts] tuple;
    - [print] appends an [event] (one constructor per print site) to a log;
    - an exception is a value of [exn]; code that may raise lives in the
      monad [M]. *)

From Stdlib Require Import ZArith Ascii.
From Stdlib Require String.
From Stdlib Require Import Sorting.Sorted Sorting.Permutation.
From stdpp Require Import gmap strings list fin_maps sorting.

Local Open Scope Z_scope.

(** ** Python string built-ins *)

Module Py.

(** [str.isspace] on one ASCII character: tab, line feed, vertical tab,
    form feed, carriage return, the four separators 28..31, and space. *)
Definition isspace (c : ascii) : bool :=
  let n := nat_of_ascii c in
  ((9 <=? n)%nat && (n <=? 13)%nat) || ((28 <=? n)%nat && (n <=? 32)%nat).

Definition isdigit (c : ascii) : bool :=
  let n := nat_of_ascii c in (48 <=? n)%nat && (n <=? 57)%nat.

Definition digit_val (c : ascii) : Z := Z.of_nat (nat_of_ascii c) - 48.

Definition lower_char (c : ascii) : ascii :=
  let n := nat_of_ascii c in
  if (65 <=? n)%nat && (n <=? 90)%nat then ascii_of_nat (n + 32) else c.

Definition upper_char (c : ascii) : ascii :=
  let n := nat_of_ascii c in
  if (97 <=? n)%nat && (n <=? 122)%nat then ascii_of_nat (n - 32) else c.

Fixpoint map_chars (f : ascii → ascii) (s : string) : string :=
  match s with
  | EmptyString => EmptyString
  | String c s' => String (f c) (map_chars f s')
  end.

(** [s.lower()] and [s.upper()] *)
Definition lower : string → string := map_chars lower_char.
Definition upper : string → string := map_chars upper_char.

(** [s.capitalize()] *)
Definition capitalize (s : string) : string :=
  match s with
  | EmptyString => EmptyString
  | String c s' => String (upper_char c) (lower s')
  end.

(** [s.startswith(p)] and [s.endswith(p)] *)
Definition startswith (s p : string) : bool := String.prefix p s.
Definition endswith (s p : string) : bool :=
  String.prefix (String.rev p) (String.rev s).

(** [sub in s] *)
Fixpoint contains (sub s : string) : bool :=
  String.prefix sub s ||
  match s with
  | EmptyString => false
  | String _ s' => contains sub s'
  end.

(** [s.split(sep)] for a one-character separator: never an empty list. *)
Fixpoint split (sep : ascii) (s : string) : list string :=
  match s with
  | EmptyString => [EmptyString]
  | String c s' =>
      if Ascii.eqb c sep then EmptyString :: split sep s'
      else match split sep s' with
           | h :: t => String c h :: t
           | [] => [String c EmptyString]
           end
  end.

(** [sep.join(l)] *)
Fixpoint join (sep : string) (l : list string) : string :=
  match l with
  | [] => EmptyString
  | [x] => x
  | x :: l' => x +:+ sep +:+ join sep l'
  end.

Fixpoint lstrip_with (p : ascii → bool) (s : string) : string :=
  match s with
  | EmptyString => EmptyString
  | String c s' => if p c then lstrip_with p s' else s
  end.

Definition rstrip_with (p : ascii → bool) (s : string) : string :=
  String.rev (lstrip_with p (String.rev s)).

(** [s.strip()] and [s.rstrip(',')] *)
Definition strip (s : string) : string :=
  rstrip_with isspace (lstrip_with isspace s).
Definition rstrip_comma (s : string) : string :=
  rstrip_with (Ascii.eqb ","%char) s.

(** The white space that [int] skips around an ASCII literal: tab, line
    feed, vertical tab, form feed, carriage return and space.  Unlike
    [str.isspace] and [str.strip], it does not take the separators 28..31
    for white space. *)
Definition int_space (c : ascii) : bool :=
  let n := nat_of_ascii c in
  ((9 <=? n)%nat && (n <=? 13)%nat) || (n =? 32)%nat.

(** [int(s)], base 10: white space around, an optional sign, then digits
    in which single underscores may separate digits.  [None] stands for
    the [ValueError] that [int] raises. *)
Fixpoint int_digits (acc : Z) (after_digit : bool) (s : string) : option Z :=
  match s with
  | EmptyString => if after_digit then Some acc else None
  | String c s' =>
      if isdigit c then int_digits (10 * acc + digit_val c) true s'
      else if Ascii.eqb c "_"%char && after_digit then int_digits acc false s'
      else None
  end.

Definition int (s : string) : option Z :=
  match rstrip_with int_space (lstrip_with int_space s) with
  | String "-"%char s' => Z.opp <$> int_digits 0 false s'
  | String "+"%char s' => int_digits 0 false s'
  | s' => int_digits 0 false s'
  end.

(** [l.index(x)] on a list of strings; [None] stands for [ValueError]. *)
Fixpoint index (x : string) (l : list string) : option nat :=
  match l with
  | [] => None
  | y :: l' => if decide (y = x) then Some 0%nat else S <$> index x l'
  end.

End Py.

(** ** Exceptions, YAML values, the printed log *)

Inductive exn_class :=
  | ValueError | IndexError | AttributeError | TypeError
  | ImportError | YAMLError | OSError | OtherError.

Global Instance exn_class_eq_dec : EqDecision exn_class.
Proof. solve_decision. Defined.

(** An exception: its class and its message. *)
Record exn := Exn { exn_cls : exn_class; exn_text : string }.

Global Instance exn_eq_dec : EqDecision exn.
Proof. solve_decision. Defined.

Inductive outcome (A : Type) :=
  | Ok (a : A)
  | Raise (e : exn).
Global Arguments Ok {A} a.
Global Arguments Raise {A} e.

(** A YAML float.  Python compares an [int] with a [float] exactly, so a
    finite double is kept as the number [m * 2 ^ e] it stands for. *)
Inductive pyfloat :=
  | FNan
  | FInf (negative : bool)
  | FFinite (m e : Z).

(** [n <= f] and [n >= f] for an [int] n; every comparison with nan is
    [False]. *)
Definition int_le_float (n : Z) (f : pyfloat) : bool :=
  match f with
  | FNan => false
  | FInf negative => negb negative
  | FFinite m e => if 0 <=? e then n <=? m * 2 ^ e else n * 2 ^ (- e) <=? m
  end.

Definition int_ge_float (n : Z) (f : pyfloat) : bool :=
  match f with
  | FNan => false
  | FInf negative => negative
  | FFinite m e => if 0 <=? e then m * 2 ^ e <=? n else m <=? n * 2 ^ (- e)
  end.

(** What [yaml.safe_load] returns for plain YAML: [VNone] for null and for
    an empty document, [VTimestamp] for a [datetime.date] (or, with a time
    of day, a [datetime.datetime]), kept as the text it was written as.
    Mapping keys that are not strings are never looked up by the scripts
    and are left out, and so are the values that only an explicit tag
    gives ([!!binary], [!!set], [!!omap], [!!pairs]). *)
#[warnings="-register-all"]
Inductive value :=
  | VNone
  | VBool (b : bool)
  | VInt (z : Z)
  | VFloat (f : pyfloat)
  | VStr (s : string)
  | VTimestamp (with_time : bool) (text : string)
  | VList (l : list value)
  | VDict (m : gmap string value).

(** The type's name as the messages of [AttributeError] and [TypeError]
    show it. *)
Definition type_name_of (v : value) : string :=
  match v with
  | VNone => "NoneType"
  | VBool _ => "bool"
  | VInt _ => "int"
  | VFloat _ => "float"
  | VStr _ => "str"
  | VTimestamp with_time _ =>
      if with_time then "datetime.datetime" else "datetime.date"
  | VList _ => "list"
  | VDict _ => "dict"
  end.

(** A [bool] is an [int] in Python: [True] is 1. *)
Definition int_of_value (v : value) : option Z :=
  match v with
  | VInt z => Some z
  | VBool b => Some (if b then 1 else 0)
  | _ => None
  end.

(** One constructor per [print] site; the source line is given with each.
    [is_warning] holds of the sites whose text starts with [Warning:]. *)
Inductive event :=
  (* parse_ssz_path *)
  | EvForkTest (actual fork : string)                        (* line 119 *)
  | WarnNoPreviousFork (fork : string)                       (* line 121 *)
  | EvTransitionPre (actual post_fork : string)              (* line 135 *)
  | WarnNoPreviousForkOfPost (post_fork : string)            (* line 137 *)
  | WarnMetaNotFound (meta_path fork : string)               (* lines 139, 170 *)
  | EvBlockPreFork (block_index : Z) (fork_block : value) (actual : string) (* line 160 *)
  | WarnNoPreviousForkOfPostBlock (post_fork : string)       (* line 162 *)
  | EvBlockPostFork (block_index : Z) (fork_block : value) (actual : string) (* line 166 *)
  | WarnForkBlockNotFound (fork : string)                    (* line 168 *)
  | WarnBlockIndex (filename : string) (e : exn)             (* line 172 *)
  | EvLightClientSlot (test_suite test_case : string) (slot epoch : Z)
      (actual fork : string)                                 (* line 255 *)
  | WarnSlot (filename : string) (e : exn)                   (* line 257 *)
  | EvLightClientName (test_suite test_case actual fork : string) (* line 270 *)
  (* deserialize_ssz_file *)
  | EvDetected (preset fork type_name filename : string)     (* lines 479-484 *)
  | EvLoadedType                                             (* line 499 *)
  | EvDeserializing (input_path : string)                    (* line 503 *)
  | EvSuccess                                                (* line 506 *)
  | EvFailedWithFork (fork : string) (e : exn)               (* line 511 *)
  | EvTryingAlternatives (alternative_forks : list string)   (* line 512 *)
  | EvTryingFork (alt_fork : string)                         (* line 516 *)
  | EvSuccessWith (alt_fork : string)                        (* line 519 *)
  | EvAltFailed (alt_fork : string) (e : exn)                (* line 524 *)
  | EvExported (output_path : string)                        (* line 537 *)
  | EvPrintObject.                                           (* lines 540-541 *)

Definition is_warning (ev : event) : bool :=
  match ev with
  | WarnNoPreviousFork _ | WarnNoPreviousForkOfPost _ | WarnMetaNotFound _ _
  | WarnNoPreviousForkOfPostBlock _ | WarnForkBlockNotFound _
  | WarnBlockIndex _ _ | WarnSlot _ _ => true
  | _ => false
  end.

(** ** The monad: local variables, the log, and exceptions

    A computation reads and writes the function's mutable locals [L],
    appends to the log, and returns or raises.  An assignment made before
    an exception is raised survives it, as in Python. *)

Definition M (L A : Type) : Type :=
  L → list event → outcome A * L * list event.

Section Monad.
Context {L : Type}.

Definition ret {A} (a : A) : M L A := λ l log, (Ok a, l, log).

Definition bind {A B} (m : M L A) (k : A → M L B) : M L B :=
  λ l log,
    match m l log with
    | (Ok a, l', log') => k a l' log'
    | (Raise e, l', log') => (Raise e, l', log')
    end.

Definition raise {A} (e : exn) : M L A := λ l log, (Raise e, l, log).

Definition print (ev : event) : M L unit := λ l log, (Ok tt, l, log ++ [ev]).

Definition get : M L L := λ l log, (Ok l, l, log).

Definition modify (f : L → L) : M L unit := λ l log, (Ok tt, f l, log).

(** [try: m except (classes) as e: h e] *)
Definition try_except {A} (m : M L A) (catches : exn → bool)
    (h : exn → M L A) : M L A :=
  λ l log,
    match m l log with
    | (Raise e, l', log') =>
        if catches e then h e l' log' else (Raise e, l', log')
    | r => r
    end.

(** [if c: m] *)
Definition when (c : bool) (m : M L unit) : M L unit :=
  if c then m else ret tt.

(** A value that [None] stands for the failure of: [x] or raise [e]. *)
Definition or_raise {A} (o : option A) (e : exn) : M L A :=
  match o with Some a => ret a | None => raise e end.

Definition of_outcome {A} (o : outcome A) : M L A :=
  match o with Ok a => ret a | Raise e => raise e end.
End Monad.

(** Calling a function: it runs on locals of its own and shares the log. *)
Definition call {L L' A} (m : M L' A) (init : L') : M L A :=
  λ l log, let '(r, _, log') := m init log in (r, l, log').

Declare Scope M_scope.
Delimit Scope M_scope with M.
Notation "'let*' x ':=' m 'in' k" := (bind m (λ x, k))
  (at level 10, x pattern, m at level 100, k at level 200) : M_scope.
Notation "m ';;' k" := (bind m (λ _, k))
  (at level 100, k at level 200, right associativity) : M_scope.

(** ** Paths and the files next to a fixture *)

(** [Path.parts]; an absolute path has ["/"] as its first part. *)
Abbreviation path := (list string).

(** [Path.parts]' first element when the path is absolute: POSIX keeps
    exactly two leading slashes apart from one. *)
Definition is_root (part : string) : bool :=
  bool_decide (part = "/") || bool_decide (part = "//").

(** [Path.name]: the final component (empty for a bare root). *)
Definition path_name (p : path) : string :=
  match p with
  | [part] => if is_root part then "" else part
  | _ => default "" (last p)
  end.

(** [str(path)]: the root, then the components joined by slashes; the
    empty path is shown as a dot. *)
Definition path_str (p : path) : string :=
  match p with
  | [] => "."
  | part :: rest =>
      if is_root part then part +:+ Py.join "/" rest else Py.join "/" p
  end.

(** [path.parent]: the path without its final component; a bare root is
    its own parent. *)
Definition parent (p : path) : path :=
  match p with
  | [part] => if is_root part then p else []
  | _ => removelast p
  end.

(** [path.parent / name] *)
Definition sibling (p : path) (name : string) : path := parent p ++ [name].

(** A YAML file beside the fixture: absent, or present, in which case
    opening and [yaml.safe_load]ing it returns a value or raises. *)
Inductive sidecar :=
  | Absent
  | Present (load : outcome value).

(** The directory of the fixture, as far as [parse_ssz_path] looks at it. *)
Record directory := Directory {
  meta_yaml : sidecar;
  config_yaml : sidecar
}.

(** ** Operations on loaded YAML values, with the exceptions of CPython *)

Section ValueOps.
Context {L : Type}.

Definition no_attribute (v : value) (attr : string) : exn :=
  Exn AttributeError
    ("'" +:+ type_name_of v +:+ "' object has no attribute '" +:+ attr +:+ "'").

(** [d.get(key, dflt)] *)
Definition dict_get (d : value) (key : string) (dflt : value) : M L value :=
  match d with
  | VDict m => ret (default dflt (m !! key))
  | _ => raise (no_attribute d "get")
  end.

(** [v.lower()] *)
Definition str_lower (v : value) : M L string :=
  match v with
  | VStr s => ret (Py.lower s)
  | _ => raise (no_attribute v "lower")
  end.

Definition not_supported (op : string) (v : value) : exn :=
  Exn TypeError
    ("'" +:+ op +:+ "' not supported between instances of 'int' and '"
     +:+ type_name_of v +:+ "'").

(** [n <= v] and [n >= v] for an [int] n: an [int], a [bool] or a [float]
    is compared, anything else is a [TypeError]. *)
Definition int_le (n : Z) (v : value) : M L bool :=
  match v with
  | VFloat f => ret (int_le_float n f)
  | _ =>
      match int_of_value v with
      | Some z => ret (n <=? z)
      | None => raise (not_supported "<=" v)
      end
  end.

Definition int_ge (n : Z) (v : value) : M L bool :=
  match v with
  | VFloat f => ret (int_ge_float n f)
  | _ =>
      match int_of_value v with
      | Some z => ret (z <=? n)
      | None => raise (not_supported ">=" v)
      end
  end.

(** [with open(p) as f: yaml.safe_load(f)] on a file that exists *)
Definition safe_load (load : outcome value) : M L value := of_outcome load.

(** [int(s)] *)
Definition int (s : string) : M L Z :=
  or_raise (Py.int s)
    (Exn ValueError ("invalid literal for int() with base 10: '" +:+ s +:+ "'")).
End ValueOps.

Notation "a == b" := (bool_decide (a = b)) (at level 70, no associativity).
Notation "a != b" := (negb (bool_decide (a = b))) (at level 70, no associativity).

(** [x in l] for a list or tuple of strings *)
Definition in_list (x : string) (l : list string) : bool := bool_decide (x ∈ l).

(** ** deserialize_ssz.py: the type name from category, suite and filename *)

(** The body of [derive_type_from_suite] is a sequence of statements, each
    of which returns a type name or falls through to the next. *)
Definition stmt := option string.

Fixpoint first_return (body : list stmt) : stmt :=
  match body with
  | [] => None
  | Some r :: _ => Some r
  | None :: rest => first_return rest
  end.

(** [if c: return r] *)
Definition return_if (c : bool) (r : string) : stmt := if c then Some r else None.
(** [if c: body] *)
Definition block_if (c : bool) (body : list stmt) : stmt :=
  if c then first_return body else None.

(** [type_map] of lines 409-420 *)
Definition type_map : gmap string string :=
  list_to_map
    [ ("attestation", "Attestation");
      ("attester_slashing", "AttesterSlashing");
      ("block_header", "BeaconBlock");
      ("deposit", "Deposit");
      ("proposer_slashing", "ProposerSlashing");
      ("voluntary_exit", "SignedVoluntaryExit");
      ("sync_aggregate", "SyncAggregate");
      ("execution_payload", "ExecutionPayload");
      ("withdrawals", "ExecutionPayload");
      ("bls_to_execution_change", "SignedBLSToExecutionChange") ].

(** The filenames of line 304. *)
Definition state_filenames : list string :=
  ["pre.ssz_snappy"; "post.ssz_snappy"; "pre_epoch.ssz_snappy";
   "post_epoch.ssz_snappy"; "initial_state.ssz_snappy"].

Definition derive_type_from_suite (test_type test_suite filename : string) : string :=
  default
    (* lines 424-427 *)
    (Py.join "" (Py.capitalize <$> Py.split "_" test_suite))
    (first_return
       [ return_if (in_list filename state_filenames) "BeaconState";
         return_if (filename == "body.ssz_snappy") "BeaconBlockBody";
         return_if (filename == "signed_envelope.ssz_snappy")
           "SignedExecutionPayloadEnvelope";
         block_if (in_list test_type ["fork_choice"; "sync"])
           [ return_if (filename == "anchor_state.ssz_snappy") "BeaconState";
             return_if (filename == "anchor_block.ssz_snappy") "BeaconBlock";
             return_if (Py.startswith filename "block_") "SignedBeaconBlock";
             return_if (Py.startswith filename "attestation_") "Attestation";
             return_if (Py.startswith filename "attester_slashing_") "AttesterSlashing";
             return_if (Py.startswith filename "pow_block_") "PowBlock";
             return_if (Py.startswith filename "column_") "DataColumnSidecar";
             return_if (Py.startswith filename "blobs_") "BlobSidecar" ];
         block_if (test_type == "light_client")
           [ return_if ((test_suite == "data_collection")
                        && Py.startswith filename "block_") "SignedBeaconBlock";
             (* lines 341-346: [pass] *)
             block_if (test_suite == "update_ranking")
               [ return_if (Py.startswith filename "update_"
                            || Py.startswith filename "updates_")
                   "LightClientUpdate" ];
             block_if (test_suite == "sync")
               [ return_if (Py.startswith filename "update_") "LightClientUpdate";
                 return_if (Py.startswith filename "optimistic_update_")
                   "LightClientOptimisticUpdate";
                 return_if (Py.startswith filename "finality_update_")
                   "LightClientFinalityUpdate";
                 return_if (Py.startswith filename "bootstrap_"
                            || (filename == "bootstrap.ssz_snappy"))
                   "LightClientBootstrap" ] ];
         (* lines 367-369: [pass] *)
         block_if (test_type == "rewards")
           [ return_if (Py.endswith filename "_deltas.ssz_snappy") "Deltas" ];
         block_if (test_type == "genesis")
           [ return_if (Py.startswith filename "deposits_") "Deposit";
             return_if (in_list filename ["state.ssz_snappy"; "genesis.ssz_snappy"])
               "BeaconState" ];
         block_if ((test_type == "light_client") && (test_suite == "data_collection"))
           [ return_if (Py.startswith filename "update_") "LightClientUpdate";
             return_if (Py.startswith filename "optimistic_update_")
               "LightClientOptimisticUpdate";
             return_if (Py.startswith filename "finality_update_")
               "LightClientFinalityUpdate";
             return_if (Py.startswith filename "bootstrap_") "LightClientBootstrap" ];
         return_if ((test_type == "operations")
                    && in_list test_suite ["block_header"; "execution_payload_bid"]
                    && (filename == "block.ssz_snappy")) "BeaconBlock";
         return_if (Py.startswith filename "blocks_" || (filename == "block.ssz_snappy"))
           "SignedBeaconBlock";
         block_if (test_type == "operations") [ type_map !! test_suite ] ]).

(** ** deserialize_ssz.py: [parse_ssz_path] *)

(** The list literal of lines 186 and 231. *)
Definition all_forks : list string :=
  ["phase0"; "altair"; "bellatrix"; "capella"; "deneb"; "electra"; "eip7805";
   "fulu"; "gloas"].

(** The prefixes of line 193. *)
Definition slot_prefixes : list string :=
  ["update_"; "optimistic_update_"; "finality_update_"; "bootstrap_"; "block_"].

(** The locals of [parse_ssz_path] that are assigned more than once. *)
Record locals := Locals { actual_fork : string; has_slot_number : bool }.

Definition set_actual_fork (f : string) (l : locals) : locals :=
  Locals f (has_slot_number l).
Definition set_has_slot_number (b : bool) (l : locals) : locals :=
  Locals (actual_fork l) b.

(** [except (ValueError, IndexError)] *)
Definition value_or_index_error (e : exn) : bool :=
  (exn_cls e == ValueError) || (exn_cls e == IndexError).

(** [l[i]] *)
Definition item {L} (l : list string) (i : nat) : M L string :=
  or_raise (l !! i) (Exn IndexError "list index out of range").

(** Lines 205-210: the first part that [int] accepts. *)
Fixpoint first_int (parts_name : list string) : option Z :=
  match parts_name with
  | [] => None
  | part :: rest =>
      match Py.int part with
      | Some n => Some n
      | None => first_int rest
      end
  end.

(** Line 243 *)
Definition fork_epoch_key (fork_name : string) : string :=
  Py.upper fork_name +:+ "_FORK_EPOCH".

(** Lines 241-251: the loop over [all_forks[current_fork_idx:]], with its
    [break]. *)
Fixpoint select_fork {L} (config : gmap string value) (epoch : Z)
    (forks : list string) (selected_fork : string) : M L string :=
  match forks with
  | [] => ret selected_fork
  | fork_name :: rest =>
      match config !! fork_epoch_key fork_name with
      | Some fork_epoch =>
          (let* activated := int_ge epoch fork_epoch in
           if activated : bool then select_fork config epoch rest fork_name
           else ret selected_fork)%M
      | None => select_fork config epoch rest selected_fork
      end
  end.

Section ParseSszPath.
(** The module-level table of line 70. *)
Variable PREVIOUS_FORK_OF : gmap string string.
(** The directory that holds the fixture. *)
Variable dir : directory.

Local Open Scope M_scope.

(** Lines 92-97: the index of the first part equal to ['tests'];
    [None] stands for -1. *)
Definition find_tests (parts : list string) : option nat := Py.index "tests" parts.

(** Lines 114-121 *)
Definition fork_test_rule (fork test_type filename : string) : M locals unit :=
  when ((test_type == "fork") && (filename == "pre.ssz_snappy"))
    match PREVIOUS_FORK_OF !! fork with
    | Some previous =>
        modify (set_actual_fork previous) ;;
        print (EvForkTest previous fork)
    | None => print (WarnNoPreviousFork fork)
    end.

(** Lines 123-139 *)
Definition transition_pre_rule (file_path : path)
    (fork test_type filename : string) : M locals unit :=
  when ((test_type == "transition") && (filename == "pre.ssz_snappy"))
    match meta_yaml dir with
    | Present load =>
        let* meta := safe_load load in
        let* v := dict_get meta "post_fork" (VStr fork) in
        let* post_fork := str_lower v in
        match PREVIOUS_FORK_OF !! post_fork with
        | Some previous =>
            modify (set_actual_fork previous) ;;
            print (EvTransitionPre previous post_fork)
        | None => print (WarnNoPreviousForkOfPost post_fork)
        end
    | Absent =>
        print (WarnMetaNotFound (path_str (sibling file_path "meta.yaml")) fork)
    end.

(** Lines 147-170: inside the [try], once the block index is known. *)
Definition transition_blocks_body (file_path : path) (fork : string)
    (block_index : Z) : M locals unit :=
  match meta_yaml dir with
  | Present load =>
      let* meta := safe_load load in
      let* v := dict_get meta "post_fork" (VStr fork) in
      let* post_fork := str_lower v in
      let* fork_block := dict_get meta "fork_block" VNone in
      match fork_block with
      | VNone => print (WarnForkBlockNotFound fork)
      | _ =>
          let* at_or_before := int_le block_index fork_block in
          if at_or_before : bool then
            match PREVIOUS_FORK_OF !! post_fork with
            | Some previous =>
                modify (set_actual_fork previous) ;;
                print (EvBlockPreFork block_index fork_block previous)
            | None => print (WarnNoPreviousForkOfPostBlock post_fork)
            end
          else
            modify (set_actual_fork post_fork) ;;
            print (EvBlockPostFork block_index fork_block post_fork)
      end
  | Absent =>
      print (WarnMetaNotFound (path_str (sibling file_path "meta.yaml")) fork)
  end.

(** Lines 141-172 *)
Definition transition_blocks_rule (file_path : path)
    (fork test_type filename : string) : M locals unit :=
  when ((test_type == "transition") && Py.startswith filename "blocks_")
    (try_except
       (let* second := item (Py.split "_" filename) 1 in
        let* first := item (Py.split "." second) 0 in
        let* block_index := int first in
        transition_blocks_body file_path fork block_index)
       value_or_index_error
       (λ e, print (WarnBlockIndex filename e))).

(** Lines 215-255: inside the [try], once a slot number is found. *)
Definition light_client_slot_body (fork test_suite test_case : string)
    (epoch_or_slot : Z) : M locals unit :=
  match config_yaml dir with
  | Present load =>
      let* config := safe_load load in
      let* v := dict_get config "PRESET_BASE" (VStr "mainnet") in
      let* preset_base := str_lower v in
      let slots_per_epoch := if preset_base == "minimal" then 8 else 32 in
      let epoch := epoch_or_slot `div` slots_per_epoch in
      let current_fork_idx := default 0%nat (Py.index fork all_forks) in
      let* selected_fork :=
        match config with
        | VDict m => select_fork m epoch (drop current_fork_idx all_forks) fork
        | _ => ret fork (* not reached: [config.get] has raised *)
        end in
      when (selected_fork != fork)
        (modify (set_actual_fork selected_fork) ;;
         print (EvLightClientSlot test_suite test_case epoch_or_slot
                  epoch selected_fork fork))
  | Absent => ret tt
  end.

(** Lines 190-257: the slot-boundary rule. *)
Definition light_client_slot_rule (fork test_suite test_case filename : string)
    : M locals unit :=
  when (existsb (Py.startswith filename) slot_prefixes)
    (try_except
       (let parts_name := Py.split "_" filename in
        match first_int parts_name with
        | Some epoch_or_slot =>
            modify (set_has_slot_number true) ;;
            light_client_slot_body fork test_suite test_case epoch_or_slot
        | None => ret tt
        end)
       value_or_index_error
       (λ e, print (WarnSlot filename e))).

(** Lines 174-270 *)
Definition light_client_rule (parts : list string) (tests_idx : nat)
    (fork test_type test_suite filename : string) : M locals unit :=
  when (test_type == "light_client")
    (let test_case := default "" (parts !! (tests_idx + 6)%nat) in
     let fork_names :=
       if filename != "initial_state.ssz_snappy"
       then filter (λ potential_fork, Py.contains potential_fork (Py.lower test_case) = true)
              all_forks
       else [] in
     modify (set_has_slot_number false) ;;
     light_client_slot_rule fork test_suite test_case filename ;;
     let* l := get in
     when (negb (has_slot_number l) && bool_decide (1 ≤ length fork_names)%nat
           && (test_suite != "sync"))
       (let selected_fork := default "" (last fork_names) in
        when (selected_fork != fork)
          (modify (set_actual_fork selected_fork) ;;
           print (EvLightClientName test_suite test_case selected_fork fork)))).

(** Lines 272-287 *)
Definition type_name_rule (parts : list string) (tests_idx : nat)
    (test_type test_suite filename : string) : M locals string :=
  if test_type == "ssz_static" then ret test_suite
  else if in_list test_type ["light_client"; "merkle_proof"]
          && (test_suite == "single_merkle_proof")
          && (filename == "object.ssz_snappy") then
    match parts !! (tests_idx + 5)%nat with
    | Some type_name => ret type_name
    | None =>
        raise (Exn ValueError
                 ("Path too short for light_client/merkle_proof single_merkle_proof test: "
                  +:+ path_str parts))
    end
  else ret (derive_type_from_suite test_type test_suite filename).

(** The result tuple [(preset, actual_fork, type_name, filename)]. *)
Record target := Target {
  t_preset : string;
  t_fork : string;
  t_type_name : string;
  t_filename : string
}.

Definition parse_ssz_path (file_path : path) : M locals target :=
  let parts := file_path in
  match find_tests parts with
  | None =>
      raise (Exn ValueError
               ("Path must contain 'tests' directory: " +:+ path_str file_path))
  | Some tests_idx =>
      if bool_decide (length parts < tests_idx + 5)%nat then
        raise (Exn ValueError
                 ("Path too short, expected format: tests/{preset}/{fork}/{test_type}/{test_suite}/...: "
                  +:+ path_str file_path))
      else
        let preset := default "" (parts !! (tests_idx + 1)%nat) in
        let fork := default "" (parts !! (tests_idx + 2)%nat) in
        let test_type := default "" (parts !! (tests_idx + 3)%nat) in
        let test_suite := default "" (parts !! (tests_idx + 4)%nat) in
        let filename := path_name file_path in
        modify (set_actual_fork fork) ;;
        fork_test_rule fork test_type filename ;;
        transition_pre_rule file_path fork test_type filename ;;
        transition_blocks_rule file_path fork test_type filename ;;
        light_client_rule parts tests_idx fork test_type test_suite filename ;;
        let* type_name := type_name_rule parts tests_idx test_type test_suite filename in
        let* l := get in
        ret (Target preset (actual_fork l) type_name filename)
  end.

(** Running the function: fresh locals, an empty log. *)
Definition run_parse (file_path : path) : outcome target * list event :=
  let '(r, _, log) := parse_ssz_path file_path (Locals "" false) [] in (r, log).
End ParseSszPath.

(** ** deserialize_ssz.py: [get_ssz_type_class] and [deserialize_ssz_file] *)

(** The list literal of line 493. *)
Definition fallback_forks : list string :=
  ["deneb"; "electra"; "capella"; "bellatrix"; "altair"].

(** Line 487 *)
Definition is_light_client_sync (input_path : path) : bool :=
  Py.contains "light_client" (path_str input_path)
  && Py.contains "/sync/" (path_str input_path).

(** Lines 488-495 *)
Definition alternative_forks (input_path : path) (fork : string) : list string :=
  if is_light_client_sync input_path then
    let path_lower := Py.lower (path_str input_path) in
    filter (λ potential_fork,
              Py.contains potential_fork path_lower = true ∧ potential_fork ≠ fork)
      fallback_forks
  else [].

Section Dispatcher.
(** The collaborators: the SSZ classes, [importlib.import_module] (a module
    is its attribute lookup, [None] where [hasattr] is false), the decoder
    and the writer of [eth2spec.debug.tools]. *)
Context {ssz_type obj : Type}.
Variable Deltas : ssz_type.
Variable import_module : string → outcome (string → option ssz_type).
Variable get_ssz_object_from_ssz_encoded : path → ssz_type → outcome obj.
Variable output_ssz_to_file : path → obj → outcome unit.

Variable PREVIOUS_FORK_OF : gmap string string.
Variable dir : directory.

Local Open Scope M_scope.

(** Lines 430-462 *)
Definition get_ssz_type_class {L} (preset fork type_name : string) : M L ssz_type :=
  if type_name == "Deltas" then ret Deltas
  else
    let preset := if preset == "general" then "mainnet" else preset in
    let module_path := "eth2spec." +:+ fork +:+ "." +:+ preset in
    let* module :=
      try_except (of_outcome (import_module module_path))
        (λ e, exn_cls e == ImportError)
        (λ e, raise (Exn ImportError
                       ("Failed to import module " +:+ module_path +:+ ": "
                        +:+ exn_text e))) in
    match module type_name with
    | None =>
        raise (Exn AttributeError
                 ("Module " +:+ module_path +:+ " does not have type '"
                  +:+ type_name +:+ "'"))
    | Some class => ret class
    end.

(** Lines 514-528: the loop over [alternative_forks] with its [break] and
    its [else] clause.  The local [fork] is the state. *)
Fixpoint try_alternative_forks (input_path : path) (preset type_name : string)
    (e : exn) (alternative_forks : list string) : M string obj :=
  match alternative_forks with
  | [] => raise e
  | alt_fork :: rest =>
      try_except
        (print (EvTryingFork alt_fork) ;;
         let* ssz_type_class := get_ssz_type_class preset alt_fork type_name in
         let* ssz_obj :=
           of_outcome (get_ssz_object_from_ssz_encoded input_path ssz_type_class) in
         print (EvSuccessWith alt_fork) ;;
         modify (λ _, alt_fork) ;;
         ret ssz_obj)
        (λ _, true)
        (λ alt_e,
           print (EvAltFailed alt_fork alt_e) ;;
           try_alternative_forks input_path preset type_name e rest)
  end.

(** Lines 465-543.  The state is the local [fork]. *)
Definition deserialize_ssz_file (input_path : path) (output_path : option path)
    : M string obj :=
  let* t := call (parse_ssz_path PREVIOUS_FORK_OF dir input_path) (Locals "" false) in
  let preset := t_preset t in
  let fork := t_fork t in
  let type_name := t_type_name t in
  let filename := t_filename t in
  modify (λ _, fork) ;;
  print (EvDetected preset fork type_name filename) ;;
  let is_light_client_sync := is_light_client_sync input_path in
  let alternative_forks := alternative_forks input_path fork in
  let* ssz_type_class := get_ssz_type_class preset fork type_name in
  print EvLoadedType ;;
  print (EvDeserializing (path_str input_path)) ;;
  let* ssz_obj :=
    try_except
      (let* ssz_obj :=
         of_outcome (get_ssz_object_from_ssz_encoded input_path ssz_type_class) in
       print EvSuccess ;;
       ret ssz_obj)
      (λ _, true)
      (λ e,
         if is_light_client_sync && bool_decide (alternative_forks ≠ []) then
           print (EvFailedWithFork fork e) ;;
           print (EvTryingAlternatives alternative_forks) ;;
           try_alternative_forks input_path preset type_name e alternative_forks
         else raise e) in
  match output_path with
  | Some output_path =>
      of_outcome (output_ssz_to_file output_path ssz_obj) ;;
      print (EvExported (path_str output_path))
  | None => print EvPrintObject
  end ;;
  ret ssz_obj.

(** Running the function: the decoded object (or the exception), the final
    value of [fork], and the log. *)
Definition run_deserialize (input_path : path) (output_path : option path)
    : outcome obj * string * list event :=
  deserialize_ssz_file input_path output_path "" [].
End Dispatcher.

(** ** deserialize_ssz.py: [load_previous_fork_mapping] *)

(** [s] without the prefix [p], when it starts with it. *)
Fixpoint drop_prefix (p s : string) : option string :=
  match p, s with
  | EmptyString, _ => Some s
  | String a p', String b s' => if Ascii.eqb a b then drop_prefix p' s' else None
  | String _ _, EmptyString => None
  end.

(** The longest prefix of characters other than [c], and the rest. *)
Fixpoint span_until (c : ascii) (s : string) : string * string :=
  match s with
  | EmptyString => (EmptyString, EmptyString)
  | String a s' =>
      if Ascii.eqb a c then (EmptyString, s)
      else let '(body, rest) := span_until c s' in (String a body, rest)
  end.

(** The pattern of line 51 matched at the start of [s]: the literal name,
    white space, [=], white space, an opening brace, one or more characters
    other than a closing brace, and a closing brace.  Every repetition is
    followed by a character it cannot itself match, so the greedy match is
    the only one.  The result is group 1. *)
Definition match_previous_fork_of (s : string) : option string :=
  s1 ← drop_prefix "PREVIOUS_FORK_OF" s;
  s2 ← drop_prefix "=" (Py.lstrip_with Py.isspace s1);
  s3 ← drop_prefix "{" (Py.lstrip_with Py.isspace s2);
  let '(body, rest) := span_until "}" s3 in
  match body, rest with
  | String _ _, String _ _ => Some body
  | _, _ => None
  end.

(** [re.search]: the match at the leftmost position that has one. *)
Fixpoint re_search (s : string) : option string :=
  match match_previous_fork_of s with
  | Some group => Some group
  | None =>
      match s with
      | EmptyString => None
      | String _ s' => re_search s'
      end
  end.

(** Lines 55-64: one line of the dictionary text. *)
Definition parse_line (previous_fork_of : gmap string string) (line : string)
    : gmap string string :=
  let line := Py.strip line in
  if Py.contains ":" line && negb (Py.startswith line "#") then
    match Py.split ":" line with
    | [part0; part1] =>
        let key := Py.strip part0 in
        let value := Py.rstrip_comma (Py.strip part1) in
        if (value != "") && (value != "None")
        then <[Py.lower key := Py.lower value]> previous_fork_of
        else previous_fork_of
    | _ => previous_fork_of
    end
  else previous_fork_of.

(** Lines 34-66.  [constants] is the text of [constants.py], [None] when the
    file does not exist. *)
Definition load_previous_fork_mapping (constants : option string)
    : gmap string string :=
  match constants with
  | None => ∅
  | Some content =>
      match re_search content with
      | Some dict_content => foldl parse_line ∅ (Py.split "010" dict_content)
      | None => ∅
      end
  end.

(** ** check_missing_yamls.py *)

(** A file tree: what [os.walk] and [Path.exists] can see of it. *)
#[warnings="-register-all"]
Inductive node :=
  | File (name : string)
  | Folder (name : string) (entries : list node).

Definition node_name (n : node) : string :=
  match n with File name | Folder name _ => name end.

Definition is_folder (n : node) : bool :=
  match n with Folder _ _ => true | File _ => false end.

(** The [dirs] and [files] that [os.walk] reports for a directory. *)
Definition dirnames (entries : list node) : list string :=
  node_name <$> filter (λ n, is_folder n = true) entries.
Definition filenames (entries : list node) : list string :=
  node_name <$> filter (λ n, is_folder n = false) entries.

(** [os.walk(top)], top-down: the triple of a directory, then the walks of
    its sub-directories.  [root] is kept relative to [tests_dir]. *)
Fixpoint os_walk (parent : path) (n : node)
    : list (path * list string * list string) :=
  match n with
  | File _ => []
  | Folder name entries =>
      let root := parent ++ [name] in
      (root, dirnames entries, filenames entries)
        :: flat_map (os_walk root) entries
  end.

(** The dictionary that [check_missing_yamls] returns. *)
Record report := Report {
  total_ssz : nat;
  total_yaml : nat;
  missing_count : nat;
  missing_by_test_type : gmap string nat;
  missing_files : list string
}.

(** [d[k] += 1] on a [defaultdict(int)] *)
Definition increment (k : string) (d : gmap string nat) : gmap string nat :=
  <[k := S (default 0%nat (d !! k))]> d.

(** Line 34 *)
Definition is_ssz (file : string) : bool :=
  Py.endswith file ".ssz_snappy" && negb (Py.endswith file ".ssz_snappy.yaml").

(** Line 39: [yaml_file.exists()], for a name in the directory walked. *)
Definition has_yaml (dirs files : list string) (file : string) : bool :=
  bool_decide (file +:+ ".yaml" ∈ files ++ dirs).

(** Line 48 *)
Definition test_key (parts : path) : string :=
  Py.join "/" (take 4 parts).

(** Lines 34-50: the body of the loop over [files]. *)
Definition visit_file (root : path) (dirs files : list string)
    (r : report) (file : string) : report :=
  if is_ssz file then
    let total_ssz := S (total_ssz r) in
    let ssz_file := root ++ [file] in
    if has_yaml dirs files file then
      Report total_ssz (S (total_yaml r)) (missing_count r)
        (missing_by_test_type r) (missing_files r)
    else
      let missing_count := S (missing_count r) in
      let parts := ssz_file in
      if bool_decide (4 ≤ length parts)%nat then
        Report total_ssz (total_yaml r) missing_count
          (increment (test_key parts) (missing_by_test_type r))
          (missing_files r ++ [Py.join "/" parts])
      else
        Report total_ssz (total_yaml r) missing_count
          (missing_by_test_type r) (missing_files r)
  else r.

(** Lines 32-33 *)
Definition visit_directory (r : report)
    (triple : path * list string * list string) : report :=
  let '(root, dirs, files) := triple in
  foldl (visit_file root dirs files) r files.

(** [tests_dir / preset], when it exists. *)
Definition find_entry (name : string) (entries : list node) : option node :=
  head (filter (λ n, node_name n = name) entries).

(** Lines 27-33 *)
Definition visit_preset (tests_dir : list node) (r : report) (preset : string)
    : report :=
  match find_entry preset tests_dir with
  | None => r
  | Some preset_path => foldl visit_directory r (os_walk [] preset_path)
  end.

(** Lines 18-58.  [tests_dir] is given by its entries. *)
Definition check_missing_yamls (tests_dir : list node) : report :=
  foldl (visit_preset tests_dir) (Report 0 0 0 ∅ []) ["minimal"; "mainnet"].

(** Line 105 of [main]: the order in which the missing files are printed. *)
Definition printed_missing_files (r : report) : list string :=
  merge_sort String.le (missing_files r).

(** ** deserialize_ssz.py: [main] *)

(** [Path(s).parts] for a POSIX path: the root if there is one (exactly two
    leading slashes make the root ["//"]), then the components that are
    neither empty nor ["."]. *)
Definition Path (s : string) : path :=
  let root :=
    match s with
    | String "/" (String "/" (String "/" _)) => ["/"]
    | String "/" (String "/" _) => ["//"]
    | String "/" _ => ["/"]
    | _ => []
    end in
  root ++ filter (λ x, x ≠ "" ∧ x ≠ ".") (Py.split "/" s).

(** What [main] writes: the lines of [deserialize_ssz_file] on the standard
    output, and its own. *)
Inductive main_event :=
  | Stdout (ev : event)
  | OutUsage                                   (* lines 548-552 *)
  | ErrInputMissing (input_path : string)      (* line 559 *)
  | ErrSkipping (e : exn)                      (* line 568 *)
  | ErrUnexpected (e : exn).                   (* lines 573-575 *)

(** [except (ValueError, AttributeError, ImportError)] *)
Definition expected_error (e : exn) : bool :=
  bool_decide (exn_cls e ∈ [ValueError; AttributeError; ImportError]).

Section Main.
Context {ssz_type obj : Type}.
Variable Deltas : ssz_type.
Variable import_module : string → outcome (string → option ssz_type).
Variable get_ssz_object_from_ssz_encoded : path → ssz_type → outcome obj.
Variable output_ssz_to_file : path → obj → outcome unit.
Variable PREVIOUS_FORK_OF : gmap string string.
Variable dir : directory.
(** [Path.exists] *)
Variable path_exists : path → bool.

(** Lines 546-576: the exit status and what is written.  [argv] is
    [sys.argv]; falling off the end of [main] is exit status 0. *)
Definition main (argv : list string) : Z * list main_event :=
  if bool_decide (length argv < 2)%nat then (1, [OutUsage])
  else
    let input_path := Path (default "" (argv !! 1%nat)) in
    let output_path := Path <$> argv !! 2%nat in
    if negb (path_exists input_path) then
      (1, [ErrInputMissing (path_str input_path)])
    else
      match run_deserialize Deltas import_module get_ssz_object_from_ssz_encoded
              output_ssz_to_file PREVIOUS_FORK_OF dir input_path output_path with
      | (Ok _, _, log) => (0, Stdout <$> log)
      | (Raise e, _, log) =>
          if expected_error e then (2, (Stdout <$> log) ++ [ErrSkipping e])
          else (1, (Stdout <$> log) ++ [ErrUnexpected e])
      end.
End Main.

(** * Definitions used by the statements *)

(** ** Path decomposition *)

(** [parts] has its first ['tests'] at index [i], followed by the four
    conventional segments, and ends in [filename]. *)
Definition decomposes (parts : path) (i : nat)
    (preset fork test_type test_suite filename : string) : Prop :=
  find_tests parts = Some i
  ∧ parts !! (i + 1)%nat = Some preset
  ∧ parts !! (i + 2)%nat = Some fork
  ∧ parts !! (i + 3)%nat = Some test_type
  ∧ parts !! (i + 4)%nat = Some test_suite
  ∧ path_name parts = filename.

(** ** Which exceptions a computation can raise, and what it keeps *)

(** [m] returns, or raises an exception that [allowed] accepts. *)
Definition raises_only {L A} (allowed : exn → bool) (m : M L A) : Prop :=
  ∀ l log,
    match m l log with
    | (Ok _, _, _) => True
    | (Raise e, _, _) => allowed e = true
    end.

(** [m] always returns. *)
Definition returns {L A} (m : M L A) : Prop := raises_only (λ _, false) m.

(** [m] leaves the local [has_slot_number] as it is. *)
Definition keeps_has_slot_number {A} (m : M locals A) : Prop :=
  ∀ l log, has_slot_number (m l log).1.2 = has_slot_number l.

(** ** Multi-block transition tests *)

(** What line 145 computes, [None] where it raises. *)
Definition block_index (filename : string) : option Z :=
  second ← Py.split "_" filename !! 1%nat;
  first ← Py.split "." second !! 0%nat;
  Py.int first.

(** [meta.get('post_fork', fork)] when it is a string (or absent). *)
Definition post_fork_of (meta : gmap string value) (fork : string) : option string :=
  match meta !! "post_fork" with
  | None => Some fork
  | Some (VStr s) => Some s
  | Some _ => None
  end.

(** [meta.get('fork_block')] is [None]: the key is absent or null. *)
Definition fork_block_missing (meta : gmap string value) : Prop :=
  meta !! "fork_block" = None ∨ meta !! "fork_block" = Some VNone.

(** ** The light-client slot-boundary rule, in the words of the spec *)

(** Slots per epoch: 8 when the configuration's [PRESET_BASE] is [minimal]
    (in any case), 32 otherwise, also when the key is absent.  [None] when
    the value is not a string. *)
Definition slots_per_epoch (config : gmap string value) : option Z :=
  match config !! "PRESET_BASE" with
  | None => Some 32
  | Some (VStr s) => Some (if Py.lower s == "minimal" then 8 else 32)
  | Some _ => None
  end.

(** The part of [forks] that starts at the first [fork]. *)
Fixpoint suffix_from (fork : string) (forks : list string) : option (list string) :=
  match forks with
  | [] => None
  | v :: rest => if decide (v = fork) then Some forks else suffix_from fork rest
  end.

(** The versions walked: from the directory fork on, or all of them when
    the directory fork is not a known version. *)
Definition walked_forks (fork : string) : list string :=
  default all_forks (suffix_from fork all_forks).

(** A number: an integer (a boolean counts as 0 or 1) or a float. *)
Definition is_number (x : value) : Prop :=
  is_Some (int_of_value x) ∨ ∃ f, x = VFloat f.

(** The epoch is at or past the activation epoch [x], a number. *)
Definition activated_at (epoch : Z) (x : value) : Prop :=
  (∃ activation, int_of_value x = Some activation ∧ activation ≤ epoch)
  ∨ (∃ f, x = VFloat f ∧ int_ge_float epoch f = true).

(** The epoch is before the activation epoch [x], a number (or [x] is
    nan, which no epoch reaches). *)
Definition not_activated_at (epoch : Z) (x : value) : Prop :=
  (∃ activation, int_of_value x = Some activation ∧ epoch < activation)
  ∨ (∃ f, x = VFloat f ∧ int_ge_float epoch f = false).

(** [walk config epoch forks current result]: walking [forks] in order, a
    version without activation key is passed over, a version whose
    activation epoch is at or before [epoch] becomes the current one, and
    the walk stops at the first version whose activation epoch is after
    [epoch], or at the end of the list. *)
Inductive walk (config : gmap string value) (epoch : Z)
    : list string → string → string → Prop :=
  | walk_end current : walk config epoch [] current current
  | walk_pass v rest current result :
      config !! fork_epoch_key v = None →
      walk config epoch rest current result →
      walk config epoch (v :: rest) current result
  | walk_advance v rest current result x :
      config !! fork_epoch_key v = Some x →
      activated_at epoch x →
      walk config epoch rest v result →
      walk config epoch (v :: rest) current result
  | walk_stop v rest current x :
      config !! fork_epoch_key v = Some x →
      not_activated_at epoch x →
      walk config epoch (v :: rest) current current.

(** Every activation epoch of a known version is a number. *)
Definition epochs_are_numbers (config : gmap string value) : Prop :=
  ∀ v x, v ∈ all_forks → config !! fork_epoch_key v = Some x → is_number x.

(** [V2] is the only known version with an activation key. *)
Definition only_key (config : gmap string value) (V2 : string) : Prop :=
  ∀ v, v ∈ all_forks → v ≠ V2 → config !! fork_epoch_key v = None.

(** ** The retry policy, in the words of the spec and as outcomes *)

(** The names of [names] that start at each position of [s], from left to
    right. *)
Fixpoint occurrences (names : list string) (s : string) : list string :=
  filter (λ name, String.prefix name s = true) names
  ++ match s with
     | EmptyString => []
     | String _ s' => occurrences names s'
     end.

(** [l] without the repetitions of what was seen earlier. *)
Fixpoint first_occurrences (seen l : list string) : list string :=
  match l with
  | [] => []
  | x :: rest =>
      if decide (x ∈ seen) then first_occurrences seen rest
      else x :: first_occurrences (x :: seen) rest
  end.

(** The candidates as the spec words them: every known version name that
    appears in the (lower-cased) path and differs from the fork already
    tried, in the order in which they occur in the path. *)
Definition path_order_candidates (input_path : path) (fork : string) : list string :=
  first_occurrences []
    (filter (λ name, name ≠ fork)
       (occurrences all_forks (Py.lower (path_str input_path)))).

(** The first candidate on which [attempt] succeeds, with its result. *)
Fixpoint first_success {obj} (attempt : string → outcome obj) (alts : list string)
    : option (string * obj) :=
  match alts with
  | [] => None
  | alt :: rest =>
      match attempt alt with
      | Ok o => Some (alt, o)
      | Raise _ => first_success attempt rest
      end
  end.

(** The candidates that are tried: up to and including the first success. *)
Fixpoint attempted {obj} (attempt : string → outcome obj) (alts : list string)
    : list string :=
  match alts with
  | [] => []
  | alt :: rest =>
      match attempt alt with
      | Ok _ => [alt]
      | Raise _ => alt :: attempted attempt rest
      end
  end.

(** The forks announced by line 516, in order. *)
Definition tried (log : list event) : list string :=
  omap (λ ev, match ev with EvTryingFork alt_fork => Some alt_fork | _ => None end) log.

Section DispatcherOutcomes.
Context {ssz_type obj : Type}.
Variable Deltas : ssz_type.
Variable import_module : string → outcome (string → option ssz_type).
Variable get_ssz_object_from_ssz_encoded : path → ssz_type → outcome obj.

(** The outcome of [get_ssz_type_class], which touches neither the locals
    nor the log. *)
Definition type_class (preset fork type_name : string) : outcome ssz_type :=
  (get_ssz_type_class Deltas import_module preset fork type_name tt []).1.1.

(** The outcome of lines 517-518 for one fork. *)
Definition decode_with (input_path : path) (preset type_name fork : string)
    : outcome obj :=
  match type_class preset fork type_name with
  | Ok class => get_ssz_object_from_ssz_encoded input_path class
  | Raise e => Raise e
  end.
End DispatcherOutcomes.

(** ** The fork transition table as a graph *)

(** Following predecessor links: from [k], at most [fuel] lookups; the
    result is the version reached that has no predecessor in the table. *)
Fixpoint follow (table : gmap string string) (fuel : nat) (k : string)
    : option string :=
  match table !! k with
  | None => Some k
  | Some previous =>
      match fuel with
      | O => None
      | S fuel' => follow table fuel' previous
      end
  end.

(** [k] reaches [k'] by one or more predecessor links. *)
Inductive reaches (table : gmap string string) : string → string → Prop :=
  | reaches_link k v : table !! k = Some v → reaches table k v
  | reaches_more k v k' :
      table !! k = Some v → reaches table v k' → reaches table k k'.

Definition acyclic (table : gmap string string) : Prop :=
  ∀ k, ¬ reaches table k k.

(** ** The audit, as counts over the fixtures of the tree *)

(** A binary fixture met by the walk: its path relative to [tests_dir], and
    whether its companion exists. *)
Record fixture := Fixture { fx_parts : path; fx_companion : bool }.

(** The fixtures of one directory, of one preset sub-tree, and of the two
    preset sub-trees, in the order of the walk. *)
Definition directory_fixtures (triple : path * list string * list string)
    : list fixture :=
  let '(root, dirs, files) := triple in
  (λ file, Fixture (root ++ [file]) (has_yaml dirs files file))
    <$> filter (λ file, is_ssz file = true) files.

Definition preset_fixtures (tests_dir : list node) (preset : string) : list fixture :=
  match find_entry preset tests_dir with
  | None => []
  | Some preset_path => flat_map directory_fixtures (os_walk [] preset_path)
  end.

Definition fixtures (tests_dir : list node) : list fixture :=
  flat_map (preset_fixtures tests_dir) ["minimal"; "mainnet"].

(** Without a companion; and, among those, with the four segments of a
    category key. *)
Definition unrendered (fs : list fixture) : list fixture :=
  filter (λ f, fx_companion f = false) fs.

Definition keyed (fs : list fixture) : list fixture :=
  filter (λ f, (4 ≤ length (fx_parts f))%nat) (unrendered fs).

Definition with_key (key : string) (fs : list fixture) : list fixture :=
  filter (λ f, test_key (fx_parts f) = key) fs.

Definition relative_path (f : fixture) : string := Py.join "/" (fx_parts f).

(** [r] is [r0] after the fixtures [fs] have been counted. *)
Definition accounts (r0 : report) (fs : list fixture) (r : report) : Prop :=
  total_ssz r = (total_ssz r0 + length fs)%nat
  ∧ total_yaml r
    = (total_yaml r0 + length (filter (λ f, fx_companion f = true) fs))%nat
  ∧ missing_count r = (missing_count r0 + length (unrendered fs))%nat
  ∧ missing_files r = missing_files r0 ++ (relative_path <$> keyed fs)
  ∧ ∀ key,
      default 0%nat (missing_by_test_type r !! key)
      = (default 0%nat (missing_by_test_type r0 !! key)
         + length (with_key key (keyed fs)))%nat.

(** [folder_at n p entries]: following the names [p] from the node [n]
    (its own name first) leads to a folder with these [entries]. *)
Inductive folder_at : node → path → list node → Prop :=
  | folder_here name entries : folder_at (Folder name entries) [name] entries
  | folder_below name entries n p entries' :
      n ∈ entries →
      folder_at n p entries' →
      folder_at (Folder name entries) (name :: p) entries'.

(** An entry of that name exists in the folder. *)
Definition has_entry (entries : list node) (name : string) : Prop :=
  ∃ n, n ∈ entries ∧ node_name n = name.

(** ** Sample inputs *)

Definition newline : string := String "010"%char EmptyString.

(** A [constants.py] in the shape of the one in consensus-specs. *)
Definition sample_constants : string :=
  Py.join newline
    [ "PHASE0 = SpecForkName('phase0')";
      "";
      "PREVIOUS_FORK_OF = {";
      "    # post_fork_name: pre_fork_name";
      "    PHASE0: None,";
      "    ALTAIR: PHASE0,";
      "    BELLATRIX: ALTAIR,";
      "    CAPELLA: BELLATRIX,";
      "    DENEB: CAPELLA,";
      "    ELECTRA: DENEB,";
      "    FULU: ELECTRA,";
      "    GLOAS: FULU,";
      "    # Experimental patches";
      "    EIP7805: FULU,";
      "}";
      "" ].

Definition sample_table : gmap string string :=
  list_to_map
    [ ("altair", "phase0"); ("bellatrix", "altair"); ("capella", "bellatrix");
      ("deneb", "capella"); ("electra", "deneb"); ("fulu", "electra");
      ("gloas", "fulu"); ("eip7805", "fulu") ].

(** The position of a version in the chain of [sample_table]. *)
Definition sample_rank (v : string) : nat :=
  default 0%nat
    (Py.index v
       ["phase0"; "altair"; "bellatrix"; "capella"; "deneb"; "electra"; "fulu";
        "gloas"; "eip7805"]).

(** A [constants.py] whose dictionary has a cycle, and the table it loads. *)
Definition cyclic_constants : string :=
  Py.join newline
    [ "PREVIOUS_FORK_OF = {";
      "    ALTAIR: BELLATRIX,";
      "    BELLATRIX: ALTAIR,";
      "}" ].

Definition cyclic_table : gmap string string :=
  list_to_map [ ("altair", "bellatrix"); ("bellatrix", "altair") ].

(** A test directory of the [transition] category, and two [meta.yaml]. *)
Definition transition_case (filename : string) : path :=
  ["/"; "data"; "tests"; "minimal"; "altair"; "transition"; "core"; "pyspec_tests";
   "normal_transition"; filename].

Definition meta_full : gmap string value :=
  <["post_fork" := VStr "altair"]> (<["fork_block" := VInt 2]> ∅).

Definition meta_without_post_fork : gmap string value :=
  <["fork_block" := VInt 3]> ∅.

(** Two more: a [post_fork] that is a number, and another version than
    the directory's as [post_fork]. *)
Definition meta_post_fork_number : gmap string value :=
  <["post_fork" := VInt 5]> ∅.

Definition meta_bellatrix : gmap string value :=
  <["post_fork" := VStr "bellatrix"]> (<["fork_block" := VInt 2]> ∅).

(** A light-client test directory. *)
Definition light_client_case (fork filename : string) : path :=
  ["/"; "data"; "tests"; "minimal"; fork; "light_client"; "sync"; "pyspec_tests";
   "light_client_sync"; filename].

(** Two [config.yaml]. *)
Definition config_electra : gmap string value :=
  <["PRESET_BASE" := VStr "minimal"]> (<["ELECTRA_FORK_EPOCH" := VInt 12]> ∅).

Definition config_altair : gmap string value :=
  <["PRESET_BASE" := VStr "minimal"]> (<["ALTAIR_FORK_EPOCH" := VInt 0]> ∅).

(** Three more: a [PRESET_BASE] that is a number, an activation epoch that
    is a text, and one that is the float 12.5. *)
Definition config_preset_number : gmap string value :=
  <["PRESET_BASE" := VInt 42]> (<["ELECTRA_FORK_EPOCH" := VInt 12]> ∅).

Definition config_text_epoch : gmap string value :=
  <["PRESET_BASE" := VStr "minimal"]> (<["ELECTRA_FORK_EPOCH" := VStr "twelve"]> ∅).

Definition config_float_epoch : gmap string value :=
  <["PRESET_BASE" := VStr "minimal"]>
    (<["ELECTRA_FORK_EPOCH" := VFloat (FFinite 25 (-1))]> ∅).

Definition sync_case (fork test_case filename : string) : path :=
  ["/"; "data"; "tests"; "minimal"; fork; "light_client"; "sync"; "pyspec_tests";
   test_case; filename].

(** Collaborators for the samples: a class is the name of its module and
    its own name, every module has every type, and decoding succeeds for
    the modules of [good_forks] only. *)
Definition sample_import (module_path : string)
    : outcome (string → option string) :=
  Ok (λ type_name, Some (module_path +:+ ":" +:+ type_name)).

Definition sample_decode (good_forks : list string) (input_path : path)
    (class : string) : outcome string :=
  if existsb (λ fork, Py.startswith class ("eth2spec." +:+ fork +:+ ".")) good_forks
  then Ok ("decoded as " +:+ class)
  else Raise (Exn OtherError ("cannot decode as " +:+ class)).

Definition sample_output (output_path : path) (o : string) : outcome unit := Ok tt.

Definition run_sample (good_forks : list string) (input_path : path)
    : outcome string * string * list event :=
  run_deserialize "Deltas" sample_import (sample_decode good_forks) sample_output
    sample_table (Directory Absent Absent) input_path None.

(** A tree with ten binary fixtures in two categories, seven of them with
    a companion. *)
Definition sample_tree : list node :=
  [ Folder "minimal"
      [ Folder "phase0"
          [ Folder "operations"
              [ Folder "attestation"
                  [ Folder "case_0"
                      [ File "pre.ssz_snappy"; File "pre.ssz_snappy.yaml";
                        File "post.ssz_snappy";
                        File "attestation.ssz_snappy";
                        File "attestation.ssz_snappy.yaml";
                        File "meta.yaml" ];
                    Folder "case_1"
                      [ File "pre.ssz_snappy";
                        File "attestation.ssz_snappy";
                        File "attestation.ssz_snappy.yaml" ] ] ] ] ];
    Folder "mainnet"
      [ Folder "phase0"
          [ Folder "sanity"
              [ Folder "blocks"
                  [ Folder "case_0"
                      [ File "pre.ssz_snappy"; File "pre.ssz_snappy.yaml";
                        File "blocks_0.ssz_snappy"; File "blocks_0.ssz_snappy.yaml";
                        File "blocks_1.ssz_snappy"; File "blocks_1.ssz_snappy.yaml";
                        File "post.ssz_snappy" ];
                    Folder "case_1"
                      [ File "pre.ssz_snappy"; File "pre.ssz_snappy.yaml" ] ] ] ] ];
    Folder "general" [ File "skipped.ssz_snappy" ] ].

(** A tree whose only fixture lies two levels below the root. *)
Definition shallow_tree : list node :=
  [ Folder "minimal" [ Folder "phase0" [ File "genesis.ssz_snappy" ] ] ].

(** A tree whose only fixture is under the [general] preset. *)
Definition general_tree : list node :=
  [ Folder "general"
      [ Folder "phase0"
          [ Folder "ssz_generic"
              [ Folder "uints"
                  [ Folder "valid"
                      [ Folder "uint_8_one" [ File "serialized.ssz_snappy" ] ] ] ] ] ] ].

(** * Definitions used by further statements *)

(** ** The cases of [parse_ssz_path] *)

(** A fork rule of [parse_ssz_path] looks at the fixture: the conditions of
    lines 116, 124, 142 and 175. *)
Definition fork_rule_applies (test_type filename : string) : bool :=
  ((test_type == "fork") && (filename == "pre.ssz_snappy"))
  || ((test_type == "transition")
      && ((filename == "pre.ssz_snappy") || Py.startswith filename "blocks_"))
  || (test_type == "light_client").

(** Lines 186-188: the known versions whose name occurs in the test name. *)
Definition named_forks (test_case : string) : list string :=
  filter (λ potential_fork, Py.contains potential_fork (Py.lower test_case) = true)
    all_forks.

(** ** What [parse_ssz_path] raises and prints *)

(** The loader of the sidecar raised [e]. *)
Definition load_error (s : sidecar) (e : exn) : bool :=
  match s with
  | Present (Raise e') => bool_decide (e' = e)
  | _ => false
  end.

(** The exceptions that leave the fork rules of [parse_ssz_path]: of two
    classes, or what the loader of a sidecar raised. *)
Definition rules_may_raise (dir : directory) (e : exn) : bool :=
  bool_decide (exn_cls e ∈ [AttributeError; TypeError])
  || load_error (meta_yaml dir) e || load_error (config_yaml dir) e.

(** [m] appends to the log only events that satisfy [P], and raises only
    exceptions that satisfy [E]. *)
Definition behaves {L A} (E : exn → Prop) (P : event → Prop) (m : M L A) : Prop :=
  ∀ l log,
    ∃ more,
      (m l log).2 = log ++ more ∧ Forall P more
      ∧ match (m l log).1.1 with
        | Ok _ => True
        | Raise e => E e
        end.

(** What a warning about a name that could not be parsed tells. *)
Definition warning_is_founded (dir : directory) (ev : event) : Prop :=
  match ev with
  | WarnSlot filename e =>
      config_yaml dir = Present (Raise e) ∧ value_or_index_error e = true
  | WarnBlockIndex filename e =>
      block_index filename = None
      ∨ (meta_yaml dir = Present (Raise e) ∧ value_or_index_error e = true)
  | _ => True
  end.

(** ** Derived type names *)

(** [s] has no underscore. *)
Definition no_underscore (s : string) : Prop := Py.contains "_" s = false.

(** ** The table and the text it is loaded from *)

(** Every key and value is in lower case, and no value is empty. *)
Definition lower_case_table (t : gmap string string) : Prop :=
  ∀ k v, t !! k = Some v → Py.lower k = k ∧ Py.lower v = v ∧ v ≠ "".

(** Every character of [s] satisfies [p]. *)
Fixpoint all_chars (p : ascii → bool) (s : string) : bool :=
  match s with
  | EmptyString => true
  | String c s' => p c && all_chars p s'
  end.

(** A name as [constants.py] writes them: letters, digits, underscores. *)
Definition name_char (c : ascii) : bool :=
  let n := nat_of_ascii c in
  ((48 <=? n)%nat && (n <=? 57)%nat) || ((65 <=? n)%nat && (n <=? 90)%nat)
  || ((97 <=? n)%nat && (n <=? 122)%nat) || (n =? 95)%nat.

(** A name: not empty. *)
Definition is_name (s : string) : bool :=
  match s with
  | EmptyString => false
  | _ => all_chars name_char s
  end.

(** A line inside the braces: an entry [KEY: VALUE,] whose value is a name
    or [None], or a comment. *)
Inductive dict_line :=
  | Entry (key : string) (previous : option string)
  | Comment (text : string).

(** A line as it is written, indented by four spaces. *)
Definition render_line (line : dict_line) : string :=
  match line with
  | Entry key previous => "    " +:+ key +:+ ": " +:+ default "None" previous +:+ ","
  | Comment text => "    #" +:+ text
  end.

(** The assignment, one line per entry. *)
Definition dictionary_text (lines : list dict_line) : string :=
  "PREVIOUS_FORK_OF = {" +:+ newline
  +:+ foldr (λ line rest, render_line line +:+ newline +:+ rest) "}" lines.

(** The names are names, a value is not spelled [None], and a comment has
    neither a line feed nor a closing brace. *)
Definition well_formed (line : dict_line) : Prop :=
  match line with
  | Entry key previous =>
      is_name key = true
      ∧ ∀ value, previous = Some value → is_name value = true ∧ value ≠ "None"
  | Comment text =>
      all_chars (λ c, negb (Ascii.eqb c "010") && negb (Ascii.eqb c "}")) text = true
  end.

(** The table that the lines denote: a later entry replaces an earlier one
    of the same key, an entry whose value is [None] adds nothing. *)
Definition table_of (lines : list dict_line) : gmap string string :=
  foldl (λ table line,
           match line with
           | Entry key (Some value) => <[Py.lower key := Py.lower value]> table
           | _ => table
           end) ∅ lines.

(** The keys that the lines give a predecessor, in lower case. *)
Definition linked_keys (lines : list dict_line) : list string :=
  omap (λ line,
          match line with
          | Entry key (Some _) => Some (Py.lower key)
          | _ => None
          end) lines.

(** Every version is listed after its predecessor, as [constants.py]
    does: an entry's predecessor differs from its key, and neither the
    key nor the predecessor is given a predecessor by a later line. *)
Fixpoint predecessors_first (lines : list dict_line) : bool :=
  match lines with
  | [] => true
  | Entry key (Some value) :: rest =>
      bool_decide (Py.lower value ≠ Py.lower key)
      && bool_decide (Py.lower key ∉ linked_keys rest)
      && bool_decide (Py.lower value ∉ linked_keys rest)
      && predecessors_first rest
  | _ :: rest => predecessors_first rest
  end.

(** The place of a version among the keys of the lines, from 1; 0 for a
    version that the lines give no predecessor. *)
Definition rank_of (lines : list dict_line) (k : string) : nat :=
  match Py.index k (linked_keys lines) with
  | Some n => S n
  | None => 0
  end.

(** ** The report of the audit *)

(** The sum of the per-category counts. *)
Definition total_by_test_type (d : gmap string nat) : nat :=
  map_fold (λ _ n acc, (n + acc)%nat) 0%nat d.

(** What every step of the audit keeps. *)
Definition consistent (r : report) : Prop :=
  total_by_test_type (missing_by_test_type r) = length (missing_files r)
  ∧ (length (missing_files r) ≤ missing_count r)%nat
  ∧ ∀ key n, missing_by_test_type r !! key = Some n → (1 ≤ n)%nat.

(** ** More sample inputs *)

(** The path of the usage example of [deserialize_ssz.py] (line 9). *)
Definition usage_example : string :=
  "data/v1.6.0/tests/tests/mainnet/gloas/ssz_static/IndexedPayloadAttestation/ssz_random/case_0/serialized.ssz_snappy".

(** Test directories of four more categories. *)
Definition operations_case (filename : string) : path :=
  ["data"; "tests"; "minimal"; "phase0"; "operations"; "attestation"; "pyspec_tests";
   "one_basic_attestation"; filename].

Definition data_collection_case (filename : string) : path :=
  ["/"; "data"; "tests"; "minimal"; "deneb"; "light_client"; "data_collection";
   "pyspec_tests"; "deneb_electra_reorg_aligned"; filename].

Definition fork_case (fork filename : string) : path :=
  ["/"; "data"; "tests"; "minimal"; fork; "fork"; "fork"; "pyspec_tests";
   "fork_base_state"; filename].

Definition rewards_case (filename : string) : path :=
  ["data"; "tests"; "mainnet"; "gloas"; "rewards"; "basic"; "pyspec_tests";
   "all_balances_too_low_for_reward"; filename].

(** A [meta.yaml] whose [fork_block] is not a number, and one whose
    [post_fork] has no predecessor. *)
Definition meta_text_fork_block : gmap string value :=
  <["post_fork" := VStr "altair"]> (<["fork_block" := VStr "two"]> ∅).

Definition meta_phase0 : gmap string value :=
  <["post_fork" := VStr "PHASE0"]> (<["fork_block" := VInt 2]> ∅).

(** An import that fails for every module. *)
Definition failing_import (module_path : string) : outcome (string → option string) :=
  Raise (Exn ImportError ("No module named '" +:+ module_path +:+ "'")).

(** [main] on the samples: every path exists. *)
Definition main_sample (good_forks : list string) (dir : directory)
    (argv : list string) : Z * list main_event :=
  main "Deltas" sample_import (sample_decode good_forks) sample_output
    sample_table dir (λ _, true) argv.

(** A filename whose number comes right after the separator character
    28, which [str.strip] takes for white space and [int] refuses. *)
Definition after_separator (prefix digits rest : string) : string :=
  prefix +:+ String (ascii_of_nat 28) (digits +:+ rest).

(** The dictionary of [cyclic_constants], line by line. *)
Definition cyclic_lines : list dict_line :=
  [ Entry "ALTAIR" (Some "BELLATRIX"); Entry "BELLATRIX" (Some "ALTAIR") ].

(** The dictionary of [sample_constants], line by line. *)
Definition sample_lines : list dict_line :=
  [ Comment " post_fork_name: pre_fork_name";
    Entry "PHASE0" None;
    Entry "ALTAIR" (Some "PHASE0");
    Entry "BELLATRIX" (Some "ALTAIR");
    Entry "CAPELLA" (Some "BELLATRIX");
    Entry "DENEB" (Some "CAPELLA");
    Entry "ELECTRA" (Some "DENEB");
    Entry "FULU" (Some "ELECTRA");
    Entry "GLOAS" (Some "FULU");
    Comment " Experimental patches";
    Entry "EIP7805" (Some "FULU") ].

(** * Properties *)

(** ** Sample evaluations *)

Example split_update :
  Py.split "_" "finality_update_100_0xab.ssz_snappy"
  = ["finality"; "update"; "100"; "0xab.ssz"; "snappy"].
Proof. reflexivity. Qed.

Example split_trailing : Py.split "_" "a_" = ["a"; ""] ∧ Py.split "_" "" = [""].
Proof. split; reflexivity. Qed.

Example int_samples :
  Py.int "100" = Some 100 ∧ Py.int " -7 " = Some (-7) ∧ Py.int "0xab" = None
  ∧ Py.int "" = None ∧ Py.int "+" = None ∧ Py.int "1_0" = Some 10
  ∧ Py.int "1__0" = None ∧ Py.int "007" = Some 7.
Proof. repeat split; reflexivity. Qed.

(** The separator 28 is stripped by [str.strip] and refused by [int]. *)
Example int_separator :
  let s := String (ascii_of_nat 28) "12" in
  Py.strip s = "12" ∧ Py.int s = None ∧ Py.int (String (ascii_of_nat 11) "12") = Some 12.
Proof. repeat split; reflexivity. Qed.

Example path_str_samples :
  path_str ["/"; "a"; "b"] = "/a/b" ∧ path_str ["//"; "a"; "b"] = "//a/b"
  ∧ path_str ["a"; "b"] = "a/b" ∧ path_str [] = "." ∧ path_str ["/"] = "/"
  ∧ path_name ["//"] = "" ∧ path_name ["/"; "a"] = "a" ∧ path_name [] = ""
  ∧ sibling ["/"; "a"; "b"] "meta.yaml" = ["/"; "a"; "meta.yaml"]
  ∧ sibling ["b"] "meta.yaml" = ["meta.yaml"]
  ∧ sibling ["/"] "meta.yaml" = ["/"; "meta.yaml"].
Proof. repeat split; reflexivity. Qed.

(** Comparing with a float is exact: [13 >= 12.5], [12 < 12.5], and nan
    compares false both ways. *)
Example float_samples :
  int_ge_float 13 (FFinite 25 (-1)) = true ∧ int_ge_float 12 (FFinite 25 (-1)) = false
  ∧ int_le_float 12 (FFinite 25 (-1)) = true ∧ int_le_float 12 (FFinite 3 2) = true
  ∧ int_ge_float 12 FNan = false ∧ int_le_float 12 FNan = false
  ∧ int_le_float 12 (FInf false) = true ∧ int_ge_float 12 (FInf false) = false.
Proof. repeat split; reflexivity. Qed.

(** On an [int] (or a [bool]) the comparisons are those of the integers. *)
Lemma int_ge_int {L} n (v : value) a :
  int_of_value v = Some a → int_ge (L:=L) n v = ret (a <=? n).
Proof. intros H. unfold int_ge. destruct v; simplify_eq/=; reflexivity. Qed.

Lemma int_le_int {L} n (v : value) a :
  int_of_value v = Some a → int_le (L:=L) n v = ret (n <=? a).
Proof. intros H. unfold int_le. destruct v; simplify_eq/=; reflexivity. Qed.

Example text_samples :
  Py.upper "eip7805" = "EIP7805" ∧ Py.lower "ALTAIR" = "altair"
  ∧ Py.capitalize "aTTester" = "Attester"
  ∧ Py.endswith "x.ssz_snappy" ".ssz_snappy" = true
  ∧ Py.endswith "x.ssz_snappy.yaml" ".ssz_snappy" = false
  ∧ Py.contains "deneb" "capella_deneb_fork" = true
  ∧ Py.strip "  ALTAIR: PHASE0,  " = "ALTAIR: PHASE0,"
  ∧ Py.rstrip_comma "PHASE0,," = "PHASE0".
Proof. repeat split; reflexivity. Qed.

Example derive_samples :
  derive_type_from_suite "operations" "attestation" "attestation.ssz_snappy" = "Attestation"
  ∧ derive_type_from_suite "operations" "block_header" "block.ssz_snappy" = "BeaconBlock"
  ∧ derive_type_from_suite "sanity" "blocks" "blocks_0.ssz_snappy" = "SignedBeaconBlock"
  ∧ derive_type_from_suite "epoch_processing" "justification_and_finalization" "x.ssz_snappy"
    = "JustificationAndFinalization"
  ∧ derive_type_from_suite "light_client" "sync" "bootstrap.ssz_snappy" = "LightClientBootstrap"
  ∧ derive_type_from_suite "rewards" "basic" "source_deltas.ssz_snappy" = "Deltas".
Proof. repeat split; vm_compute; reflexivity. Qed.

Example load_sample : load_previous_fork_mapping (Some sample_constants) = sample_table.
Proof. vm_compute. reflexivity. Qed.

Example load_missing : load_previous_fork_mapping None = ∅.
Proof. reflexivity. Qed.

Example follow_sample : follow sample_table 8 "gloas" = Some "phase0".
Proof. vm_compute. reflexivity. Qed.

(** The multi-fork-name rule does fire for another file of the same test. *)
Example light_client_name_rule_sample :
  run_parse sample_table (Directory Absent Absent)
    ["/"; "data"; "tests"; "minimal"; "deneb"; "light_client"; "data_collection";
     "pyspec_tests"; "deneb_electra_reorg_aligned"; "steps.ssz_snappy"]
  = (Ok (Target "minimal" "electra" "DataCollection" "steps.ssz_snappy"),
     [EvLightClientName "data_collection" "deneb_electra_reorg_aligned"
        "electra" "deneb"]).
Proof. vm_compute. reflexivity. Qed.

(** ** Running a computation *)

(** A sequence that returns has run both of its parts. *)
Lemma bind_ok {L A B} (m : M L A) (k : A → M L B) l log b l' log' :
  bind m k l log = (Ok b, l', log') →
  ∃ a l1 log1, m l log = (Ok a, l1, log1) ∧ k a l1 log1 = (Ok b, l', log').
Proof.
  unfold bind. destruct (m l log) as [[[a|e] l1] log1]; [eauto | discriminate].
Qed.

(** The exceptions that can leave a computation, statement by statement. *)
Section RaisesOnly.
Context {L : Type}.
Implicit Types allowed : exn → bool.

Lemma raises_only_ret {A} allowed (a : A) : raises_only (L:=L) allowed (ret a).
Proof. intros l log. exact I. Qed.

Lemma raises_only_print allowed ev : raises_only (L:=L) allowed (print ev).
Proof. intros l log. exact I. Qed.

Lemma raises_only_modify allowed f : raises_only (L:=L) allowed (modify f).
Proof. intros l log. exact I. Qed.

Lemma raises_only_get allowed : raises_only (L:=L) allowed get.
Proof. intros l log. exact I. Qed.

Lemma raises_only_raise {A} allowed e :
  allowed e = true → raises_only (L:=L) (A:=A) allowed (raise e).
Proof. intros H l log. exact H. Qed.

Lemma raises_only_bind {A B} allowed (m : M L A) (k : A → M L B) :
  raises_only allowed m → (∀ a, raises_only allowed (k a)) →
  raises_only allowed (bind m k).
Proof.
  intros Hm Hk l log. unfold bind. specialize (Hm l log).
  destruct (m l log) as [[[a|e] l1] log1]; [apply Hk | exact Hm].
Qed.

Lemma raises_only_when allowed c (m : M L unit) :
  raises_only allowed m → raises_only allowed (when c m).
Proof. destruct c; [done | intros _; apply raises_only_ret]. Qed.

Lemma raises_only_try {A} allowed catches (m : M L A) h :
  raises_only (λ e, catches e || allowed e) m →
  (∀ e, raises_only allowed (h e)) →
  raises_only allowed (try_except m catches h).
Proof.
  intros Hm Hh l log. unfold try_except. specialize (Hm l log).
  destruct (m l log) as [[[a|e] l1] log1]; [exact I|].
  destruct (catches e) eqn:Hc; [apply Hh | exact Hm].
Qed.

Lemma raises_only_or_raise {A} allowed (o : option A) e :
  allowed e = true → raises_only (L:=L) allowed (or_raise o e).
Proof.
  intros H. destruct o; [apply raises_only_ret | by apply raises_only_raise].
Qed.

Lemma returns_run {A} (m : M L A) l log :
  returns m → ∃ a l' log', m l log = (Ok a, l', log').
Proof.
  intros H. specialize (H l log).
  destruct (m l log) as [[[a|e] l1] log1]; [eauto | discriminate].
Qed.
End RaisesOnly.

(** [has_slot_number] is assigned at lines 192 and 214 only: the other
    statements leave it as it is. *)
Lemma keeps_bind {A B} (m : M locals A) (k : A → M locals B) :
  keeps_has_slot_number m → (∀ a, keeps_has_slot_number (k a)) →
  keeps_has_slot_number (bind m k).
Proof.
  intros Hm Hk l log. unfold bind. specialize (Hm l log).
  destruct (m l log) as [[[a|e] l1] log1]; simpl in *; [|exact Hm].
  by rewrite Hk.
Qed.

Lemma keeps_const {A} (r : outcome A) (f : list event → list event) :
  keeps_has_slot_number (λ l log, (r, l, f log)).
Proof. intros l log. reflexivity. Qed.

Lemma keeps_set_actual_fork f : keeps_has_slot_number (modify (set_actual_fork f)).
Proof. intros l log. reflexivity. Qed.

Lemma keeps_when c (m : M locals unit) :
  keeps_has_slot_number m → keeps_has_slot_number (when c m).
Proof. destruct c; [done | intros _ l log; reflexivity]. Qed.

(** ** Running [parse_ssz_path] *)

(** On a path that decomposes, [parse_ssz_path] is the sequence of its
    rules. *)
Lemma parse_ssz_path_decomposed table dir parts i preset fork test_type test_suite filename :
  decomposes parts i preset fork test_type test_suite filename →
  parse_ssz_path table dir parts =
    (modify (set_actual_fork fork) ;;
     fork_test_rule table fork test_type filename ;;
     transition_pre_rule table dir parts fork test_type filename ;;
     transition_blocks_rule table dir parts fork test_type filename ;;
     light_client_rule dir parts i fork test_type test_suite filename ;;
     let* type_name := type_name_rule parts i test_type test_suite filename in
     let* l := get in
     ret (Target preset (actual_fork l) type_name filename))%M.
Proof.
  intros (Hi & Hp & Hf & Ht & Hs & Hn). unfold parse_ssz_path.
  rewrite Hi, Hp, Hf, Ht, Hs, Hn. simpl.
  apply lookup_lt_Some in Hs.
  rewrite bool_decide_eq_false_2 by lia. reflexivity.
Qed.

(** With the sidecar file that it reads missing, no rule raises. *)
Lemma fork_test_rule_returns table fork test_type filename :
  returns (fork_test_rule table fork test_type filename).
Proof.
  apply raises_only_when. destruct (table !! fork).
  - apply raises_only_bind; [apply raises_only_modify|].
    intros _. apply raises_only_print.
  - apply raises_only_print.
Qed.

Lemma transition_pre_rule_returns table dir parts fork test_type filename :
  (test_type = "transition" → meta_yaml dir = Absent) →
  returns (transition_pre_rule table dir parts fork test_type filename).
Proof.
  intros H. unfold transition_pre_rule.
  destruct (decide (test_type = "transition")) as [Heq|Hne].
  - rewrite (H Heq). apply raises_only_when, raises_only_print.
  - rewrite (bool_decide_eq_false_2 _ Hne). apply raises_only_ret.
Qed.

Lemma transition_blocks_rule_returns table dir parts fork test_type filename :
  (test_type = "transition" → meta_yaml dir = Absent) →
  returns (transition_blocks_rule table dir parts fork test_type filename).
Proof.
  intros H'. unfold transition_blocks_rule.
  destruct (decide (test_type = "transition")) as [Heq|Hne];
    [|rewrite (bool_decide_eq_false_2 _ Hne); apply raises_only_ret].
  pose proof (H' Heq) as H.
  apply raises_only_when, raises_only_try.
  - apply raises_only_bind; [by apply raises_only_or_raise|]. intros second.
    apply raises_only_bind; [by apply raises_only_or_raise|]. intros first.
    apply raises_only_bind; [by apply raises_only_or_raise|]. intros N.
    unfold transition_blocks_body. rewrite H. apply raises_only_print.
  - intros e. apply raises_only_print.
Qed.

Lemma light_client_rule_returns dir parts i fork test_type test_suite filename :
  (test_type = "light_client" → config_yaml dir = Absent) →
  returns (light_client_rule dir parts i fork test_type test_suite filename).
Proof.
  intros H'. unfold light_client_rule.
  destruct (decide (test_type = "light_client")) as [Heq|Hne];
    [|rewrite (bool_decide_eq_false_2 _ Hne); apply raises_only_ret].
  pose proof (H' Heq) as H.
  apply raises_only_when.
  apply raises_only_bind; [apply raises_only_modify|]. intros _.
  apply raises_only_bind.
  - unfold light_client_slot_rule. apply raises_only_when, raises_only_try.
    + destruct (first_int _); [|apply raises_only_ret].
      apply raises_only_bind; [apply raises_only_modify|]. intros _.
      unfold light_client_slot_body. rewrite H. apply raises_only_ret.
    + intros e. apply raises_only_print.
  - intros _. apply raises_only_bind; [apply raises_only_get|]. intros l.
    do 2 apply raises_only_when.
    apply raises_only_bind; [apply raises_only_modify|]. intros _.
    apply raises_only_print.
Qed.

(** The filename is the last part, so a path that ends in
    [object.ssz_snappy] right after the suite is impossible. *)
Lemma type_name_rule_returns parts i preset fork test_type test_suite filename :
  decomposes parts i preset fork test_type test_suite filename →
  returns (type_name_rule parts i test_type test_suite filename).
Proof.
  intros (_ & _ & _ & _ & Hs & Hn). unfold type_name_rule.
  destruct (test_type == "ssz_static"); [apply raises_only_ret|].
  destruct (_ && _) eqn:Hc; [|apply raises_only_ret].
  destruct (parts !! (i + 5)%nat) eqn:H5; [apply raises_only_ret|].
  exfalso.
  apply andb_prop in Hc as [Hc Hobj]. apply andb_prop in Hc as [_ Hsuite].
  apply bool_decide_eq_true_1 in Hobj, Hsuite. subst filename test_suite.
  apply lookup_ge_None in H5. pose proof (lookup_lt_Some _ _ _ Hs) as Hlt.
  assert (Hlast : last parts = Some "single_merkle_proof").
  { rewrite last_lookup. replace (Init.Nat.pred (length parts)) with (i + 4)%nat by lia.
    exact Hs. }
  unfold path_name in Hobj. rewrite Hlast in Hobj.
  destruct parts as [|p0 [|p1 ps]]; simpl in *; try lia.
  repeat case_match; discriminate.
Qed.

Lemma blocks_not_pre filename :
  Py.startswith filename "blocks_" = true → (filename == "pre.ssz_snappy") = false.
Proof.
  intros H. apply bool_decide_eq_false_2. intros ->. vm_compute in H. discriminate.
Qed.

(** Line 145 when the block index parses. *)
Lemma block_index_run {A} filename N (k : Z → M locals A) l log :
  block_index filename = Some N →
  (let* second := item (Py.split "_" filename) 1 in
   let* first := item (Py.split "." second) 0 in
   let* block_index := int first in
   k block_index)%M l log = k N l log.
Proof.
  unfold block_index, item, int, or_raise, bind, ret. intros H.
  destruct (Py.split "_" filename !! 1%nat) as [second|]; [simpl in *|discriminate].
  destruct (Py.split "." second !! 0%nat) as [first|]; [simpl in *|discriminate].
  rewrite H. reflexivity.
Qed.

Lemma transition_blocks_rule_run table dir parts F filename N l log :
  Py.startswith filename "blocks_" = true →
  block_index filename = Some N →
  transition_blocks_rule table dir parts F "transition" filename l log
  = try_except (transition_blocks_body table dir parts F N) value_or_index_error
      (λ e, print (WarnBlockIndex filename e)) l log.
Proof.
  intros Hpre HN. unfold transition_blocks_rule. rewrite Hpre. simpl.
  unfold try_except. by rewrite (block_index_run _ _ _ _ _ HN).
Qed.

(** A [transition] file named [blocks_N...]: the resolution is the [try]
    of lines 144-172 around its body. *)
Lemma transition_blocks_run_parse
    table dir parts i preset F test_suite filename N :
  decomposes parts i preset F "transition" test_suite filename →
  Py.startswith filename "blocks_" = true →
  block_index filename = Some N →
  run_parse table dir parts
  = let '(r, l, log) :=
      try_except (transition_blocks_body table dir parts F N) value_or_index_error
        (λ e, print (WarnBlockIndex filename e)) (Locals F false) [] in
    match r with
    | Ok _ =>
        (Ok (Target preset (actual_fork l)
               (derive_type_from_suite "transition" test_suite filename) filename),
         log)
    | Raise e => (Raise e, log)
    end.
Proof.
  intros Hd Hpre HN.
  unfold run_parse. rewrite (parse_ssz_path_decomposed _ _ _ _ _ _ _ _ _ Hd).
  unfold fork_test_rule, transition_pre_rule, light_client_rule, type_name_rule.
  rewrite (blocks_not_pre _ Hpre). simpl.
  unfold bind at 1 2 3 4. simpl.
  rewrite (transition_blocks_rule_run _ _ _ _ _ _ _ _ Hpre HN).
  destruct (try_except _ _ _ _ _) as [[[[]|e] l] log]; reflexivity.
Qed.

Lemma keeps_select_fork config epoch forks selected :
  keeps_has_slot_number (select_fork config epoch forks selected).
Proof.
  revert selected. induction forks as [|v forks IH]; intros selected; simpl.
  - apply (keeps_const (Ok selected) id).
  - destruct (config !! _) as [x|]; [|apply IH].
    apply keeps_bind.
    + unfold int_ge.
      destruct x; simpl; first [apply (keeps_const (Ok _) id) | apply (keeps_const (Raise _) id)].
    + intros [|]; [apply IH | apply (keeps_const (Ok selected) id)].
Qed.

Lemma keeps_light_client_slot_body dir fork test_suite test_case slot :
  keeps_has_slot_number (light_client_slot_body dir fork test_suite test_case slot).
Proof.
  unfold light_client_slot_body.
  destruct (config_yaml dir) as [|load].
  - apply (keeps_const (Ok tt) id).
  - apply keeps_bind; [destruct load; apply (keeps_const _ id)|]. intros config'.
    apply keeps_bind.
    { unfold dict_get. destruct config'; try apply (keeps_const (Raise _) id).
      apply (keeps_const (Ok _) id). }
    intros v. apply keeps_bind.
    { unfold str_lower. destruct v; try apply (keeps_const (Raise _) id).
      apply (keeps_const (Ok _) id). }
    intros preset_base. apply keeps_bind.
    { destruct config'; try apply (keeps_const (Ok fork) id).
      apply keeps_select_fork. }
    intros selected. apply keeps_when, keeps_bind; [apply keeps_set_actual_fork|].
    intros _. apply (keeps_const (Ok tt) (λ log, log ++ [_])).
Qed.

Lemma slot_not_object filename :
  existsb (Py.startswith filename) slot_prefixes = true →
  (filename == "object.ssz_snappy") = false.
Proof.
  intros H. apply bool_decide_eq_false_2. intros ->. vm_compute in H. discriminate.
Qed.

(** A light-client file with a slot number: the resolution is the [try] of
    lines 194-257 around the slot body; the fork-name rule is off. *)
Lemma light_client_slot_run_parse
    table dir parts i preset F test_suite filename slot :
  decomposes parts i preset F "light_client" test_suite filename →
  existsb (Py.startswith filename) slot_prefixes = true →
  first_int (Py.split "_" filename) = Some slot →
  run_parse table dir parts
  = let '(r, l, log) :=
      try_except
        (light_client_slot_body dir F test_suite
           (default "" (parts !! (i + 6)%nat)) slot)
        value_or_index_error
        (λ e, print (WarnSlot filename e)) (Locals F true) [] in
    match r with
    | Ok _ =>
        (Ok (Target preset (actual_fork l)
               (derive_type_from_suite "light_client" test_suite filename) filename),
         log)
    | Raise e => (Raise e, log)
    end.
Proof.
  intros Hd Hpre Hslot.
  unfold run_parse. rewrite (parse_ssz_path_decomposed _ _ _ _ _ _ _ _ _ Hd).
  unfold fork_test_rule, transition_pre_rule, transition_blocks_rule,
    light_client_rule, light_client_slot_rule, type_name_rule.
  rewrite Hpre, Hslot, (slot_not_object _ Hpre), andb_false_r. simpl.
  unfold bind at 1 2 3 4 5 6 7. simpl.
  unfold try_except, bind at 1. simpl.
  pose proof (keeps_light_client_slot_body dir F test_suite
                (default "" (parts !! (i + 6)%nat)) slot (Locals F true) []) as Hk.
  destruct (light_client_slot_body _ _ _ _ _ _ _) as [[[[]|e] l] log]; simpl in Hk.
  - unfold bind, get, when, ret. rewrite Hk. reflexivity.
  - destruct (value_or_index_error e); [|reflexivity].
    unfold bind, print, get, when, ret. rewrite Hk. reflexivity.
Qed.

(** ** The pre-transition state (C3) *)

(** The [fork] category with [pre.ssz_snappy] (lines 114-121). *)
Lemma fork_pre_run table dir parts i preset F test_suite :
  decomposes parts i preset F "fork" test_suite "pre.ssz_snappy" →
  run_parse table dir parts
  = (Ok (Target preset (default F (table !! F)) "BeaconState" "pre.ssz_snappy"),
     [match table !! F with
      | Some previous => EvForkTest previous F
      | None => WarnNoPreviousFork F
      end]).
Proof.
  intros Hd. unfold run_parse.
  rewrite (parse_ssz_path_decomposed _ _ _ _ _ _ _ _ _ Hd).
  unfold fork_test_rule, transition_pre_rule, transition_blocks_rule,
    light_client_rule, type_name_rule.
  simpl. destruct (table !! F); reflexivity.
Qed.

(** The [transition] category with [pre.ssz_snappy] (lines 123-139), beside
    a [meta.yaml] that is a mapping: [post_fork] is read, with the
    directory fork as its default, and lower-cased. *)
Lemma transition_pre_run table dir parts i preset F test_suite meta post_fork :
  decomposes parts i preset F "transition" test_suite "pre.ssz_snappy" →
  meta_yaml dir = Present (Ok (VDict meta)) →
  post_fork_of meta F = Some post_fork →
  run_parse table dir parts
  = (Ok (Target preset (default F (table !! Py.lower post_fork))
           "BeaconState" "pre.ssz_snappy"),
     [match table !! Py.lower post_fork with
      | Some previous => EvTransitionPre previous (Py.lower post_fork)
      | None => WarnNoPreviousForkOfPost (Py.lower post_fork)
      end]).
Proof.
  intros Hd Hmeta Hpost. unfold run_parse.
  rewrite (parse_ssz_path_decomposed _ _ _ _ _ _ _ _ _ Hd).
  unfold fork_test_rule, transition_pre_rule, transition_blocks_rule,
    light_client_rule, type_name_rule.
  rewrite Hmeta. unfold post_fork_of in Hpost.
  unfold safe_load, of_outcome, dict_get, str_lower, bind, ret, print, modify.
  simpl. destruct (meta !! "post_fork") as [[]|]; simplify_eq/=;
    destruct (table !! _); reflexivity.
Qed.

(** The same fixture without [meta.yaml]. *)
Lemma transition_pre_without_meta table dir parts i preset F test_suite :
  decomposes parts i preset F "transition" test_suite "pre.ssz_snappy" →
  meta_yaml dir = Absent →
  run_parse table dir parts
  = (Ok (Target preset F "BeaconState" "pre.ssz_snappy"),
     [WarnMetaNotFound (path_str (sibling parts "meta.yaml")) F]).
Proof.
  intros Hd Hmeta. unfold run_parse.
  rewrite (parse_ssz_path_decomposed _ _ _ _ _ _ _ _ _ Hd).
  unfold fork_test_rule, transition_pre_rule, transition_blocks_rule,
    light_client_rule, type_name_rule.
  rewrite Hmeta. reflexivity.
Qed.

(** C3, as the code has it.  A fixture named [pre.ssz_snappy] in a
    directory whose fork [F] has predecessor [P] in the table:
    - in the category [fork], it resolves to [P];
    - in the category [transition], the table is asked for the predecessor
      of [post_fork], read from [meta.yaml] (a mapping whose [post_fork]
      is a text, or absent, in which case it is [F]) and put in lower
      case: the fixture resolves to [P] when the lower-cased [post_fork]
      is [F], to the predecessor [Q] of [post_fork] in general, and to [F]
      itself, with a warning, when the table has no predecessor of
      [post_fork] or when [meta.yaml] is missing.
    The type is the state type, and one line is printed. *)
Theorem pre_state_uses_predecessor
    table dir parts i preset F test_type test_suite P :
  decomposes parts i preset F test_type test_suite "pre.ssz_snappy" →
  table !! F = Some P →
  let resolved fork log :=
    run_parse table dir parts
    = (Ok (Target preset fork "BeaconState" "pre.ssz_snappy"), log) in
  (test_type = "fork" → resolved P [EvForkTest P F])
  ∧ (test_type = "transition" →
       (∀ meta post_fork,
          meta_yaml dir = Present (Ok (VDict meta)) →
          post_fork_of meta F = Some post_fork →
          (Py.lower post_fork = F → resolved P [EvTransitionPre P F])
          ∧ (∀ Q, table !! Py.lower post_fork = Some Q →
                  resolved Q [EvTransitionPre Q (Py.lower post_fork)])
          ∧ (table !! Py.lower post_fork = None →
               resolved F [WarnNoPreviousForkOfPost (Py.lower post_fork)]))
       ∧ (meta_yaml dir = Absent →
            resolved F [WarnMetaNotFound (path_str (sibling parts "meta.yaml")) F])).
Proof.
  intros Hd HP resolved. subst resolved. cbv beta. split; [|split].
  - intros ->. by rewrite (fork_pre_run _ _ _ _ _ _ _ Hd), HP.
  - subst test_type. intros meta post_fork Hmeta Hpost.
    rewrite (transition_pre_run _ _ _ _ _ _ _ _ _ Hd Hmeta Hpost).
    split; [|split].
    + intros ->. by rewrite HP.
    + by intros Q ->.
    + by intros ->.
  - subst test_type. intros Hmeta.
    exact (transition_pre_without_meta _ _ _ _ _ _ _ Hd Hmeta).
Qed.

Lemma pre_state_uses_predecessor_witness :
  run_parse sample_table (Directory Absent Absent)
    ["/"; "data"; "tests"; "minimal"; "altair"; "fork"; "fork"; "pyspec_tests";
     "fork_base_state"; "pre.ssz_snappy"]
  = (Ok (Target "minimal" "phase0" "BeaconState" "pre.ssz_snappy"),
     [EvForkTest "phase0" "altair"])
  ∧ run_parse sample_table (Directory (Present (Ok (VDict meta_full))) Absent)
      (transition_case "pre.ssz_snappy")
    = (Ok (Target "minimal" "phase0" "BeaconState" "pre.ssz_snappy"),
       [EvTransitionPre "phase0" "altair"]).
Proof.
  split.
  - apply (pre_state_uses_predecessor sample_table (Directory Absent Absent)
             _ 2%nat "minimal" "altair" "fork" "fork" "phase0").
    + repeat split; reflexivity.
    + vm_compute. reflexivity.
    + reflexivity.
  - destruct (pre_state_uses_predecessor sample_table
                (Directory (Present (Ok (VDict meta_full))) Absent)
                (transition_case "pre.ssz_snappy")
                2%nat "minimal" "altair" "transition" "core" "phase0")
      as [_ Htransition].
    + repeat split; reflexivity.
    + vm_compute. reflexivity.
    + destruct (Htransition eq_refl) as [Hmeta _].
      destruct (Hmeta meta_full "altair" eq_refl eq_refl) as [Hsame _].
      apply Hsame. reflexivity.
Defined.

(** C3 as stated fails in the category [transition].  In an [altair]
    directory, whose predecessor is [phase0]: without [meta.yaml] the
    fixture [pre.ssz_snappy] resolves to [altair] itself, with a warning;
    and beside a [meta.yaml] whose [post_fork] is [bellatrix] it resolves
    to the predecessor of [bellatrix], which is [altair] as well. *)
Lemma transition_pre_is_not_the_directory_predecessor :
  decomposes (transition_case "pre.ssz_snappy") 2 "minimal" "altair"
    "transition" "core" "pre.ssz_snappy"
  ∧ sample_table !! "altair" = Some "phase0"
  ∧ run_parse sample_table (Directory Absent Absent) (transition_case "pre.ssz_snappy")
    = (Ok (Target "minimal" "altair" "BeaconState" "pre.ssz_snappy"),
       [WarnMetaNotFound
          "/data/tests/minimal/altair/transition/core/pyspec_tests/normal_transition/meta.yaml"
          "altair"])
  ∧ run_parse sample_table (Directory (Present (Ok (VDict meta_bellatrix))) Absent)
      (transition_case "pre.ssz_snappy")
    = (Ok (Target "minimal" "altair" "BeaconState" "pre.ssz_snappy"),
       [EvTransitionPre "altair" "bellatrix"])
  ∧ "altair" ≠ "phase0".
Proof.
  split; [repeat split; reflexivity|].
  split; [vm_compute; reflexivity|].
  split; [vm_compute; reflexivity|].
  split; [vm_compute; reflexivity | discriminate].
Qed.

(** ** Multi-block transition tests (C4) *)




(** ** The light-client slot-boundary rule (C1) *)

(** [all_forks[current_fork_idx:]] is the list from the directory fork on. *)
Lemma drop_index_suffix fork forks :
  drop (default 0%nat (Py.index fork forks)) forks
  = default forks (suffix_from fork forks).
Proof.
  assert (H : ∀ l, match Py.index fork l with
                   | Some n => suffix_from fork l = Some (drop n l)
                   | None => suffix_from fork l = None
                   end).
  { induction l as [|y l IH]; simpl; [done|].
    destruct (decide (y = fork)); [done|].
    destruct (Py.index fork l); simpl; exact IH. }
  specialize (H forks). destruct (Py.index fork forks); by rewrite H.
Qed.

Lemma suffix_from_subseteq fork forks l :
  suffix_from fork forks = Some l → l ⊆ forks.
Proof.
  revert l. induction forks as [|y forks IH]; intros l; simpl; [done|].
  destruct (decide (y = fork)).
  - by intros [= <-].
  - intros H%IH. set_solver.
Qed.

Lemma walked_forks_known fork : walked_forks fork ⊆ all_forks.
Proof.
  unfold walked_forks.
  destruct (suffix_from fork all_forks) eqn:H; [|done].
  by eapply suffix_from_subseteq.
Qed.

(** Comparing the epoch with a number returns, and says whether the
    epoch is at or past it. *)
Lemma int_ge_number {L} epoch x (l : L) log :
  is_number x →
  ∃ b : bool,
    int_ge epoch x l log = (Ok b, l, log)
    ∧ if b then activated_at epoch x else not_activated_at epoch x.
Proof.
  intros [[a Ha]|[f ->]].
  - rewrite (int_ge_int _ _ _ Ha). exists (a <=? epoch). split; [done|].
    destruct (Z.leb_spec a epoch); left; eauto.
  - exists (int_ge_float epoch f). split; [done|].
    destruct (int_ge_float epoch f) eqn:Hf; right; eauto.
Qed.

Lemma activated_exclusive epoch x :
  activated_at epoch x → not_activated_at epoch x → False.
Proof.
  intros [(a & Ha & Hle)|(f & -> & Hf)] [(a' & Ha' & Hlt)|(f' & Hx & Hf')];
    simplify_eq/=; [lia | congruence].
Qed.

(** The loop computes the walk. *)
Lemma select_fork_walk config epoch forks current (l : locals) log :
  (∀ v x, v ∈ forks → config !! fork_epoch_key v = Some x → is_number x) →
  ∃ result,
    select_fork config epoch forks current l log = (Ok result, l, log)
    ∧ walk config epoch forks current result.
Proof.
  revert current. induction forks as [|v forks IH]; intros current Hnum; simpl.
  - eexists. split; [reflexivity | constructor].
  - assert (Hnum' : ∀ v0 x0, v0 ∈ forks → config !! fork_epoch_key v0 = Some x0 →
                             is_number x0).
    { intros v0 x0 Hin. apply Hnum. by right. }
    destruct (config !! fork_epoch_key v) as [x|] eqn:Hx.
    + destruct (int_ge_number epoch x l log) as (b & Hb & Hact).
      { apply (Hnum v); [by left | done]. }
      unfold bind. rewrite Hb. destruct b.
      * destruct (IH v Hnum') as (r & -> & Hw).
        eexists. split; [reflexivity|]. by eapply walk_advance.
      * eexists. split; [reflexivity|]. by eapply walk_stop.
    + destruct (IH current Hnum') as (r & -> & Hw).
      eexists. split; [reflexivity|]. by apply walk_pass.
Qed.

(** A version other than the only one with a key has none. *)
Lemma only_key_is config V2 v x :
  only_key config V2 → v ∈ all_forks → config !! fork_epoch_key v = Some x → v = V2.
Proof.
  intros Honly Hin Hx. destruct (decide (v = V2)) as [|Hne]; [done|].
  by rewrite (Honly v Hin Hne) in Hx.
Qed.

(** With a single activation key, satisfied, the walk ends at its version
    when it is among the versions walked, and does not move otherwise. *)
Lemma walk_only_key config epoch forks current result V2 x :
  walk config epoch forks current result →
  forks ⊆ all_forks →
  only_key config V2 →
  config !! fork_epoch_key V2 = Some x →
  activated_at epoch x →
  (V2 ∈ forks → result = V2) ∧ (V2 ∉ forks → result = current).
Proof.
  intros Hw Hsub Honly Hx Hact.
  induction Hw as [current | v rest current result Hnone Hw IH
                  | v rest current result x' Hx' Hact' Hw IH
                  | v rest current x' Hx' Hnot'].
  - split; [by intros ?%elem_of_nil | done].
  - assert (Hv : v ≠ V2) by congruence.
    assert (Hrest : rest ⊆ all_forks).
    { intros y Hy. apply Hsub. by right. }
    destruct (IH Hrest) as [Hin Hout]. split.
    + intros [?|?]%elem_of_cons; [congruence | by apply Hin].
    + intros [_ ?]%not_elem_of_cons. by apply Hout.
  - assert (v = V2) as ->.
    { apply (only_key_is config V2 v x' Honly); [apply Hsub; by left | done]. }
    assert (Hrest : rest ⊆ all_forks).
    { intros y Hy. apply Hsub. by right. }
    destruct (IH Hrest) as [Hin Hout]. split.
    + intros _. destruct (decide (V2 ∈ rest)); [by apply Hin | by apply Hout].
    + intros []. by left.
  - assert (v = V2) as ->.
    { apply (only_key_is config V2 v x' Honly); [apply Hsub; by left | done]. }
    simplify_eq. destruct (activated_exclusive _ _ Hact Hnot').
Qed.


(** A property of the nine known versions, case by case. *)
Lemma known_fork_cases (P : string → Prop) :
  P "phase0" → P "altair" → P "bellatrix" → P "capella" → P "deneb" →
  P "electra" → P "eip7805" → P "fulu" → P "gloas" →
  ∀ v, v ∈ all_forks → P v.
Proof.
  intros ????????? v Hin. unfold all_forks in Hin.
  repeat (apply elem_of_cons in Hin as [->|Hin]; [assumption|]).
  by apply elem_of_nil in Hin.
Qed.

Lemma config_electra_numbers : epochs_are_numbers config_electra.
Proof.
  intros v x Hin. revert x. revert v Hin.
  apply (known_fork_cases
           (λ v, ∀ x, config_electra !! fork_epoch_key v = Some x → is_number x));
    intros x; vm_compute; intros [= <-]; left; eauto.
Qed.

Lemma config_float_epoch_numbers : epochs_are_numbers config_float_epoch.
Proof.
  intros v x Hin. revert x. revert v Hin.
  apply (known_fork_cases
           (λ v, ∀ x, config_float_epoch !! fork_epoch_key v = Some x → is_number x));
    intros x; vm_compute; intros [= <-]; right; eauto.
Qed.

Lemma config_electra_only_key : only_key config_electra "electra".
Proof.
  unfold only_key.
  apply (known_fork_cases
           (λ v, v ≠ "electra" → config_electra !! fork_epoch_key v = None));
    intros Hne; try done; vm_compute; reflexivity.
Qed.

Lemma config_float_epoch_only_key : only_key config_float_epoch "electra".
Proof.
  unfold only_key.
  apply (known_fork_cases
           (λ v, v ≠ "electra" → config_float_epoch !! fork_epoch_key v = None));
    intros Hne; try done; vm_compute; reflexivity.
Qed.

Lemma config_altair_only_key : only_key config_altair "altair".
Proof.
  unfold only_key.
  apply (known_fork_cases
           (λ v, v ≠ "altair" → config_altair !! fork_epoch_key v = None));
    intros Hne; try done; vm_compute; reflexivity.
Qed.



(** ** The light-client initial snapshot (C6) *)

(** C6: a light-client fixture named [initial_state.ssz_snappy] resolves to
    the directory fork, whatever its suite, its test name (the part six
    places after ['tests'], where fork names are searched), the table and
    the files beside it; nothing is printed. *)
Theorem light_client_initial_state_keeps_directory_fork
    table dir parts i preset F test_suite :
  decomposes parts i preset F "light_client" test_suite "initial_state.ssz_snappy" →
  run_parse table dir parts
  = (Ok (Target preset F "BeaconState" "initial_state.ssz_snappy"), []).
Proof.
  intros Hd. unfold run_parse.
  rewrite (parse_ssz_path_decomposed _ _ _ _ _ _ _ _ _ Hd).
  unfold fork_test_rule, transition_pre_rule, transition_blocks_rule,
    light_client_rule, light_client_slot_rule, type_name_rule.
  simpl. rewrite andb_false_r. reflexivity.
Qed.

Lemma light_client_initial_state_keeps_directory_fork_witness :
  run_parse sample_table (Directory Absent Absent)
    ["/"; "data"; "tests"; "minimal"; "deneb"; "light_client"; "data_collection";
     "pyspec_tests"; "deneb_electra_reorg_aligned"; "initial_state.ssz_snappy"]
  = (Ok (Target "minimal" "deneb" "BeaconState" "initial_state.ssz_snappy"), []).
Proof.
  apply (light_client_initial_state_keeps_directory_fork _ _ _ 2%nat)
    with (test_suite := "data_collection").
  repeat split; reflexivity.
Defined.

(** ** Missing and unparsable sidecar files (C7) *)

(** C7, as the code has it.  A resolution returns whenever the sidecar
    file that the category of the fixture reads is missing: [meta.yaml]
    for the category [transition], [config.yaml] for [light_client]; the
    other categories read neither, and the file that a category does not
    read is never opened.  The rule that would read the missing file
    leaves the directory fork in place: for a [transition] fixture named
    [pre.ssz_snappy], or named [blocks_N...], with the warning of a
    missing [meta.yaml]; for a light-client fixture whose name carries a
    slot number, without a line, whatever the test name. *)
Theorem missing_sidecars_never_fail
    table dir parts i preset F test_type test_suite filename :
  decomposes parts i preset F test_type test_suite filename →
  ((test_type = "transition" → meta_yaml dir = Absent) →
   (test_type = "light_client" → config_yaml dir = Absent) →
   ∃ t log, run_parse table dir parts = (Ok t, log))
  ∧ (meta_yaml dir = Absent →
     test_type = "transition" → filename = "pre.ssz_snappy" →
       run_parse table dir parts
       = (Ok (Target preset F "BeaconState" filename),
          [WarnMetaNotFound (path_str (sibling parts "meta.yaml")) F]))
  ∧ (meta_yaml dir = Absent →
     test_type = "transition" → Py.startswith filename "blocks_" = true →
       is_Some (block_index filename) →
       run_parse table dir parts
       = (Ok (Target preset F
                (derive_type_from_suite "transition" test_suite filename) filename),
          [WarnMetaNotFound (path_str (sibling parts "meta.yaml")) F]))
  ∧ (config_yaml dir = Absent →
     test_type = "light_client" →
       existsb (Py.startswith filename) slot_prefixes = true →
       is_Some (first_int (Py.split "_" filename)) →
       run_parse table dir parts
       = (Ok (Target preset F
                (derive_type_from_suite "light_client" test_suite filename)
                filename),
          [])).
Proof.
  intros Hd. split; [|split; [|split]].
  - intros Hmeta Hconfig.
    unfold run_parse. rewrite (parse_ssz_path_decomposed _ _ _ _ _ _ _ _ _ Hd).
    match goal with
    | |- context [bind ?m ?k (Locals "" false) []] =>
        destruct (returns_run (bind m k) (Locals "" false) []) as (t & l & log & ->)
    end; [|eauto].
    apply raises_only_bind; [apply raises_only_modify|]. intros _.
    apply raises_only_bind; [apply fork_test_rule_returns|]. intros _.
    apply raises_only_bind; [by apply transition_pre_rule_returns|]. intros _.
    apply raises_only_bind; [by apply transition_blocks_rule_returns|]. intros _.
    apply raises_only_bind; [by apply light_client_rule_returns|]. intros _.
    apply raises_only_bind; [by eapply type_name_rule_returns|]. intros ty.
    apply raises_only_bind; [apply raises_only_get|]. intros l.
    apply raises_only_ret.
  - intros Hmeta -> ->. unfold run_parse.
    rewrite (parse_ssz_path_decomposed _ _ _ _ _ _ _ _ _ Hd).
    unfold fork_test_rule, transition_pre_rule, transition_blocks_rule,
      light_client_rule, type_name_rule.
    rewrite Hmeta. reflexivity.
  - intros Hmeta -> Hpre [N HN].
    rewrite (transition_blocks_run_parse _ _ _ _ _ _ _ _ _ Hd Hpre HN).
    unfold try_except, transition_blocks_body. rewrite Hmeta. reflexivity.
  - intros Hconfig -> Hpre [slot Hslot].
    rewrite (light_client_slot_run_parse _ _ _ _ _ _ _ _ _ Hd Hpre Hslot).
    unfold try_except, light_client_slot_body. rewrite Hconfig. reflexivity.
Qed.

(** A light-client fixture beside a [meta.yaml] that cannot be parsed and
    no [config.yaml], and a [transition] fixture beside a [config.yaml]
    that cannot be parsed and no [meta.yaml]. *)
Lemma missing_sidecars_never_fail_witness :
  let unparsable := Present (Raise (Exn YAMLError "while parsing a block mapping")) in
  (∃ t log,
     run_parse sample_table (Directory unparsable Absent)
       (light_client_case "deneb" "update_100_0xab.ssz_snappy") = (Ok t, log))
  ∧ run_parse sample_table (Directory unparsable Absent)
      (light_client_case "deneb" "update_100_0xab.ssz_snappy")
    = (Ok (Target "minimal" "deneb" "LightClientUpdate" "update_100_0xab.ssz_snappy"),
       [])
  ∧ run_parse sample_table (Directory Absent unparsable)
      (transition_case "pre.ssz_snappy")
    = (Ok (Target "minimal" "altair" "BeaconState" "pre.ssz_snappy"),
       [WarnMetaNotFound
          "/data/tests/minimal/altair/transition/core/pyspec_tests/normal_transition/meta.yaml"
          "altair"]).
Proof.
  intros unparsable.
  assert (Hl : decomposes (light_client_case "deneb" "update_100_0xab.ssz_snappy")
                 2 "minimal" "deneb" "light_client" "sync" "update_100_0xab.ssz_snappy")
    by (repeat split; reflexivity).
  assert (Ht : decomposes (transition_case "pre.ssz_snappy")
                 2 "minimal" "altair" "transition" "core" "pre.ssz_snappy")
    by (repeat split; reflexivity).
  destruct (missing_sidecars_never_fail sample_table (Directory unparsable Absent)
              _ _ _ _ _ _ _ Hl) as (Hret & _ & _ & Hslot).
  destruct (missing_sidecars_never_fail sample_table (Directory Absent unparsable)
              _ _ _ _ _ _ _ Ht) as (_ & Hpre & _ & _).
  split; [|split].
  - apply Hret; [discriminate | reflexivity].
  - apply Hslot; [reflexivity | reflexivity | reflexivity | by eexists].
  - apply Hpre; reflexivity.
Defined.

(** C7 as stated fails for a sidecar that cannot be parsed: the
    [yaml.YAMLError] raised by the loader on the [meta.yaml] of a
    [transition] fixture leaves [parse_ssz_path], and nothing is logged. *)
Lemma unparsable_meta_fails_resolution :
  run_parse sample_table
    (Directory (Present (Raise (Exn YAMLError "while parsing a block mapping"))) Absent)
    (transition_case "pre.ssz_snappy")
  = (Raise (Exn YAMLError "while parsing a block mapping"), [])
  ∧ run_parse sample_table
      (Directory (Present (Raise (Exn YAMLError "while parsing a block mapping"))) Absent)
      (transition_case "blocks_0.ssz_snappy")
    = (Raise (Exn YAMLError "while parsing a block mapping"), [])
  ∧ run_parse sample_table
      (Directory Absent (Present (Raise (Exn YAMLError "while parsing a block mapping"))))
      (light_client_case "deneb" "update_100_0xab.ssz_snappy")
    = (Raise (Exn YAMLError "while parsing a block mapping"), []).
Proof. repeat split; vm_compute; reflexivity. Qed.

(** ** Full-state filenames (C5) *)

Lemma derive_type_state_filename test_type test_suite filename :
  filename ∈ state_filenames →
  derive_type_from_suite test_type test_suite filename = "BeaconState".
Proof.
  intros H. unfold derive_type_from_suite, in_list.
  rewrite bool_decide_eq_true_2 by exact H. reflexivity.
Qed.

Lemma state_filename_not_object filename :
  filename ∈ state_filenames → (filename == "object.ssz_snappy") = false.
Proof.
  intros H. apply bool_decide_eq_false_2. intros ->.
  assert (Hno : "object.ssz_snappy" ∉ state_filenames)
    by compute_done.
  exact (Hno H).
Qed.

(** C5, as the code has it: for a filename among [pre], [post],
    [pre_epoch], [post_epoch], [initial_state] (with the [.ssz_snappy]
    suffix), [derive_type_from_suite] returns [BeaconState] for every
    category and suite; and in [parse_ssz_path], for every category other
    than [ssz_static], the type-name step returns [BeaconState] without
    raising, so every resolution that returns has that type name. *)
Theorem state_filenames_resolve_to_state filename :
  filename ∈ state_filenames →
  (∀ test_type test_suite,
     derive_type_from_suite test_type test_suite filename = "BeaconState")
  ∧ (∀ table dir parts i preset fork test_type test_suite,
       decomposes parts i preset fork test_type test_suite filename →
       test_type ≠ "ssz_static" →
       (∀ l log, type_name_rule parts i test_type test_suite filename l log
                 = (Ok "BeaconState", l, log))
       ∧ (∀ t log, run_parse table dir parts = (Ok t, log) →
                   t_type_name t = "BeaconState")).
Proof.
  intros Hin. split.
  { intros. by apply derive_type_state_filename. }
  intros table dir parts i preset fork test_type test_suite Hd Hne.
  assert (Hrule : ∀ l log, type_name_rule parts i test_type test_suite filename l log
                           = (Ok "BeaconState", l, log)).
  { intros l log. unfold type_name_rule.
    rewrite bool_decide_eq_false_2 by exact Hne.
    rewrite (state_filename_not_object _ Hin), andb_false_r.
    by rewrite derive_type_state_filename. }
  split; [exact Hrule|].
  intros t log. unfold run_parse.
  rewrite (parse_ssz_path_decomposed _ _ _ _ _ _ _ _ _ Hd).
  match goal with
  | |- context [bind ?m ?k (Locals "" false) []] =>
      destruct (bind m k (Locals "" false) []) as [[r l'] log'] eqn:Hrun
  end.
  intros [= -> ->].
  do 5 (apply bind_ok in Hrun as (? & ? & ? & _ & Hrun)).
  apply bind_ok in Hrun as (ty & l1 & log1 & Hty & Hrun).
  rewrite Hrule in Hty. injection Hty as <- <- <-.
  apply bind_ok in Hrun as (? & ? & ? & _ & Hrun).
  by injection Hrun as <- _ _.
Qed.

Lemma state_filenames_resolve_to_state_witness :
  (∀ test_type test_suite,
     derive_type_from_suite test_type test_suite "post.ssz_snappy" = "BeaconState")
  ∧ (∀ t log,
       run_parse sample_table (Directory Absent Absent)
         ["tests"; "minimal"; "phase0"; "operations"; "attestation"; "pyspec_tests";
          "one_basic_attestation"; "post.ssz_snappy"] = (Ok t, log) →
       t_type_name t = "BeaconState").
Proof.
  assert (Hin : "post.ssz_snappy" ∈ state_filenames) by compute_done.
  split.
  - apply (state_filenames_resolve_to_state _ Hin).
  - apply (proj2 (state_filenames_resolve_to_state _ Hin) sample_table
             (Directory Absent Absent) _ 0%nat "minimal" "phase0" "operations"
             "attestation").
    + repeat split; reflexivity.
    + discriminate.
Defined.

(** C5 as stated fails for the category [ssz_static], where the suite is
    the type name whatever the filename. *)
Lemma ssz_static_pre_is_not_state :
  decomposes
    ["tests"; "minimal"; "phase0"; "ssz_static"; "BeaconBlock"; "ssz_random";
     "case_0"; "pre.ssz_snappy"]
    0 "minimal" "phase0" "ssz_static" "BeaconBlock" "pre.ssz_snappy"
  ∧ "pre.ssz_snappy" ∈ state_filenames
  ∧ run_parse ∅ (Directory Absent Absent)
      ["tests"; "minimal"; "phase0"; "ssz_static"; "BeaconBlock"; "ssz_random";
       "case_0"; "pre.ssz_snappy"]
    = (Ok (Target "minimal" "phase0" "BeaconBlock" "pre.ssz_snappy"), [])
  ∧ "BeaconBlock" ≠ "BeaconState".
Proof.
  split; [repeat split; reflexivity|].
  split; [compute_done|].
  split; [vm_compute; reflexivity | discriminate].
Qed.

(** ** The decode dispatcher (C2) *)

(** The path test of line 487 covers the light-client sync suite. *)

Lemma append_assoc (a b c : string) : (a +:+ b) +:+ c = a +:+ (b +:+ c).
Proof.
  induction a as [|x a IH]; [done|].
  change (String x ((a +:+ b) +:+ c) = String x (a +:+ (b +:+ c))). by rewrite IH.
Qed.

Lemma append_nil_r (a : string) : a +:+ "" = a.
Proof.
  induction a as [|x a IH]; [done|].
  change (String x (a +:+ "") = String x a). by rewrite IH.
Qed.

Lemma prefix_append (sub b : string) : String.prefix sub (sub +:+ b) = true.
Proof.
  induction sub as [|x sub IH]; [by destruct b|].
  change (String.prefix (String x sub) (String x (sub +:+ b)) = true). simpl.
  by destruct (ascii_dec x x).
Qed.

Lemma contains_unfold (sub s : string) :
  Py.contains sub s
  = String.prefix sub s
    || match s with
       | EmptyString => false
       | String _ s' => Py.contains sub s'
       end.
Proof. by destruct s. Qed.

(** [sub in a + sub + b] *)
Lemma contains_append (a sub b : string) : Py.contains sub (a +:+ sub +:+ b) = true.
Proof.
  induction a as [|x a IH].
  - change (Py.contains sub (sub +:+ b) = true).
    by rewrite contains_unfold, prefix_append.
  - change (Py.contains sub (String x (a +:+ sub +:+ b)) = true).
    rewrite contains_unfold, IH. apply orb_true_r.
Qed.

(** A part of a joined path, and a part between two separators. *)
Lemma join_lookup sep (l : list string) k x :
  l !! k = Some x → ∃ a b, Py.join sep l = a +:+ x +:+ b.
Proof.
  revert k. induction l as [|y l IH]; intros k Hk; [done|].
  destruct k as [|k]; simpl in Hk.
  - injection Hk as ->. destruct l as [|z l].
    + exists "", "". by rewrite append_nil_r.
    + by exists "", (sep +:+ Py.join sep (z :: l)).
  - destruct (IH k Hk) as (a & b & Hab). destruct l as [|z l]; [done|].
    exists (y +:+ sep +:+ a), b.
    change (y +:+ sep +:+ Py.join sep (z :: l) = (y +:+ sep +:+ a) +:+ x +:+ b).
    by rewrite Hab, !append_assoc.
Qed.

Lemma join_lookup_between sep (l : list string) k x :
  l !! k = Some x → (0 < k)%nat → (S k < length l)%nat →
  ∃ a b, Py.join sep l = a +:+ (sep +:+ x +:+ sep) +:+ b.
Proof.
  revert k. induction l as [|y l IH]; intros k Hk Hpos Hlen; [done|].
  destruct k as [|k]; [lia|]. simpl in Hk, Hlen.
  destruct l as [|z l]; [done|].
  change (∃ a b, y +:+ sep +:+ Py.join sep (z :: l)
                 = a +:+ (sep +:+ x +:+ sep) +:+ b).
  destruct k as [|k]; simpl in Hk.
  - injection Hk as ->. destruct l as [|w l]; [simpl in Hlen; lia|].
    exists y, (Py.join sep (w :: l)).
    change (y +:+ sep +:+ x +:+ sep +:+ Py.join sep (w :: l)
            = y +:+ (sep +:+ x +:+ sep) +:+ Py.join sep (w :: l)).
    by rewrite !append_assoc.
  - destruct (IH (S k)) as (a & b & Hab); [done | lia | lia |].
    exists (y +:+ sep +:+ a), b. by rewrite Hab, !append_assoc.
Qed.

Lemma contains_after (sub a s : string) :
  Py.contains sub s = true → Py.contains sub (a +:+ s) = true.
Proof.
  intros Hs. induction a as [|x a IH]; [done|].
  change (Py.contains sub (String x (a +:+ s)) = true).
  rewrite contains_unfold, IH. apply orb_true_r.
Qed.

Lemma path_str_cases (p : path) :
  p = [] ∨ path_str p = Py.join "/" p
  ∨ ∃ root rest, p = root :: rest ∧ path_str p = root +:+ Py.join "/" rest.
Proof.
  destruct p as [|p0 rest]; [by left|]. right.
  unfold path_str. destruct (is_root p0); [right; by exists p0, rest | by left].
Qed.

(** A light-client fixture of the [sync] suite that lies in a directory
    below the suite is one that line 487 detects. *)
Lemma light_client_sync_is_detected parts i preset fork filename :
  decomposes parts i preset fork "light_client" "sync" filename →
  (i + 5 < length parts)%nat →
  is_light_client_sync parts = true.
Proof.
  intros (_ & _ & _ & Htype & Hsuite & _) Hlen. unfold is_light_client_sync.
  assert (Hjoin : ∀ (l : list string) k,
            l !! k = Some "light_client" → l !! S k = Some "sync" →
            (S (S k) < length l)%nat →
            Py.contains "light_client" (Py.join "/" l) = true
            ∧ Py.contains "/sync/" (Py.join "/" l) = true).
  { intros l k Hk HSk Hl. split.
    - destruct (join_lookup "/" _ _ _ Hk) as (a & b & ->). apply contains_append.
    - destruct (join_lookup_between "/" _ _ _ HSk) as (a & b & ->); [lia..|].
      apply (contains_append a "/sync/" b). }
  replace (i + 4)%nat with (S (i + 3)) in Hsuite by lia.
  destruct (path_str_cases parts) as [->|[->|(root & rest & -> & ->)]].
  - done.
  - destruct (Hjoin _ _ Htype Hsuite) as [-> ->]; [lia | done].
  - simpl in Hlen. replace (i + 3)%nat with (S (i + 2)) in Htype, Hsuite by lia.
    simpl in Htype, Hsuite.
    destruct (Hjoin _ _ Htype Hsuite) as [H1 H2]; [lia|].
    by rewrite !contains_after.
Qed.

Section DispatcherProperties.
Context {ssz_type obj : Type}.
Variable Deltas : ssz_type.
Variable import_module : string → outcome (string → option ssz_type).
Variable get_ssz_object_from_ssz_encoded : path → ssz_type → outcome obj.
Variable output_ssz_to_file : path → obj → outcome unit.
Variable PREVIOUS_FORK_OF : gmap string string.
Variable dir : directory.

(** [get_ssz_type_class] is a function of its arguments. *)
Lemma get_ssz_type_class_run {L} preset fork type_name (l : L) log :
  get_ssz_type_class Deltas import_module preset fork type_name l log
  = (type_class Deltas import_module preset fork type_name, l, log).
Proof.
  unfold type_class, get_ssz_type_class.
  destruct (type_name == "Deltas"); [reflexivity|].
  unfold bind, try_except, of_outcome.
  destruct (import_module _) as [module|e]; simpl.
  - destruct (module type_name); reflexivity.
  - destruct (exn_cls e == ImportError); reflexivity.
Qed.

Lemma tried_app log1 log2 : tried (log1 ++ log2) = tried log1 ++ tried log2.
Proof. apply omap_app. Qed.

(** The loop over the candidates: its outcome, the final [fork], and the
    forks it announces. *)
Lemma try_alternative_forks_run input_path preset type_name e alts fork log :
  ∃ more,
    try_alternative_forks Deltas import_module get_ssz_object_from_ssz_encoded
      input_path preset type_name e alts fork log
    = (match first_success
               (decode_with Deltas import_module get_ssz_object_from_ssz_encoded
                  input_path preset type_name) alts with
       | Some (_, o) => Ok o
       | None => Raise e
       end,
       match first_success
               (decode_with Deltas import_module get_ssz_object_from_ssz_encoded
                  input_path preset type_name) alts with
       | Some (alt, _) => alt
       | None => fork
       end,
       log ++ more)
    ∧ tried more
      = attempted
          (decode_with Deltas import_module get_ssz_object_from_ssz_encoded
             input_path preset type_name) alts.
Proof.
  revert log. induction alts as [|alt alts IH]; intros log; simpl.
  - exists []. by rewrite app_nil_r.
  - unfold try_except, bind, print, decode_with.
    rewrite get_ssz_type_class_run.
    destruct (type_class _ _ _ _ _) as [class|e1]; simpl.
    + destruct (get_ssz_object_from_ssz_encoded input_path class) as [o|e2]; simpl.
      * exists [EvTryingFork alt; EvSuccessWith alt].
        by rewrite <- app_assoc.
      * destruct (IH ((log ++ [EvTryingFork alt]) ++ [EvAltFailed alt e2]))
          as (more & -> & Hmore).
        exists (EvTryingFork alt :: EvAltFailed alt e2 :: more).
        unfold decode_with in *. rewrite <- !app_assoc. simpl. by rewrite Hmore.
    + destruct (IH ((log ++ [EvTryingFork alt]) ++ [EvAltFailed alt e1]))
        as (more & -> & Hmore).
      exists (EvTryingFork alt :: EvAltFailed alt e1 :: more).
      unfold decode_with in *. rewrite <- !app_assoc. simpl. by rewrite Hmore.
Qed.

(** After a failed decode under the resolved fork: the outcome, the final
    value of [fork] and the forks tried, in terms of the candidates. *)
Lemma deserialize_after_failure input_path output_path t plog class e :
  run_parse PREVIOUS_FORK_OF dir input_path = (Ok t, plog) →
  type_class Deltas import_module (t_preset t) (t_fork t) (t_type_name t) = Ok class →
  get_ssz_object_from_ssz_encoded input_path class = Raise e →
  let attempt :=
    decode_with Deltas import_module get_ssz_object_from_ssz_encoded input_path
      (t_preset t) (t_type_name t) in
  let alts := alternative_forks input_path (t_fork t) in
  ∃ log,
    run_deserialize Deltas import_module get_ssz_object_from_ssz_encoded
      output_ssz_to_file PREVIOUS_FORK_OF dir input_path output_path
    = (match first_success attempt alts with
       | Some (_, o) =>
           match output_path with
           | Some p =>
               match output_ssz_to_file p o with
               | Ok _ => Ok o
               | Raise e' => Raise e'
               end
           | None => Ok o
           end
       | None => Raise e
       end,
       match first_success attempt alts with
       | Some (alt, _) => alt
       | None => t_fork t
       end,
       plog ++ log)
    ∧ tried log = attempted attempt alts.
Proof.
  intros Hparse Hclass Hdecode attempt alts.
  unfold run_parse in Hparse.
  destruct (parse_ssz_path _ _ _ _ _) as [[r l'] plog'] eqn:Hp.
  injection Hparse as -> ->.
  unfold run_deserialize, deserialize_ssz_file.
  unfold bind at 1. unfold call. rewrite Hp.
  unfold bind at 1 2 3. unfold modify at 1. unfold print at 1.
  rewrite get_ssz_type_class_run, Hclass.
  unfold bind, print, try_except, of_outcome, ret, raise.
  rewrite Hdecode. fold alts.
  destruct (is_light_client_sync input_path && bool_decide (alts ≠ [])) eqn:Hc.
  - match goal with
    | |- context [try_alternative_forks _ _ _ _ _ _ _ _ _ ?lg] =>
        destruct (try_alternative_forks_run input_path (t_preset t) (t_type_name t)
                    e alts (t_fork t) lg) as (more & Hrun & Hmore)
    end.
    rewrite Hrun. fold attempt in Hmore. fold attempt.
    destruct (first_success attempt alts) as [[alt o]|].
    + destruct output_path as [p|].
      * destruct (output_ssz_to_file p o) as [[]|e'].
        -- eexists. rewrite <- !app_assoc. split; [reflexivity|].
           simpl. rewrite <- Hmore, !tried_app. simpl. by rewrite app_nil_r.
        -- eexists. rewrite <- !app_assoc. split; [reflexivity|].
           simpl. by rewrite <- Hmore.
      * eexists. rewrite <- !app_assoc. split; [reflexivity|].
        simpl. rewrite <- Hmore, !tried_app. simpl. by rewrite app_nil_r.
    + eexists. rewrite <- !app_assoc. split; [reflexivity|].
      simpl. by rewrite <- Hmore.
  - assert (Hnone : alts = []).
    { apply andb_false_iff in Hc as [Hc|Hc].
      - subst alts. unfold alternative_forks. by rewrite Hc.
      - apply bool_decide_eq_false_1 in Hc.
        destruct (decide (alts = [])); [done | contradiction]. }
    rewrite Hnone. simpl.
    eexists. rewrite <- !app_assoc. split; reflexivity.
Qed.

(** C2, as the code has it.  When the fork resolved by [parse_ssz_path] has
    the type but decoding under it fails with [e]:
    - if the path does not contain both [light_client] and [/sync/], [e]
      is raised at once, [fork] is unchanged and no other fork is tried;
    - if it does (as for every fixture below the [sync] suite of the
      light-client category), the candidates are the names of the fixed
      list [deneb, electra, capella, bellatrix, altair] that occur in the
      lower-cased path and differ from the resolved fork, in the order of
      that list.  Decoding is tried once per candidate, up to the first
      success: the object decoded there is returned (once written, when an
      output path is given) and [fork] is that candidate.  When no
      candidate succeeds, or there is none, [e] itself is raised and
      [fork] is unchanged. *)
Theorem retry_policy input_path output_path t plog class e :
  run_parse PREVIOUS_FORK_OF dir input_path = (Ok t, plog) →
  type_class Deltas import_module (t_preset t) (t_fork t) (t_type_name t) = Ok class →
  get_ssz_object_from_ssz_encoded input_path class = Raise e →
  let attempt :=
    decode_with Deltas import_module get_ssz_object_from_ssz_encoded input_path
      (t_preset t) (t_type_name t) in
  let run :=
    run_deserialize Deltas import_module get_ssz_object_from_ssz_encoded
      output_ssz_to_file PREVIOUS_FORK_OF dir input_path output_path in
  (is_light_client_sync input_path = false →
     ∃ log, run = (Raise e, t_fork t, plog ++ log) ∧ tried log = [])
  ∧ (is_light_client_sync input_path = true →
       let alts :=
         filter (λ name, Py.contains name (Py.lower (path_str input_path)) = true
                         ∧ name ≠ t_fork t) fallback_forks in
       ∃ log,
         run = (match first_success attempt alts with
                | Some (_, o) =>
                    match output_path with
                    | Some p =>
                        match output_ssz_to_file p o with
                        | Ok _ => Ok o
                        | Raise e' => Raise e'
                        end
                    | None => Ok o
                    end
                | None => Raise e
                end,
                match first_success attempt alts with
                | Some (alt, _) => alt
                | None => t_fork t
                end,
                plog ++ log)
         ∧ tried log = attempted attempt alts).
Proof.
  intros Hparse Hclass Hdecode attempt run.
  destruct (deserialize_after_failure input_path output_path t plog class e
              Hparse Hclass Hdecode) as (log & Hrun & Htried).
  fold attempt in Hrun, Htried. fold run in Hrun.
  unfold alternative_forks in Hrun, Htried.
  split; intros Hsync; rewrite Hsync in Hrun, Htried; by exists log.
Qed.

End DispatcherProperties.

(** The scenario of the spec: the path embeds [altair] and [bellatrix], the
    directory fork is [altair], decoding fails under it and succeeds under
    [bellatrix]. *)
Lemma retry_policy_witness :
  ∃ log,
    run_sample ["bellatrix"]
      (sync_case "altair" "altair_bellatrix_fork" "bootstrap.ssz_snappy")
    = (Ok "decoded as eth2spec.bellatrix.minimal:LightClientBootstrap",
       "bellatrix", log)
    ∧ tried log = ["bellatrix"].
Proof.
  destruct (retry_policy "Deltas" sample_import (sample_decode ["bellatrix"])
              sample_output sample_table (Directory Absent Absent)
              (sync_case "altair" "altair_bellatrix_fork" "bootstrap.ssz_snappy")
              None
              (Target "minimal" "altair" "LightClientBootstrap" "bootstrap.ssz_snappy")
              [] "eth2spec.altair.minimal:LightClientBootstrap"
              (Exn OtherError
                 "cannot decode as eth2spec.altair.minimal:LightClientBootstrap"))
    as (_ & Hsync).
  - vm_compute. reflexivity.
  - vm_compute. reflexivity.
  - vm_compute. reflexivity.
  - destruct Hsync as (log & Hrun & Htried); [vm_compute; reflexivity|].
    exists log. split.
    + etransitivity; [exact Hrun|]. vm_compute. reflexivity.
    + rewrite Htried. vm_compute. reflexivity.
Defined.

(** C2 as stated fails on the order and on the set of the candidates.
    In a [bellatrix] directory whose test name is [capella_deneb_fork], the
    names occur in the path in the order capella, deneb, and decoding
    succeeds under both; the dispatcher tries [deneb] first and returns its
    object.  In an [electra] directory whose test name is
    [electra_fulu_fork], [fulu] occurs in the path and decodes, but it is
    not a candidate: the failure under [electra] is raised at once. *)
Lemma retry_candidates_follow_the_fixed_list :
  let p := sync_case "bellatrix" "capella_deneb_fork" "bootstrap.ssz_snappy" in
  let q := sync_case "electra" "electra_fulu_fork" "bootstrap.ssz_snappy" in
  path_order_candidates p "bellatrix" = ["capella"; "deneb"]
  ∧ alternative_forks p "bellatrix" = ["deneb"; "capella"]
  ∧ decode_with "Deltas" sample_import (sample_decode ["capella"; "deneb"]) p
      "minimal" "LightClientBootstrap" "capella"
    = Ok "decoded as eth2spec.capella.minimal:LightClientBootstrap"
  ∧ (run_sample ["capella"; "deneb"] p).1
    = (Ok "decoded as eth2spec.deneb.minimal:LightClientBootstrap", "deneb")
  ∧ tried (run_sample ["capella"; "deneb"] p).2 = ["deneb"]
  ∧ path_order_candidates q "electra" = ["fulu"]
  ∧ alternative_forks q "electra" = []
  ∧ decode_with "Deltas" sample_import (sample_decode ["fulu"]) q
      "minimal" "LightClientBootstrap" "fulu"
    = Ok "decoded as eth2spec.fulu.minimal:LightClientBootstrap"
  ∧ (run_sample ["fulu"] q).1
    = (Raise (Exn OtherError
                "cannot decode as eth2spec.electra.minimal:LightClientBootstrap"),
       "electra")
  ∧ tried (run_sample ["fulu"] q).2 = [].
Proof. vm_compute. repeat split; reflexivity. Qed.

(** ** The fork transition table as a graph *)

(** Removing an entry adds no path, and changes nothing for a walk that
    does not meet it. *)
Lemma reaches_delete table k a b :
  reaches (delete k table) a b → reaches table a b.
Proof.
  induction 1 as [a b Hab | a b c Hab Hr IH];
    apply lookup_delete_Some in Hab as [_ Hab].
  - by apply reaches_link.
  - by eapply reaches_more.
Qed.

Lemma acyclic_delete table k : acyclic table → acyclic (delete k table).
Proof. intros Hac k' Hr. apply (Hac k'). by eapply reaches_delete. Qed.

Lemma follow_delete table k fuel v :
  v ≠ k → ¬ reaches table v k →
  follow (delete k table) fuel v = follow table fuel v.
Proof.
  revert v. induction fuel as [|fuel IH]; intros v Hne Hnr; simpl;
    rewrite lookup_delete_ne by done; [done|].
  destruct (table !! v) as [w|] eqn:Hw; [|done].
  apply IH.
  - intros ->. apply Hnr. by apply reaches_link.
  - intros Hr. apply Hnr. by eapply reaches_more.
Qed.

(** Where a walk ends is its start or is reached from it. *)
Lemma follow_reaches table fuel v g :
  follow table fuel v = Some g → g = v ∨ reaches table v g.
Proof.
  revert v. induction fuel as [|fuel IH]; intros v; simpl;
    destruct (table !! v) as [w|] eqn:Hw.
  - done.
  - intros [= <-]. by left.
  - intros [->|Hr]%IH; right; [by apply reaches_link | by eapply reaches_more].
  - intros [= <-]. by left.
Qed.

(** In a table without cycle, the walk from any version ends, after at
    most as many links as the table has entries, at a version without
    predecessor. *)
Lemma follow_terminates table :
  acyclic table →
  ∀ k, ∃ genesis, follow table (size table) k = Some genesis ∧ table !! genesis = None.
Proof.
  remember (size table) as n eqn:Hn. revert table Hn.
  induction n as [|n IH]; intros table Hn Hac k.
  - symmetry in Hn. apply map_size_empty_inv in Hn as ->.
    exists k. simpl. by rewrite lookup_empty.
  - simpl. destruct (table !! k) as [v|] eqn:Hk; [|by exists k].
    assert (Hvk : v ≠ k).
    { intros ->. apply (Hac k). by apply reaches_link. }
    assert (Hnr : ¬ reaches table v k).
    { intros Hr. apply (Hac k). by eapply reaches_more. }
    destruct (IH (delete k table)) with (k := v) as (g & Hg & Hnone).
    { rewrite map_size_delete, Hk. simpl. lia. }
    { by apply acyclic_delete. }
    rewrite follow_delete in Hg by done.
    exists g. split; [done|].
    apply lookup_delete_None in Hnone as [->|?]; [|done].
    apply follow_reaches in Hg as [?|?]; done.
Qed.

(** A ranking that every link decreases excludes cycles. *)
Lemma ranked_acyclic table (rank : string → nat) :
  (∀ k v, table !! k = Some v → (rank v < rank k)%nat) → acyclic table.
Proof.
  intros Hrank.
  assert (H : ∀ a b, reaches table a b → (rank b < rank a)%nat).
  { induction 1 as [a b Hab | a b c Hab Hr IH].
    - by apply Hrank.
    - apply Hrank in Hab. lia. }
  intros k Hr. apply H in Hr. lia.
Qed.

Lemma sample_table_acyclic : acyclic sample_table.
Proof.
  apply (ranked_acyclic _ sample_rank). intros k v Hkv.
  apply elem_of_list_to_map_2 in Hkv.
  repeat (apply elem_of_cons in Hkv as [[= -> ->]|Hkv]; [vm_compute; lia|]).
  by apply elem_of_nil in Hkv.
Qed.

(** ** The audit: accounting (C10) *)

(** Counting is additive over the fixtures met, file by file, directory
    by directory, preset by preset. *)
Lemma accounts_nil r : accounts r [] r.
Proof.
  unfold accounts, keyed, unrendered, with_key. simpl.
  repeat split; try lia; try (by rewrite app_nil_r).
Qed.

Lemma accounts_app r0 fs1 r1 fs2 r2 :
  accounts r0 fs1 r1 → accounts r1 fs2 r2 → accounts r0 (fs1 ++ fs2) r2.
Proof.
  unfold accounts, keyed, unrendered, with_key.
  intros (Ht1 & Hy1 & Hm1 & Hf1 & Hk1) (Ht2 & Hy2 & Hm2 & Hf2 & Hk2).
  rewrite !filter_app, !fmap_app, !length_app.
  repeat split; try lia.
  - rewrite Hf2, Hf1. by rewrite app_assoc.
  - intros key. rewrite Hk2, Hk1, !filter_app, length_app. lia.
Qed.

Local Ltac filter_step :=
  rewrite ?filter_cons, ?filter_nil; simpl;
  repeat first [rewrite decide_True by done | rewrite decide_False by done];
  simpl.

Lemma accounts_visit_file root dirs files r file :
  accounts r
    (if is_ssz file then [Fixture (root ++ [file]) (has_yaml dirs files file)] else [])
    (visit_file root dirs files r file).
Proof.
  unfold visit_file. destruct (is_ssz file); [|apply accounts_nil].
  unfold accounts, keyed, unrendered, with_key, relative_path.
  destruct (has_yaml dirs files file) eqn:Hy.
  - do 3 filter_step.
    repeat split; try lia; try (by rewrite app_nil_r).
  - case_bool_decide as Hlen.
    + do 3 filter_step.
      repeat split; try lia.
      intros key. unfold increment. filter_step.
      destruct (decide (test_key (root ++ [file]) = key)) as [->|Hne].
      * rewrite lookup_insert_eq. simpl. lia.
      * rewrite lookup_insert_ne by done. simpl. lia.
    + do 3 filter_step.
      repeat split; try lia; try (by rewrite app_nil_r).
Qed.

Lemma accounts_files root dirs files r some_files :
  accounts r
    ((λ file, Fixture (root ++ [file]) (has_yaml dirs files file))
       <$> filter (λ file, is_ssz file = true) some_files)
    (foldl (visit_file root dirs files) r some_files).
Proof.
  revert r. induction some_files as [|file rest IH]; intros r; simpl.
  - apply accounts_nil.
  - pose proof (accounts_visit_file root dirs files r file) as Hone.
    rewrite filter_cons. destruct (is_ssz file) eqn:Hs.
    + rewrite decide_True by done. rewrite fmap_cons.
      exact (accounts_app _ [_] _ _ _ Hone (IH _)).
    + rewrite decide_False by (intros ?; congruence).
      exact (accounts_app _ [] _ _ _ Hone (IH _)).
Qed.

Lemma accounts_directories r triples :
  accounts r (flat_map directory_fixtures triples) (foldl visit_directory r triples).
Proof.
  revert r. induction triples as [|[[root dirs] files] rest IH]; intros r; simpl.
  - apply accounts_nil.
  - eapply accounts_app; [apply accounts_files | apply IH].
Qed.

Lemma accounts_preset tests_dir r preset :
  accounts r (preset_fixtures tests_dir preset) (visit_preset tests_dir r preset).
Proof.
  unfold preset_fixtures, visit_preset.
  destruct (find_entry preset tests_dir); [apply accounts_directories | apply accounts_nil].
Qed.

Lemma accounts_check tests_dir :
  accounts (Report 0 0 0 ∅ []) (fixtures tests_dir) (check_missing_yamls tests_dir).
Proof.
  unfold fixtures, check_missing_yamls. simpl. rewrite app_nil_r.
  eapply accounts_app; apply accounts_preset.
Qed.

Lemma fixtures_split (fs : list fixture) :
  length fs
  = (length (filter (λ f, fx_companion f = true) fs) + length (unrendered fs))%nat.
Proof.
  unfold unrendered. induction fs as [|[parts []] fs IH]; [done| |];
    do 2 filter_step; lia.
Qed.

(** C10: in the report of every audit run, the number of binary fixtures is
    the number with a companion plus the number missing; and one pass of
    the loop body over a binary fixture adds one to the total and one to
    exactly one of the two other counters (and changes nothing for any
    other file). *)
Theorem audit_totals_balance tests_dir :
  let r := check_missing_yamls tests_dir in
  total_ssz r = (total_yaml r + missing_count r)%nat
  ∧ ∀ root dirs files r0 file,
      let r' := visit_file root dirs files r0 file in
      if is_ssz file then
        total_ssz r' = S (total_ssz r0)
        ∧ (if has_yaml dirs files file
           then total_yaml r' = S (total_yaml r0) ∧ missing_count r' = missing_count r0
           else total_yaml r' = total_yaml r0 ∧ missing_count r' = S (missing_count r0))
      else r' = r0.
Proof.
  split.
  - destruct (accounts_check tests_dir) as (Ht & Hy & Hm & _).
    rewrite Ht, Hy, Hm. simpl. apply fixtures_split.
  - intros root dirs files r0 file. unfold visit_file.
    destruct (is_ssz file); [|done].
    destruct (has_yaml dirs files file); [done|].
    case_bool_decide; done.
Qed.

(** ** The audit: what is counted and listed (C8) *)

(** Induction over a tree, with the hypothesis for every entry. *)
Lemma node_induction (P : node → Prop) :
  (∀ name, P (File name)) →
  (∀ name entries, Forall P entries → P (Folder name entries)) →
  ∀ n, P n.
Proof.
  intros Hfile Hfolder. fix IH 1. intros [name|name entries].
  - apply Hfile.
  - apply Hfolder. induction entries as [|n entries IHentries].
    + constructor.
    + constructor; [apply IH | exact IHentries].
Qed.

Lemma elem_of_flat_map {A B} (f : A → list B) (l : list A) (y : B) :
  y ∈ flat_map f l ↔ ∃ x, x ∈ l ∧ y ∈ f x.
Proof.
  induction l as [|a l IH]; simpl.
  - split; [by intros ?%elem_of_nil | by intros (x & ?%elem_of_nil & _)].
  - rewrite elem_of_app, IH. split.
    + intros [H|(x & Hx & Hy)]; [exists a | exists x]; split; try done;
        by constructor.
    + intros (x & [->|Hx]%elem_of_cons & Hy); [by left | right; eauto].
Qed.

(** [os.walk] yields one triple for each folder of the tree. *)
Lemma os_walk_folders n parent root dirs files :
  (root, dirs, files) ∈ os_walk parent n
  ↔ ∃ p entries,
      folder_at n p entries ∧ root = parent ++ p
      ∧ dirs = dirnames entries ∧ files = filenames entries.
Proof.
  revert parent. induction n as [name|name entries IH] using node_induction;
    intros parent; simpl.
  - split; [by intros ?%elem_of_nil|]. intros (p & es & H & _). inversion H.
  - rewrite elem_of_cons, elem_of_flat_map. split.
    + intros [[= -> -> ->]|(n & Hn & Hin)].
      * exists [name], entries. repeat split. constructor.
      * rewrite Forall_forall in IH. apply (IH n Hn) in Hin
          as (p & es & Hat & -> & -> & ->).
        exists (name :: p), es. repeat split.
        -- by eapply folder_below.
        -- by rewrite <- app_assoc.
    + intros (p & es & Hat & -> & -> & ->).
      inversion Hat as [|? ? n p' ? Hn Hat']; subst.
      * by left.
      * right. exists n. split; [done|].
        rewrite Forall_forall in IH. apply (IH n Hn).
        exists p', es. repeat split; [done|]. by rewrite <- app_assoc.
Qed.

Lemma elem_of_filenames entries file :
  file ∈ filenames entries ↔ File file ∈ entries.
Proof.
  unfold filenames. rewrite list_elem_of_fmap. split.
  - intros ([name|name es] & -> & [Hf Hin]%list_elem_of_filter); done.
  - intros Hin. exists (File file). split; [done|].
    by apply list_elem_of_filter.
Qed.

Lemma has_yaml_entry entries file :
  has_yaml (dirnames entries) (filenames entries) file = true
  ↔ has_entry entries (file +:+ ".yaml").
Proof.
  unfold has_yaml, has_entry, dirnames, filenames.
  rewrite bool_decide_eq_true, elem_of_app, !list_elem_of_fmap. split.
  - intros [(n & -> & [_ Hin]%list_elem_of_filter)
           |(n & -> & [_ Hin]%list_elem_of_filter)]; eauto.
  - intros (n & Hin & <-). destruct (is_folder n) eqn:Hn.
    + right. exists n. split; [done|]. by apply list_elem_of_filter.
    + left. exists n. split; [done|]. by apply list_elem_of_filter.
Qed.

(** The fixtures counted are the files with the binary suffix in the
    folders of the [minimal] and [mainnet] entries of the root; the
    companion of one is an entry of the same folder, file or folder. *)
Lemma elem_of_fixtures tests_dir parts companion :
  Fixture parts companion ∈ fixtures tests_dir
  ↔ ∃ preset n p entries file,
      preset ∈ ["minimal"; "mainnet"]
      ∧ find_entry preset tests_dir = Some n
      ∧ folder_at n p entries
      ∧ File file ∈ entries
      ∧ is_ssz file = true
      ∧ parts = p ++ [file]
      ∧ (companion = true ↔ has_entry entries (file +:+ ".yaml")).
Proof.
  unfold fixtures. split.
  - intros Hin.
    apply elem_of_flat_map in Hin as (preset & Hpreset & Hin).
    unfold preset_fixtures in Hin.
    destruct (find_entry preset tests_dir) as [n|] eqn:Hfind;
      [|by apply elem_of_nil in Hin].
    apply elem_of_flat_map in Hin as ([[root dirs] files] & Hwalk & Hin).
    apply os_walk_folders in Hwalk as (p & entries & Hat & -> & -> & ->).
    simpl in Hin. apply list_elem_of_fmap in Hin as (file & [= -> ->] & Hfile).
    apply list_elem_of_filter in Hfile as [Hssz Hfile].
    apply elem_of_filenames in Hfile.
    exists preset, n, p, entries, file. repeat split; try done;
      apply has_yaml_entry.
  - intros (preset & n & p & entries & file & Hpreset & Hfind & Hat & Hfile
            & Hssz & -> & Hcompanion).
    assert (companion = has_yaml (dirnames entries) (filenames entries) file)
      as ->.
    { rewrite <- has_yaml_entry in Hcompanion.
      destruct companion, (has_yaml _ _ _); intuition congruence. }
    apply elem_of_flat_map. exists preset. split; [done|].
    unfold preset_fixtures. rewrite Hfind.
    apply elem_of_flat_map. exists (p, dirnames entries, filenames entries).
    split.
    + apply os_walk_folders. exists p, entries. done.
    + simpl. apply list_elem_of_fmap. exists file. split; [done|].
      apply list_elem_of_filter. split; [done|]. by apply elem_of_filenames.
Qed.

(** C8, as the code has it.  The audit counts the binary fixtures of the
    [minimal] and [mainnet] sub-trees.  Each one without a companion adds
    one to the missing count; when its path relative to the root has at
    least four segments, it also adds one to the count of the key made of
    its first four segments and is appended to the missing list by its
    relative path.  [main] prints the missing list sorted. *)
Theorem audit_counts_missing_fixtures tests_dir :
  let r := check_missing_yamls tests_dir in
  let fs := fixtures tests_dir in
  total_ssz r = length fs
  ∧ missing_count r = length (unrendered fs)
  ∧ missing_files r = relative_path <$> keyed fs
  ∧ (∀ key, default 0%nat (missing_by_test_type r !! key)
            = length (with_key key (keyed fs)))
  ∧ Sorted String.le (printed_missing_files r)
  ∧ printed_missing_files r ≡ₚ missing_files r.
Proof.
  destruct (accounts_check tests_dir) as (Ht & _ & Hm & Hf & Hk).
  repeat split.
  - by rewrite Ht.
  - by rewrite Hm.
  - by rewrite Hf.
  - intros key. rewrite Hk. simpl. rewrite lookup_empty. reflexivity.
  - apply Sorted_merge_sort. apply _.
  - apply merge_sort_Permutation.
Qed.

(** The scenario of ten fixtures, seven with a companion: two are missing
    in one category and one in the other. *)
Example audit_sample :
  let r := check_missing_yamls sample_tree in
  total_ssz r = 10%nat ∧ total_yaml r = 7%nat ∧ missing_count r = 3%nat
  ∧ missing_by_test_type r !! "minimal/phase0/operations/attestation" = Some 2%nat
  ∧ missing_by_test_type r !! "mainnet/phase0/sanity/blocks" = Some 1%nat
  ∧ size (missing_by_test_type r) = 2%nat
  ∧ printed_missing_files r
    = [ "mainnet/phase0/sanity/blocks/case_0/post.ssz_snappy";
        "minimal/phase0/operations/attestation/case_0/post.ssz_snappy";
        "minimal/phase0/operations/attestation/case_1/pre.ssz_snappy" ].
Proof. vm_compute. repeat split; reflexivity. Qed.

(** C8 as stated fails for a fixture less than four segments below the
    root: it is counted as missing, but no category count is incremented
    and the missing list does not record it.  It also fails for a fixture
    of the [general] preset, which the audit does not walk. *)
Lemma shallow_fixture_is_not_listed :
  let r := check_missing_yamls shallow_tree in
  unrendered (fixtures shallow_tree)
  = [Fixture ["minimal"; "phase0"; "genesis.ssz_snappy"] false]
  ∧ missing_count r = 1%nat
  ∧ missing_files r = []
  ∧ missing_by_test_type r = ∅
  ∧ check_missing_yamls general_tree = Report 0 0 0 ∅ [].
Proof. vm_compute. repeat split; reflexivity. Qed.

(** * Further properties *)

(** ** More sample evaluations *)

Example path_samples :
  Path "data/v1.6.0/tests/x.ssz_snappy" = ["data"; "v1.6.0"; "tests"; "x.ssz_snappy"]
  ∧ Path "/a//b/./c/" = ["/"; "a"; "b"; "c"]
  ∧ Path "//a" = ["//"; "a"] ∧ Path "///a" = ["/"; "a"]
  ∧ Path "" = [] ∧ Path "./a/.." = ["a"; ".."].
Proof. repeat split; reflexivity. Qed.

Example sample_lines_text :
  sample_constants
  = ("PHASE0 = SpecForkName('phase0')" +:+ newline +:+ newline)
    +:+ dictionary_text sample_lines +:+ newline.
Proof. reflexivity. Qed.

(** ** Rejected paths *)

Lemma index_None x (l : list string) : Py.index x l = None ↔ x ∉ l.
Proof.
  induction l as [|y l IH]; simpl.
  - split; [intros _; apply not_elem_of_nil | done].
  - destruct (decide (y = x)) as [->|Hne].
    + split; [done | intros []; by left].
    + rewrite fmap_None, IH, not_elem_of_cons. split; [done | by intros [_ ?]].
Qed.

Lemma index_first x (pre rest : list string) :
  x ∉ pre → Py.index x (pre ++ x :: rest) = Some (length pre).
Proof.
  induction pre as [|y pre IH]; simpl; intros Hnot.
  - by rewrite decide_True.
  - apply not_elem_of_cons in Hnot as [Hne Hnot].
    rewrite decide_False by done. by rewrite IH.
Qed.

Lemma run_parse_without_tests table dir (parts : path) :
  "tests" ∉ parts →
  run_parse table dir parts
  = (Raise (Exn ValueError
              ("Path must contain 'tests' directory: " +:+ path_str parts)), []).
Proof.
  intros Hnot. apply index_None in Hnot.
  unfold run_parse, parse_ssz_path, find_tests. by rewrite Hnot.
Qed.

Lemma run_parse_too_short table dir (pre rest : list string) :
  "tests" ∉ pre → (length rest < 4)%nat →
  run_parse table dir (pre ++ "tests" :: rest)
  = (Raise (Exn ValueError
              ("Path too short, expected format: tests/{preset}/{fork}/{test_type}/{test_suite}/...: "
               +:+ path_str (pre ++ "tests" :: rest))), []).
Proof.
  intros Hnot Hlen. unfold run_parse, parse_ssz_path, find_tests.
  rewrite index_first by done.
  rewrite bool_decide_eq_true_2; [reflexivity|].
  rewrite length_app. simpl. lia.
Qed.

(** X1: a path none of whose parts is ['tests'] is rejected with the
    [ValueError] whose text is [Path must contain 'tests' directory: ]
    followed by the path as [str] shows it; nothing is printed, and
    neither the table nor a sidecar plays a part. *)
Theorem path_without_tests_is_rejected table dir (parts : path) :
  "tests" ∉ parts →
  run_parse table dir parts
  = (Raise (Exn ValueError
              ("Path must contain 'tests' directory: " +:+ path_str parts)), []).
Proof. apply run_parse_without_tests. Qed.

(** A relative path, and a path under the root of two slashes. *)
Lemma path_without_tests_is_rejected_witness :
  run_parse sample_table (Directory Absent Absent) ["data"; "serialized.ssz_snappy"]
  = (Raise (Exn ValueError
              "Path must contain 'tests' directory: data/serialized.ssz_snappy"), [])
  ∧ run_parse sample_table (Directory Absent Absent)
      ["//"; "srv"; "serialized.ssz_snappy"]
    = (Raise (Exn ValueError
                "Path must contain 'tests' directory: //srv/serialized.ssz_snappy"), []).
Proof.
  split.
  - apply (path_without_tests_is_rejected sample_table (Directory Absent Absent)
             ["data"; "serialized.ssz_snappy"]).
    compute_done.
  - apply (path_without_tests_is_rejected sample_table (Directory Absent Absent)
             ["//"; "srv"; "serialized.ssz_snappy"]).
    compute_done.
Defined.

(** X2: a path with fewer than four parts after its first ['tests'] is
    rejected with the [ValueError] [Path too short, ...], before anything
    is read or printed. *)
Theorem short_path_is_rejected table dir (pre rest : list string) :
  "tests" ∉ pre → (length rest < 4)%nat →
  run_parse table dir (pre ++ "tests" :: rest)
  = (Raise (Exn ValueError
              ("Path too short, expected format: tests/{preset}/{fork}/{test_type}/{test_suite}/...: "
               +:+ path_str (pre ++ "tests" :: rest))), []).
Proof. apply run_parse_too_short. Qed.

(** A relative path, and a path under the root of two slashes. *)
Lemma short_path_is_rejected_witness :
  run_parse sample_table (Directory Absent Absent)
    ["data"; "tests"; "minimal"; "phase0"; "genesis.ssz_snappy"]
  = (Raise (Exn ValueError
              "Path too short, expected format: tests/{preset}/{fork}/{test_type}/{test_suite}/...: data/tests/minimal/phase0/genesis.ssz_snappy"),
     [])
  ∧ run_parse sample_table (Directory Absent Absent) ["//"; "tests"]
    = (Raise (Exn ValueError
                "Path too short, expected format: tests/{preset}/{fork}/{test_type}/{test_suite}/...: //tests"),
       []).
Proof.
  split.
  - apply (short_path_is_rejected sample_table (Directory Absent Absent)
             ["data"] ["minimal"; "phase0"; "genesis.ssz_snappy"]).
    + compute_done.
    + simpl. lia.
  - apply (short_path_is_rejected sample_table (Directory Absent Absent) ["//"] []).
    + compute_done.
    + simpl. lia.
Defined.

Lemma path_name_last (p : path) x : (1 < length p)%nat → last p = Some x → path_name p = x.
Proof.
  intros Hlen Hlast. unfold path_name. rewrite Hlast.
  destruct p as [|p0 [|p1 p]]; simpl in *; try lia.
  repeat case_match; done.
Qed.

Lemma decomposes_first_tests (pre rest : list string) preset fork test_type test_suite :
  "tests" ∉ pre →
  decomposes (pre ++ "tests" :: preset :: fork :: test_type :: test_suite :: rest)
    (length pre) preset fork test_type test_suite (default test_suite (last rest)).
Proof.
  intros Hnot. unfold decomposes, find_tests. rewrite index_first by done.
  split; [done|].
  repeat (split; [rewrite lookup_app_r by lia;
                  match goal with |- _ !! ?n = _ => by replace n with 1%nat by lia
                                | |- _ !! ?n = _ => by replace n with 2%nat by lia
                                | |- _ !! ?n = _ => by replace n with 3%nat by lia
                                | |- _ !! ?n = _ => by replace n with 4%nat by lia end|]).
  apply path_name_last.
  - rewrite length_app. simpl. lia.
  - change (pre ++ "tests" :: preset :: fork :: test_type :: test_suite :: rest)
      with (pre ++ ["tests"; preset; fork; test_type] ++ test_suite :: rest).
    rewrite !last_app, last_cons. by destruct (last rest).
Qed.

Lemma run_parse_decomposed_ok table dir parts i preset fork test_type test_suite filename t log :
  decomposes parts i preset fork test_type test_suite filename →
  run_parse table dir parts = (Ok t, log) →
  t_preset t = preset ∧ t_filename t = filename.
Proof.
  intros Hd. unfold run_parse. rewrite (parse_ssz_path_decomposed _ _ _ _ _ _ _ _ _ Hd).
  match goal with
  | |- context [bind ?m ?k (Locals "" false) []] =>
      destruct (bind m k (Locals "" false) []) as [[r l'] log'] eqn:Hrun
  end.
  intros [= -> ->].
  do 7 (apply bind_ok in Hrun as (? & ? & ? & _ & Hrun)).
  by injection Hrun as <- _ _.
Qed.

(** X3: the first part equal to ['tests'] is the anchor: the four
    parts after it are the preset, the fork, the category and the suite,
    whatever they are (a second ['tests'] right after the first is taken
    as the preset), and the last part is the filename.  Every resolution
    that returns has that preset and that filename. *)
Theorem first_tests_component_is_the_anchor
    table dir (pre rest : list string) preset fork test_type test_suite :
  "tests" ∉ pre →
  let parts := pre ++ "tests" :: preset :: fork :: test_type :: test_suite :: rest in
  decomposes parts (length pre) preset fork test_type test_suite
    (default test_suite (last rest))
  ∧ ∀ t log, run_parse table dir parts = (Ok t, log) →
             t_preset t = preset ∧ t_filename t = default test_suite (last rest).
Proof.
  intros Hnot parts.
  pose proof (decomposes_first_tests pre rest preset fork test_type test_suite Hnot) as Hd.
  split; [exact Hd|]. intros t log. by apply run_parse_decomposed_ok with (i := length pre) (fork := fork) (test_type := test_type) (test_suite := test_suite).
Qed.

Lemma first_tests_component_is_the_anchor_witness :
  Path usage_example
  = ["data"; "v1.6.0"] ++ "tests" :: "tests" :: "mainnet" :: "gloas" :: "ssz_static"
      :: ["IndexedPayloadAttestation"; "ssz_random"; "case_0"; "serialized.ssz_snappy"]
  ∧ run_parse sample_table (Directory Absent Absent) (Path usage_example)
    = (Ok (Target "tests" "mainnet" "SszStatic" "serialized.ssz_snappy"), [])
  ∧ t_preset (Target "tests" "mainnet" "SszStatic" "serialized.ssz_snappy") = "tests".
Proof.
  split; [reflexivity|]. split; [vm_compute; reflexivity|].
  destruct (first_tests_component_is_the_anchor sample_table (Directory Absent Absent)
              ["data"; "v1.6.0"]
              ["IndexedPayloadAttestation"; "ssz_random"; "case_0"; "serialized.ssz_snappy"]
              "tests" "mainnet" "gloas" "ssz_static") as [_ H]; [compute_done|].
  apply (H _ []). vm_compute. reflexivity.
Defined.

(** ** Fixtures that no fork rule looks at *)

(** The type-name step of lines 272-287 returns, and leaves the locals and
    the log as they are. *)
Lemma type_name_rule_run parts i preset fork test_type test_suite filename l log :
  decomposes parts i preset fork test_type test_suite filename →
  ∃ type_name,
    type_name_rule parts i test_type test_suite filename l log = (Ok type_name, l, log)
    ∧ (test_type = "ssz_static" → type_name = test_suite)
    ∧ (test_type ∈ ["light_client"; "merkle_proof"] →
       test_suite = "single_merkle_proof" → filename = "object.ssz_snappy" →
       test_type ≠ "ssz_static" ∧ parts !! (i + 5)%nat = Some type_name)
    ∧ (test_type ≠ "ssz_static" →
       ¬ (test_type ∈ ["light_client"; "merkle_proof"]
          ∧ test_suite = "single_merkle_proof" ∧ filename = "object.ssz_snappy") →
       type_name = derive_type_from_suite test_type test_suite filename).
Proof.
  intros Hd.
  destruct (returns_run _ l log (type_name_rule_returns _ _ _ _ _ _ _ Hd))
    as (ty & l' & log' & Hrun).
  exists ty. revert Hrun. unfold type_name_rule, in_list.
  case_bool_decide as Hstatic.
  { intros [= <- <- <-]. split; [done|]. split; [done|].
    split; [|done]. intros Hin. subst test_type.
    exfalso. revert Hin. compute_done. }
  destruct (_ && _) eqn:Hc.
  - apply andb_prop in Hc as [Hc Hobj]. apply andb_prop in Hc as [Hin Hsuite].
    apply bool_decide_eq_true_1 in Hin, Hsuite, Hobj.
    destruct (parts !! (i + 5)%nat) as [x|]; [|discriminate].
    intros [= <- <- <-]. split; [done|]. split; [done|].
    split; [done|]. intros _ []. done.
  - intros [= <- <- <-]. split; [done|]. split; [done|]. split; [|done].
    intros Hin -> ->. exfalso.
    rewrite (bool_decide_eq_true_2 _ Hin) in Hc.
    rewrite !bool_decide_eq_true_2 in Hc by done. done.
Qed.

Lemma run_parse_unruled
    table dir parts i preset F test_type test_suite filename :
  decomposes parts i preset F test_type test_suite filename →
  fork_rule_applies test_type filename = false →
  ∃ type_name,
    run_parse table dir parts = (Ok (Target preset F type_name filename), [])
    ∧ (test_type = "ssz_static" → type_name = test_suite)
    ∧ (test_type = "merkle_proof" → test_suite = "single_merkle_proof" →
       filename = "object.ssz_snappy" → parts !! (i + 5)%nat = Some type_name)
    ∧ (test_type ≠ "ssz_static" →
       ¬ (test_type = "merkle_proof" ∧ test_suite = "single_merkle_proof"
          ∧ filename = "object.ssz_snappy") →
       type_name = derive_type_from_suite test_type test_suite filename).
Proof.
  intros Hd Hrule. unfold fork_rule_applies in Hrule.
  apply orb_false_elim in Hrule as [Hrule Hlc].
  apply orb_false_elim in Hrule as [Hfork Htrans].
  unfold run_parse. rewrite (parse_ssz_path_decomposed _ _ _ _ _ _ _ _ _ Hd).
  unfold fork_test_rule, transition_pre_rule, transition_blocks_rule, light_client_rule.
  rewrite Hfork, Hlc.
  assert (Hpre : (test_type == "transition") && (filename == "pre.ssz_snappy") = false
                 ∧ (test_type == "transition") && Py.startswith filename "blocks_" = false).
  { destruct (test_type == "transition"); [|done]. simpl in *.
    by apply orb_false_elim in Htrans. }
  destruct Hpre as [-> ->]. simpl.
  unfold bind at 1 2 3 4 5. simpl. unfold bind at 1.
  destruct (type_name_rule_run _ _ _ _ _ _ _
              (set_actual_fork F (Locals "" false)) [] Hd)
    as (ty & -> & Hstatic & Hobject & Hother).
  exists ty. split; [reflexivity|]. split; [done|].
  apply bool_decide_eq_false_1 in Hlc. split.
  - intros -> ? ?. apply Hobject; [|done..].
    apply elem_of_cons. right. apply elem_of_cons. by left.
  - intros Hne Hnot. apply Hother; [done|].
    intros ([->|[->|[]%elem_of_nil]%elem_of_cons]%elem_of_cons & ? & ?); [done|].
    by apply Hnot.
Qed.

(** X4: outside the cases that a fork rule looks at ([fork] with
    [pre.ssz_snappy], [transition] with [pre.ssz_snappy] or [blocks_...],
    and [light_client]), the resolution returns the directory fork and
    prints nothing, whatever the table and the sidecars hold.  The type
    name is the suite for [ssz_static], the part after the suite for the
    [object.ssz_snappy] of [merkle_proof/single_merkle_proof], and the
    derived name otherwise. *)
Theorem unruled_fixture_keeps_directory_fork
    table dir parts i preset F test_type test_suite filename :
  decomposes parts i preset F test_type test_suite filename →
  fork_rule_applies test_type filename = false →
  ∃ type_name,
    run_parse table dir parts = (Ok (Target preset F type_name filename), [])
    ∧ (test_type = "ssz_static" → type_name = test_suite)
    ∧ (test_type = "merkle_proof" → test_suite = "single_merkle_proof" →
       filename = "object.ssz_snappy" → parts !! (i + 5)%nat = Some type_name)
    ∧ (test_type ≠ "ssz_static" →
       ¬ (test_type = "merkle_proof" ∧ test_suite = "single_merkle_proof"
          ∧ filename = "object.ssz_snappy") →
       type_name = derive_type_from_suite test_type test_suite filename).
Proof. apply run_parse_unruled. Qed.

Lemma unruled_fixture_keeps_directory_fork_witness :
  ∃ type_name,
    run_parse sample_table (Directory Absent Absent)
      (operations_case "attestation.ssz_snappy")
    = (Ok (Target "minimal" "phase0" type_name "attestation.ssz_snappy"), [])
    ∧ type_name = "Attestation".
Proof.
  destruct (unruled_fixture_keeps_directory_fork sample_table (Directory Absent Absent)
              (operations_case "attestation.ssz_snappy") 1 "minimal" "phase0"
              "operations" "attestation" "attestation.ssz_snappy")
    as (type_name & Hrun & _ & _ & Hty).
  - repeat split; reflexivity.
  - reflexivity.
  - exists type_name. split; [exact Hrun|].
    rewrite Hty; [vm_compute; reflexivity | discriminate | by intros [? _]].
Defined.

(** ** Light-client fixtures without a slot number *)

Lemma light_client_slot_rule_no_slot dir fork test_suite test_case filename l log :
  existsb (Py.startswith filename) slot_prefixes = false
  ∨ first_int (Py.split "_" filename) = None →
  light_client_slot_rule dir fork test_suite test_case filename l log = (Ok tt, l, log).
Proof.
  unfold light_client_slot_rule. intros [->| ->]; [reflexivity|].
  by destruct (existsb _ _).
Qed.



(** ** A block index that is not a number *)

Lemma prefix_inv (p s : string) :
  String.prefix p s = true → ∃ rest, s = p +:+ rest.
Proof.
  revert s. induction p as [|a p IH]; intros s; [by exists s|].
  destruct s as [|b s]; simpl; [done|].
  destruct (ascii_dec a b) as [->|]; [|done].
  intros (rest & ->)%IH. by exists rest.
Qed.

Lemma split_cons_length sep s : (1 ≤ length (Py.split sep s))%nat.
Proof.
  induction s as [|c s IH]; simpl; [lia|].
  destruct (Ascii.eqb c sep); simpl; [lia|].
  destruct (Py.split sep s); simpl in *; lia.
Qed.

Lemma split_blocks filename :
  Py.startswith filename "blocks_" = true →
  ∃ rest, filename = "blocks_" +:+ rest
          ∧ Py.split "_" filename = "blocks" :: Py.split "_" rest.
Proof.
  intros (rest & ->)%prefix_inv. exists rest. split; [done|].
  change ("blocks_" +:+ rest)
    with (String "b" (String "l" (String "o" (String "c" (String "k"
            (String "s" (String "_" rest))))))).
  simpl. destruct (Py.split "_" rest) eqn:Hs; [|done].
  pose proof (split_cons_length "_" rest) as Hl. rewrite Hs in Hl. simpl in Hl. lia.
Qed.

Lemma derive_type_blocks test_suite filename :
  Py.startswith filename "blocks_" = true →
  derive_type_from_suite "transition" test_suite filename = "SignedBeaconBlock".
Proof.
  intros Hpre. unfold derive_type_from_suite, in_list.
  assert (Hno : ∀ name, Py.startswith name "blocks_" = false → (filename == name) = false).
  { intros name Hname. apply bool_decide_eq_false_2. intros ->. congruence. }
  rewrite bool_decide_eq_false_2.
  2:{ unfold state_filenames. intros Hin.
      repeat (apply elem_of_cons in Hin as [->|Hin]; [by vm_compute in Hpre|]).
      by apply elem_of_nil in Hin. }
  rewrite !Hno by reflexivity. simpl. by rewrite Hpre.
Qed.



(** ** A version without predecessor in the table *)

(** X7: for the [pre.ssz_snappy] of a [transition] test beside a
    [meta.yaml] that is a mapping, the fork is the predecessor, in the
    table, of the lower-cased [post_fork] (the directory fork when the key
    is absent); when the table has none, the directory fork stays and the
    warning of line 137 is printed. *)
Theorem transition_pre_resolution
    table dir parts i preset F test_suite meta post_fork :
  decomposes parts i preset F "transition" test_suite "pre.ssz_snappy" →
  meta_yaml dir = Present (Ok (VDict meta)) →
  post_fork_of meta F = Some post_fork →
  run_parse table dir parts
  = (Ok (Target preset (default F (table !! Py.lower post_fork))
           "BeaconState" "pre.ssz_snappy"),
     [match table !! Py.lower post_fork with
      | Some previous => EvTransitionPre previous (Py.lower post_fork)
      | None => WarnNoPreviousForkOfPost (Py.lower post_fork)
      end]).
Proof.
  intros Hd Hmeta Hpost. unfold run_parse.
  rewrite (parse_ssz_path_decomposed _ _ _ _ _ _ _ _ _ Hd).
  unfold fork_test_rule, transition_pre_rule, transition_blocks_rule,
    light_client_rule, type_name_rule.
  rewrite Hmeta. unfold post_fork_of in Hpost.
  unfold safe_load, of_outcome, dict_get, str_lower, bind, ret, print, modify.
  simpl. destruct (meta !! "post_fork") as [[]|]; simplify_eq/=;
    destruct (table !! _); reflexivity.
Qed.

Lemma transition_pre_resolution_witness :
  run_parse sample_table (Directory (Present (Ok (VDict meta_full))) Absent)
    (transition_case "pre.ssz_snappy")
  = (Ok (Target "minimal" "phase0" "BeaconState" "pre.ssz_snappy"),
     [EvTransitionPre "phase0" "altair"])
  ∧ run_parse sample_table (Directory (Present (Ok (VDict meta_phase0))) Absent)
      (transition_case "pre.ssz_snappy")
    = (Ok (Target "minimal" "altair" "BeaconState" "pre.ssz_snappy"),
       [WarnNoPreviousForkOfPost "phase0"]).
Proof.
  split.
  - apply (transition_pre_resolution sample_table
             (Directory (Present (Ok (VDict meta_full))) Absent)
             (transition_case "pre.ssz_snappy") 2 "minimal" "altair" "core"
             meta_full "altair").
    + repeat split; reflexivity.
    + reflexivity.
    + reflexivity.
  - apply (transition_pre_resolution sample_table
             (Directory (Present (Ok (VDict meta_phase0))) Absent)
             (transition_case "pre.ssz_snappy") 2 "minimal" "altair" "core"
             meta_phase0 "PHASE0").
    + repeat split; reflexivity.
    + reflexivity.
    + reflexivity.
Defined.

(** X8: when the table has no predecessor (as for every version
    when [constants.py] is missing), the [pre.ssz_snappy] of a [fork] test
    keeps the directory fork with the warning of line 121, and a
    [transition] block at or before [fork_block] keeps the directory fork,
    not [post_fork], with the warning of line 162. *)
Theorem missing_predecessor_keeps_directory_fork table dir parts i preset F test_suite :
  (decomposes parts i preset F "fork" test_suite "pre.ssz_snappy" →
   table !! F = None →
   run_parse table dir parts
   = (Ok (Target preset F "BeaconState" "pre.ssz_snappy"), [WarnNoPreviousFork F]))
  ∧ (∀ filename N meta post_fork v T,
       decomposes parts i preset F "transition" test_suite filename →
       Py.startswith filename "blocks_" = true →
       block_index filename = Some N →
       meta_yaml dir = Present (Ok (VDict meta)) →
       post_fork_of meta F = Some post_fork →
       meta !! "fork_block" = Some v → int_of_value v = Some T → N ≤ T →
       table !! Py.lower post_fork = None →
       run_parse table dir parts
       = (Ok (Target preset F "SignedBeaconBlock" filename),
          [WarnNoPreviousForkOfPostBlock (Py.lower post_fork)])).
Proof.
  split.
  - intros Hd Hnone. unfold run_parse.
    rewrite (parse_ssz_path_decomposed _ _ _ _ _ _ _ _ _ Hd).
    unfold fork_test_rule, transition_pre_rule, transition_blocks_rule,
      light_client_rule, type_name_rule.
    rewrite Hnone. reflexivity.
  - intros filename N meta post_fork v T Hd Hpre HN Hmeta Hpost Hv HT Hle Hnone.
    rewrite (transition_blocks_run_parse _ _ _ _ _ _ _ _ _ Hd Hpre HN).
    rewrite (derive_type_blocks _ _ Hpre).
    unfold try_except, transition_blocks_body. rewrite Hmeta.
    unfold post_fork_of in Hpost.
    unfold safe_load, of_outcome, dict_get, str_lower, int_le, bind, ret, print,
      modify. simpl. rewrite Hv. simpl.
    destruct (meta !! "post_fork") as [[]|]; simplify_eq/=;
      destruct v; simplify_eq/=;
      rewrite (proj2 (Z.leb_le _ _)) by lia; rewrite Hnone; reflexivity.
Qed.

Lemma missing_predecessor_keeps_directory_fork_witness :
  run_parse sample_table (Directory Absent Absent) (fork_case "phase0" "pre.ssz_snappy")
  = (Ok (Target "minimal" "phase0" "BeaconState" "pre.ssz_snappy"),
     [WarnNoPreviousFork "phase0"])
  ∧ run_parse sample_table (Directory (Present (Ok (VDict meta_phase0))) Absent)
      (transition_case "blocks_1.ssz_snappy")
    = (Ok (Target "minimal" "altair" "SignedBeaconBlock" "blocks_1.ssz_snappy"),
       [WarnNoPreviousForkOfPostBlock "phase0"]).
Proof.
  split.
  - apply (missing_predecessor_keeps_directory_fork sample_table
             (Directory Absent Absent) (fork_case "phase0" "pre.ssz_snappy")
             2 "minimal" "phase0" "fork").
    + repeat split; reflexivity.
    + reflexivity.
  - apply (proj2 (missing_predecessor_keeps_directory_fork sample_table
             (Directory (Present (Ok (VDict meta_phase0))) Absent)
             (transition_case "blocks_1.ssz_snappy") 2 "minimal" "altair" "core")
             "blocks_1.ssz_snappy" 1 meta_phase0 "PHASE0" (VInt 2) 2).
    + repeat split; reflexivity.
    + reflexivity.
    + reflexivity.
    + reflexivity.
    + reflexivity.
    + reflexivity.
    + reflexivity.
    + lia.
    + reflexivity.
Defined.

(** ** The exceptions of [parse_ssz_path] *)

Lemma raises_only_weaken {L A} (allowed allowed' : exn → bool) (m : M L A) :
  (∀ e, allowed e = true → allowed' e = true) →
  raises_only allowed m → raises_only allowed' m.
Proof.
  intros Hsub Hm l log. specialize (Hm l log).
  destruct (m l log) as [[[a|e] l1] log1]; [done | by apply Hsub].
Qed.

Section ParseExceptions.
Variable table : gmap string string.
Variable dir : directory.

Local Abbreviation allowed := (rules_may_raise dir).

Lemma allowed_class e :
  exn_cls e ∈ [AttributeError; TypeError] → allowed e = true.
Proof.
  intros H. unfold rules_may_raise. by rewrite (bool_decide_eq_true_2 _ H).
Qed.

Lemma raises_only_load_meta {L} load :
  meta_yaml dir = Present load → raises_only (L:=L) allowed (safe_load load).
Proof.
  intros H. destruct load as [v|e]; [apply raises_only_ret|].
  apply raises_only_raise. unfold rules_may_raise. rewrite H. simpl.
  rewrite (bool_decide_eq_true_2 (e = e)) by done. apply orb_true_iff. left.
  apply orb_true_r.
Qed.

Lemma raises_only_load_config {L} load :
  config_yaml dir = Present load → raises_only (L:=L) allowed (safe_load load).
Proof.
  intros H. destruct load as [v|e]; [apply raises_only_ret|].
  apply raises_only_raise. unfold rules_may_raise. rewrite H. simpl.
  rewrite (bool_decide_eq_true_2 (e = e)) by done. apply orb_true_r.
Qed.

Lemma raises_only_dict_get {L} d key dflt :
  raises_only (L:=L) allowed (dict_get d key dflt).
Proof.
  destruct d; try (apply raises_only_raise, allowed_class; compute_done).
  apply raises_only_ret.
Qed.

Lemma raises_only_str_lower {L} v : raises_only (L:=L) allowed (str_lower v).
Proof.
  destruct v; try (apply raises_only_raise, allowed_class; compute_done).
  apply raises_only_ret.
Qed.

Lemma raises_only_int_le {L} n v : raises_only (L:=L) allowed (int_le n v).
Proof.
  unfold int_le.
  destruct v; simpl;
    first [apply raises_only_ret | apply raises_only_raise, allowed_class; compute_done].
Qed.

Lemma raises_only_int_ge {L} n v : raises_only (L:=L) allowed (int_ge n v).
Proof.
  unfold int_ge.
  destruct v; simpl;
    first [apply raises_only_ret | apply raises_only_raise, allowed_class; compute_done].
Qed.

Lemma raises_only_select_fork {L} config epoch forks selected :
  raises_only (L:=L) allowed (select_fork config epoch forks selected).
Proof.
  revert selected. induction forks as [|v forks IH]; intros selected; simpl.
  - apply raises_only_ret.
  - destruct (config !! _) as [x|]; [|apply IH].
    apply raises_only_bind; [apply raises_only_int_ge|].
    intros [|]; [apply IH | apply raises_only_ret].
Qed.

Lemma raises_only_transition_pre_rule parts fork test_type filename :
  raises_only allowed (transition_pre_rule table dir parts fork test_type filename).
Proof.
  unfold transition_pre_rule. apply raises_only_when.
  destruct (meta_yaml dir) as [|load] eqn:Hmeta; [apply raises_only_print|].
  apply raises_only_bind; [by apply raises_only_load_meta|]. intros meta.
  apply raises_only_bind; [apply raises_only_dict_get|]. intros v.
  apply raises_only_bind; [apply raises_only_str_lower|]. intros post_fork.
  destruct (table !! post_fork); [|apply raises_only_print].
  apply raises_only_bind; [apply raises_only_modify|]. intros _.
  apply raises_only_print.
Qed.

Lemma raises_only_transition_blocks_body parts fork N :
  raises_only allowed (transition_blocks_body table dir parts fork N).
Proof.
  unfold transition_blocks_body.
  destruct (meta_yaml dir) as [|load] eqn:Hmeta; [apply raises_only_print|].
  apply raises_only_bind; [by apply raises_only_load_meta|]. intros meta.
  apply raises_only_bind; [apply raises_only_dict_get|]. intros v.
  apply raises_only_bind; [apply raises_only_str_lower|]. intros post_fork.
  apply raises_only_bind; [apply raises_only_dict_get|]. intros fork_block.
  assert (Hrest : raises_only allowed
            (let* at_or_before := int_le N fork_block in
             if at_or_before : bool then
               match table !! post_fork with
               | Some previous =>
                   modify (set_actual_fork previous) ;;
                   print (EvBlockPreFork N fork_block previous)
               | None => print (WarnNoPreviousForkOfPostBlock post_fork)
               end
             else
               modify (set_actual_fork post_fork) ;;
               print (EvBlockPostFork N fork_block post_fork))%M).
  { apply raises_only_bind; [apply raises_only_int_le|]. intros [|].
    - destruct (table !! post_fork); [|apply raises_only_print].
      apply raises_only_bind; [apply raises_only_modify|]. intros _.
      apply raises_only_print.
    - apply raises_only_bind; [apply raises_only_modify|]. intros _.
      apply raises_only_print. }
  destruct fork_block; try exact Hrest. apply raises_only_print.
Qed.

Lemma raises_only_transition_blocks_rule parts fork test_type filename :
  raises_only allowed (transition_blocks_rule table dir parts fork test_type filename).
Proof.
  unfold transition_blocks_rule. apply raises_only_when, raises_only_try.
  - apply raises_only_bind; [by apply raises_only_or_raise|]. intros second.
    apply raises_only_bind; [by apply raises_only_or_raise|]. intros first.
    apply raises_only_bind; [by apply raises_only_or_raise|]. intros N.
    eapply raises_only_weaken; [|apply raises_only_transition_blocks_body].
    intros e ->. apply orb_true_r.
  - intros e. apply raises_only_print.
Qed.

Lemma raises_only_light_client_slot_body fork test_suite test_case slot :
  raises_only allowed (light_client_slot_body dir fork test_suite test_case slot).
Proof.
  unfold light_client_slot_body.
  destruct (config_yaml dir) as [|load] eqn:Hconfig; [apply raises_only_ret|].
  apply raises_only_bind; [by apply raises_only_load_config|]. intros config.
  apply raises_only_bind; [apply raises_only_dict_get|]. intros v.
  apply raises_only_bind; [apply raises_only_str_lower|]. intros preset_base.
  apply raises_only_bind.
  { destruct config; try apply raises_only_ret. apply raises_only_select_fork. }
  intros selected. apply raises_only_when.
  apply raises_only_bind; [apply raises_only_modify|]. intros _.
  apply raises_only_print.
Qed.

Lemma raises_only_light_client_rule parts i fork test_type test_suite filename :
  raises_only allowed (light_client_rule dir parts i fork test_type test_suite filename).
Proof.
  unfold light_client_rule. apply raises_only_when.
  apply raises_only_bind; [apply raises_only_modify|]. intros _.
  apply raises_only_bind.
  - unfold light_client_slot_rule. apply raises_only_when, raises_only_try.
    + destruct (first_int _); [|apply raises_only_ret].
      apply raises_only_bind; [apply raises_only_modify|]. intros _.
      eapply raises_only_weaken; [|apply raises_only_light_client_slot_body].
      intros e ->. apply orb_true_r.
    + intros e. apply raises_only_print.
  - intros _. apply raises_only_bind; [apply raises_only_get|]. intros l.
    do 2 apply raises_only_when.
    apply raises_only_bind; [apply raises_only_modify|]. intros _.
    apply raises_only_print.
Qed.

Lemma raises_only_rules parts i preset fork test_type test_suite filename :
  decomposes parts i preset fork test_type test_suite filename →
  raises_only allowed (parse_ssz_path table dir parts).
Proof.
  intros Hd. rewrite (parse_ssz_path_decomposed _ _ _ _ _ _ _ _ _ Hd).
  apply raises_only_bind; [apply raises_only_modify|]. intros _.
  apply raises_only_bind.
  { eapply raises_only_weaken; [|apply fork_test_rule_returns]. done. }
  intros _.
  apply raises_only_bind; [apply raises_only_transition_pre_rule|]. intros _.
  apply raises_only_bind; [apply raises_only_transition_blocks_rule|]. intros _.
  apply raises_only_bind; [apply raises_only_light_client_rule|]. intros _.
  apply raises_only_bind.
  { eapply raises_only_weaken; [|by eapply type_name_rule_returns]. done. }
  intros ty. apply raises_only_bind; [apply raises_only_get|]. intros l.
  apply raises_only_ret.
Qed.

End ParseExceptions.

Lemma index_Some x (l : list string) n :
  Py.index x l = Some n →
  ∃ pre rest, l = pre ++ (x :: rest) ∧ (x ∉ pre) ∧ n = length pre.
Proof.
  revert n. induction l as [|y l IH]; simpl; intros n; [done|].
  destruct (decide (y = x)) as [->|Hne].
  - intros [= <-]. exists [], l. split; [done|]. split; [apply not_elem_of_nil | done].
  - intros (m & Hm & ->)%fmap_Some. destruct (IH m Hm) as (pre & rest & -> & Hnot & ->).
    exists (y :: pre), rest. split; [done|]. split; [|done].
    apply not_elem_of_cons. done.
Qed.

(** X9: an exception that leaves [parse_ssz_path] is the [ValueError]
    of a path without ['tests'] or with fewer than four parts after it,
    raised before anything is read or printed; or an [AttributeError] or
    [TypeError] (a sidecar of an unexpected shape); or what the loader of
    a sidecar raised.  No [IndexError] leaves it, and the [ValueError] of
    line 283 is never raised. *)
Theorem parse_ssz_path_exceptions table dir parts e log :
  run_parse table dir parts = (Raise e, log) →
  (exn_cls e = ValueError ∧ log = []
   ∧ ("tests" ∉ parts
      ∨ ∃ pre rest, parts = pre ++ ("tests" :: rest) ∧ ("tests" ∉ pre)
                    ∧ (length rest < 4)%nat))
  ∨ exn_cls e ∈ [AttributeError; TypeError]
  ∨ meta_yaml dir = Present (Raise e)
  ∨ config_yaml dir = Present (Raise e).
Proof.
  destruct (Py.index "tests" parts) as [i|] eqn:Hi.
  - apply index_Some in Hi as (pre & rest & -> & Hnot & ->).
    destruct (decide (length rest < 4)%nat) as [Hlen|Hlen].
    { rewrite run_parse_too_short by done. intros [= <- <-].
      left. split; [done|]. split; [done|]. right. by exists pre, rest. }
    destruct rest as [|preset [|fork [|test_type [|test_suite rest]]]];
      try (simpl in Hlen; lia).
    pose proof (decomposes_first_tests pre rest preset fork test_type test_suite Hnot)
      as Hd.
    unfold run_parse.
    pose proof (raises_only_rules table dir _ _ _ _ _ _ _ Hd (Locals "" false) []) as H.
    destruct (parse_ssz_path _ _ _ _ _) as [[[t|e'] l'] log']; [done|].
    intros [= -> ->]. right. unfold rules_may_raise, load_error in H.
    apply orb_true_iff in H as [H|H]; [apply orb_true_iff in H as [H|H]|].
    + left. by apply bool_decide_eq_true_1 in H.
    + right. left. destruct (meta_yaml dir) as [|[|e'']]; try done.
      apply bool_decide_eq_true_1 in H. by subst.
    + right. right. destruct (config_yaml dir) as [|[|e'']]; try done.
      apply bool_decide_eq_true_1 in H. by subst.
  - apply index_None in Hi. rewrite run_parse_without_tests by done.
    intros [= <- <-]. left. split; [done|]. split; [done|]. by left.
Qed.

Lemma parse_ssz_path_exceptions_witness :
  run_parse sample_table (Directory (Present (Ok (VDict meta_text_fork_block))) Absent)
    (transition_case "blocks_1.ssz_snappy")
  = (Raise (Exn TypeError
              "'<=' not supported between instances of 'int' and 'str'"), [])
  ∧ TypeError ∈ [AttributeError; TypeError].
Proof.
  split; [vm_compute; reflexivity|].
  destruct (parse_ssz_path_exceptions sample_table
              (Directory (Present (Ok (VDict meta_text_fork_block))) Absent)
              (transition_case "blocks_1.ssz_snappy")
              (Exn TypeError "'<=' not supported between instances of 'int' and 'str'")
              [])
    as [(Hcls & _)|[Hcls|[Hload|Hload]]];
    [vm_compute; reflexivity | discriminate | exact Hcls | discriminate..].
Defined.

(** ** The type name derived from category, suite and filename *)

(** X12: for [block.ssz_snappy] the derived type is [BeaconBlock] in
    the suites [block_header] and [execution_payload_bid] of the
    [operations] category, and [SignedBeaconBlock] in every other category
    and suite. *)
Theorem block_file_is_unsigned_for_two_operations test_type test_suite :
  derive_type_from_suite test_type test_suite "block.ssz_snappy"
  = if (test_type == "operations")
       && in_list test_suite ["block_header"; "execution_payload_bid"]
    then "BeaconBlock" else "SignedBeaconBlock".
Proof.
  unfold derive_type_from_suite, block_if, return_if, in_list. simpl.
  repeat (case_bool_decide; simpl); try done.
Qed.

(** A derived name has no underscore: it is one of the names written in
    the function, or the suite with its words capitalized and joined. *)

Lemma first_return_all (P : string → Prop) (body : list stmt) :
  Forall (λ s : stmt, ∀ r, s = Some r → P r) body →
  ∀ r, first_return body = Some r → P r.
Proof.
  induction 1 as [|[x|] body Hs _ IH]; simpl; intros r; [done| |apply IH].
  intros [= <-]. by apply Hs.
Qed.

Lemma return_if_all (P : string → Prop) c name :
  P name → ∀ r, return_if c name = Some r → P r.
Proof. intros H r. destruct c; simpl; [by intros [= <-] | done]. Qed.

Lemma block_if_all (P : string → Prop) c (body : list stmt) :
  Forall (λ s : stmt, ∀ r, s = Some r → P r) body →
  ∀ r, block_if c body = Some r → P r.
Proof. intros H r. destruct c; simpl; [by apply first_return_all | done]. Qed.

Lemma no_underscore_cons c s :
  no_underscore (String c s) ↔ c ≠ "_"%char ∧ no_underscore s.
Proof.
  unfold no_underscore. rewrite contains_unfold.
  change (String.prefix "_" (String c s))
    with (if ascii_dec "_" c then String.prefix "" s else false).
  destruct (ascii_dec "_" c) as [<-|Hne].
  - replace (String.prefix "" s) with true by (by destruct s).
    split; [done | by intros [[] _]].
  - simpl. split; [intros ->; split; [congruence | done] | by intros [_ ->]].
Qed.

Lemma no_underscore_app a b : no_underscore a → no_underscore b → no_underscore (a +:+ b).
Proof.
  intros Ha Hb. induction a as [|c a IH]; [done|].
  change (String c a +:+ b) with (String c (a +:+ b)).
  apply no_underscore_cons in Ha as [Hc Ha]. apply no_underscore_cons. auto.
Qed.

Lemma no_underscore_split s : Forall no_underscore (Py.split "_" s).
Proof.
  induction s as [|c s IH]; simpl; [by repeat constructor|].
  destruct (Ascii.eqb_spec c "_") as [->|Hne].
  - by constructor.
  - destruct (Py.split "_" s) as [|h t]; [by repeat constructor; apply no_underscore_cons|].
    inversion IH; subst. constructor; [|done]. by apply no_underscore_cons.
Qed.

Lemma no_underscore_map_chars f s :
  (∀ c, c ≠ "_"%char → f c ≠ "_"%char) →
  no_underscore s → no_underscore (Py.map_chars f s).
Proof.
  intros Hf. induction s as [|c s IH]; simpl; [done|].
  intros [Hc Hs]%no_underscore_cons. apply no_underscore_cons. auto.
Qed.

Lemma upper_char_underscore c : c ≠ "_"%char → Py.upper_char c ≠ "_"%char.
Proof.
  intros Hne. destruct c as [[] [] [] [] [] [] [] []]; vm_compute; congruence.
Qed.

Lemma lower_char_underscore c : c ≠ "_"%char → Py.lower_char c ≠ "_"%char.
Proof.
  intros Hne. destruct c as [[] [] [] [] [] [] [] []]; vm_compute; congruence.
Qed.

Lemma no_underscore_capitalize s : no_underscore s → no_underscore (Py.capitalize s).
Proof.
  destruct s as [|c s]; simpl; [done|].
  intros [Hc Hs]%no_underscore_cons. apply no_underscore_cons. split.
  - by apply upper_char_underscore.
  - by apply no_underscore_map_chars; [apply lower_char_underscore|].
Qed.

Lemma no_underscore_join (l : list string) :
  Forall no_underscore l → no_underscore (Py.join "" l).
Proof.
  induction 1 as [|x l Hx Hl IH]; [done|].
  destruct l as [|y l]; [done|].
  change (no_underscore (x +:+ "" +:+ Py.join "" (y :: l))).
  by repeat apply no_underscore_app.
Qed.

(** X13: the name that [derive_type_from_suite] returns never
    contains an underscore: it is one of the names written in the function,
    or the suite with its underscore-separated words capitalized and
    joined. *)
Theorem derived_type_name_has_no_underscore test_type test_suite filename :
  Py.contains "_" (derive_type_from_suite test_type test_suite filename) = false.
Proof.
  change (no_underscore (derive_type_from_suite test_type test_suite filename)).
  unfold derive_type_from_suite.
  destruct (first_return _) as [r|] eqn:Hr; simpl.
  - revert r Hr. apply first_return_all.
    repeat first
      [ apply Forall_nil_2
      | apply Forall_cons_2
      | apply return_if_all; reflexivity
      | apply block_if_all ].
    intros r Hr. apply elem_of_list_to_map_2 in Hr.
    repeat (apply elem_of_cons in Hr as [[= -> ->]|Hr]; [reflexivity|]).
    by apply elem_of_nil in Hr.
  - apply no_underscore_join. apply Forall_fmap.
    eapply Forall_impl; [apply no_underscore_split|].
    intros s. apply no_underscore_capitalize.
Qed.

(** ** The dispatcher besides the retry *)

Lemma first_success_elem {obj} (attempt : string → outcome obj) alts alt o :
  first_success attempt alts = Some (alt, o) → alt ∈ alts ∧ attempt alt = Ok o.
Proof.
  induction alts as [|a alts IH]; simpl; [done|].
  destruct (attempt a) as [o'|e] eqn:Ha.
  - intros [= -> ->]. split; [by left | done].
  - intros [Hin Hok]%IH. split; [by right | done].
Qed.

Section DispatcherRuns.
Context {ssz_type obj : Type}.
Variable Deltas : ssz_type.
Variable import_module : string → outcome (string → option ssz_type).
Variable get_ssz_object_from_ssz_encoded : path → ssz_type → outcome obj.
Variable output_ssz_to_file : path → obj → outcome unit.
Variable PREVIOUS_FORK_OF : gmap string string.
Variable dir : directory.

Local Abbreviation run :=
  (run_deserialize Deltas import_module get_ssz_object_from_ssz_encoded
     output_ssz_to_file PREVIOUS_FORK_OF dir).

(** The three ways of not reaching the retry. *)
Lemma deserialize_parse_failure input_path output_path e plog :
  run_parse PREVIOUS_FORK_OF dir input_path = (Raise e, plog) →
  run input_path output_path = (Raise e, "", plog).
Proof.
  unfold run_parse. intros Hparse.
  destruct (parse_ssz_path _ _ _ _ _) as [[r l'] plog'] eqn:Hp.
  injection Hparse as -> ->.
  unfold run_deserialize, deserialize_ssz_file.
  unfold bind at 1. unfold call. by rewrite Hp.
Qed.

Lemma deserialize_type_failure input_path output_path t plog e :
  run_parse PREVIOUS_FORK_OF dir input_path = (Ok t, plog) →
  type_class Deltas import_module (t_preset t) (t_fork t) (t_type_name t) = Raise e →
  run input_path output_path
  = (Raise e, t_fork t,
     plog ++ [EvDetected (t_preset t) (t_fork t) (t_type_name t) (t_filename t)]).
Proof.
  unfold run_parse. intros Hparse Hclass.
  destruct (parse_ssz_path _ _ _ _ _) as [[r l'] plog'] eqn:Hp.
  injection Hparse as -> ->.
  unfold run_deserialize, deserialize_ssz_file.
  unfold bind at 1. unfold call. rewrite Hp.
  unfold bind at 1 2 3. unfold modify at 1. unfold print at 1.
  by rewrite get_ssz_type_class_run, Hclass.
Qed.

Lemma deserialize_first_success input_path output_path t plog class o :
  run_parse PREVIOUS_FORK_OF dir input_path = (Ok t, plog) →
  type_class Deltas import_module (t_preset t) (t_fork t) (t_type_name t) = Ok class →
  get_ssz_object_from_ssz_encoded input_path class = Ok o →
  run input_path output_path
  = (match output_path with
     | Some p =>
         match output_ssz_to_file p o with
         | Ok _ => Ok o
         | Raise e' => Raise e'
         end
     | None => Ok o
     end,
     t_fork t,
     plog ++ [EvDetected (t_preset t) (t_fork t) (t_type_name t) (t_filename t);
              EvLoadedType; EvDeserializing (path_str input_path); EvSuccess]
     ++ match output_path with
        | Some p =>
            match output_ssz_to_file p o with
            | Ok _ => [EvExported (path_str p)]
            | Raise _ => []
            end
        | None => [EvPrintObject]
        end).
Proof.
  unfold run_parse. intros Hparse Hclass Hdecode.
  destruct (parse_ssz_path _ _ _ _ _) as [[r l'] plog'] eqn:Hp.
  injection Hparse as -> ->.
  unfold run_deserialize, deserialize_ssz_file.
  unfold bind at 1. unfold call. rewrite Hp.
  unfold bind at 1 2 3. unfold modify at 1. unfold print at 1.
  rewrite get_ssz_type_class_run, Hclass.
  unfold bind, print, try_except, of_outcome, ret, raise.
  rewrite Hdecode.
  destruct output_path as [p|]; [destruct (output_ssz_to_file p o) as [[]|e']|];
    rewrite <- ?app_assoc; simpl; rewrite ?app_nil_r; reflexivity.
Qed.

(** X14: when decoding under the resolved fork succeeds, no other fork
    is tried, also on a light-client sync path: [fork] stays the resolved
    one, and the object is returned, unless writing it to the output path
    raises. *)
Theorem successful_decode_is_not_retried input_path output_path t plog class o :
  run_parse PREVIOUS_FORK_OF dir input_path = (Ok t, plog) →
  type_class Deltas import_module (t_preset t) (t_fork t) (t_type_name t) = Ok class →
  get_ssz_object_from_ssz_encoded input_path class = Ok o →
  ∃ log,
    run input_path output_path
    = (match output_path with
       | Some p =>
           match output_ssz_to_file p o with
           | Ok _ => Ok o
           | Raise e' => Raise e'
           end
       | None => Ok o
       end,
       t_fork t, plog ++ log)
    ∧ tried log = [].
Proof.
  intros Hparse Hclass Hdecode.
  rewrite (deserialize_first_success _ _ _ _ _ _ Hparse Hclass Hdecode).
  eexists. split; [reflexivity|].
  rewrite tried_app. simpl.
  destruct output_path as [p|]; [destruct (output_ssz_to_file p o)|]; reflexivity.
Qed.

(** X15: when [get_ssz_type_class] fails for the resolved fork (a
    module that cannot be imported, a type that the module lacks), the
    failure leaves [deserialize_ssz_file] at once: line 498 is outside the
    [try], so no candidate fork is tried, also on a light-client sync
    path, and nothing is decoded. *)
Theorem unavailable_type_is_not_retried input_path output_path t plog e :
  run_parse PREVIOUS_FORK_OF dir input_path = (Ok t, plog) →
  type_class Deltas import_module (t_preset t) (t_fork t) (t_type_name t) = Raise e →
  ∃ log,
    run input_path output_path = (Raise e, t_fork t, plog ++ log)
    ∧ tried log = []
    ∧ EvLoadedType ∉ log.
Proof.
  intros Hparse Hclass.
  rewrite (deserialize_type_failure _ _ _ _ _ Hparse Hclass).
  eexists. split; [reflexivity|]. split; [reflexivity|].
  intros [?|[]%elem_of_nil]%elem_of_cons. discriminate.
Qed.

Lemma deserialize_returned input_path output_path o fork log :
  run input_path output_path = (Ok o, fork, log) →
  ∃ t plog,
    run_parse PREVIOUS_FORK_OF dir input_path = (Ok t, plog)
    ∧ decode_with Deltas import_module get_ssz_object_from_ssz_encoded input_path
        (t_preset t) (t_type_name t) fork = Ok o
    ∧ (fork = t_fork t ∨ fork ∈ alternative_forks input_path (t_fork t))
    ∧ (∀ p, output_path = Some p → output_ssz_to_file p o = Ok tt).
Proof.
  intros Hrun.
  destruct (run_parse PREVIOUS_FORK_OF dir input_path) as [[t|e] plog] eqn:Hparse.
  2:{ by rewrite (deserialize_parse_failure _ _ _ _ Hparse) in Hrun. }
  exists t, plog. split; [done|].
  destruct (type_class Deltas import_module (t_preset t) (t_fork t) (t_type_name t))
    as [class|e] eqn:Hclass.
  2:{ by rewrite (deserialize_type_failure _ _ _ _ _ Hparse Hclass) in Hrun. }
  destruct (get_ssz_object_from_ssz_encoded input_path class) as [o'|e] eqn:Hdecode.
  - rewrite (deserialize_first_success _ _ _ _ _ _ Hparse Hclass Hdecode) in Hrun.
    assert (o' = o ∧ fork = t_fork t
            ∧ ∀ p, output_path = Some p → output_ssz_to_file p o = Ok tt)
      as (-> & -> & Hout).
    { destruct output_path as [p|].
      - destruct (output_ssz_to_file p o') as [[]|e'] eqn:Hw; [|done].
        injection Hrun as -> <- _. repeat split; try done. by intros ? [= <-].
      - injection Hrun as -> <- _. done. }
    split; [|by split; [left|]].
    unfold decode_with. by rewrite Hclass.
  - destruct (deserialize_after_failure Deltas import_module
                get_ssz_object_from_ssz_encoded output_ssz_to_file PREVIOUS_FORK_OF dir
                input_path output_path t plog class e Hparse Hclass Hdecode)
      as (log' & Hrun' & _).
    rewrite Hrun in Hrun'.
    destruct (first_success _ _) as [[alt o']|] eqn:Hfirst; [|done].
    apply first_success_elem in Hfirst as [Hin Hok].
    assert (o' = o ∧ fork = alt
            ∧ ∀ p, output_path = Some p → output_ssz_to_file p o = Ok tt)
      as (-> & -> & Hout).
    { destruct output_path as [p|].
      - destruct (output_ssz_to_file p o') as [[]|e'] eqn:Hw; [|done].
        injection Hrun' as -> -> _. repeat split; try done. by intros ? [= <-].
      - injection Hrun' as -> -> _. done. }
    split; [done|]. by split; [right|].
Qed.

(** X16: an object that is returned was decoded from the input file
    with the class that the final value of [fork] gives for the resolved
    preset and type name, and was written when an output path was given.
    That fork is the resolved one or, on a light-client sync path only,
    another name of the fixed list that occurs in the lower-cased path. *)
Theorem returned_object_was_decoded input_path output_path o fork log :
  run input_path output_path = (Ok o, fork, log) →
  ∃ t plog,
    run_parse PREVIOUS_FORK_OF dir input_path = (Ok t, plog)
    ∧ decode_with Deltas import_module get_ssz_object_from_ssz_encoded input_path
        (t_preset t) (t_type_name t) fork = Ok o
    ∧ (fork = t_fork t
       ∨ (fork ∈ fallback_forks ∧ fork ≠ t_fork t
          ∧ is_light_client_sync input_path = true
          ∧ Py.contains fork (Py.lower (path_str input_path)) = true))
    ∧ (∀ p, output_path = Some p → output_ssz_to_file p o = Ok tt).
Proof.
  intros (t & plog & Hparse & Hdecode & Hfork & Hout)%deserialize_returned.
  exists t, plog. repeat split; try done.
  destruct Hfork as [->|Hin]; [by left|]. right.
  unfold alternative_forks in Hin.
  destruct (is_light_client_sync input_path); [|by apply elem_of_nil in Hin].
  apply list_elem_of_filter in Hin as [[Hocc Hne] Hin]. done.
Qed.

End DispatcherRuns.

Lemma successful_decode_is_not_retried_witness :
  ∃ log,
    run_sample ["altair"]
      (sync_case "altair" "altair_bellatrix_fork" "bootstrap.ssz_snappy")
    = (Ok "decoded as eth2spec.altair.minimal:LightClientBootstrap", "altair", [] ++ log)
    ∧ tried log = [].
Proof.
  apply (successful_decode_is_not_retried "Deltas" sample_import
           (sample_decode ["altair"]) sample_output sample_table
           (Directory Absent Absent)
           (sync_case "altair" "altair_bellatrix_fork" "bootstrap.ssz_snappy") None
           (Target "minimal" "altair" "LightClientBootstrap" "bootstrap.ssz_snappy")
           [] "eth2spec.altair.minimal:LightClientBootstrap").
  - vm_compute. reflexivity.
  - vm_compute. reflexivity.
  - vm_compute. reflexivity.
Defined.

Lemma unavailable_type_is_not_retried_witness :
  ∃ log,
    run_deserialize "Deltas" failing_import (sample_decode ["bellatrix"]) sample_output
      sample_table (Directory Absent Absent)
      (sync_case "altair" "altair_bellatrix_fork" "bootstrap.ssz_snappy") None
    = (Raise (Exn ImportError
                "Failed to import module eth2spec.altair.minimal: No module named 'eth2spec.altair.minimal'"),
       "altair", [] ++ log)
    ∧ tried log = []
    ∧ EvLoadedType ∉ log.
Proof.
  apply (unavailable_type_is_not_retried "Deltas" failing_import
           (sample_decode ["bellatrix"]) sample_output sample_table
           (Directory Absent Absent)
           (sync_case "altair" "altair_bellatrix_fork" "bootstrap.ssz_snappy") None
           (Target "minimal" "altair" "LightClientBootstrap" "bootstrap.ssz_snappy") []).
  - vm_compute. reflexivity.
  - vm_compute. reflexivity.
Defined.

Lemma returned_object_was_decoded_witness :
  ∃ t plog,
    run_parse sample_table (Directory Absent Absent)
      (sync_case "altair" "altair_bellatrix_fork" "bootstrap.ssz_snappy") = (Ok t, plog)
    ∧ decode_with "Deltas" sample_import (sample_decode ["bellatrix"])
        (sync_case "altair" "altair_bellatrix_fork" "bootstrap.ssz_snappy")
        (t_preset t) (t_type_name t) "bellatrix"
      = Ok "decoded as eth2spec.bellatrix.minimal:LightClientBootstrap"
    ∧ ("bellatrix" = t_fork t
       ∨ ("bellatrix" ∈ fallback_forks ∧ "bellatrix" ≠ t_fork t
          ∧ is_light_client_sync
              (sync_case "altair" "altair_bellatrix_fork" "bootstrap.ssz_snappy") = true
          ∧ Py.contains "bellatrix"
              (Py.lower (path_str
                 (sync_case "altair" "altair_bellatrix_fork" "bootstrap.ssz_snappy")))
            = true))
    ∧ (∀ p, None = Some p →
            sample_output p "decoded as eth2spec.bellatrix.minimal:LightClientBootstrap"
            = Ok tt).
Proof.
  apply (returned_object_was_decoded "Deltas" sample_import
           (sample_decode ["bellatrix"]) sample_output sample_table
           (Directory Absent Absent)
           (sync_case "altair" "altair_bellatrix_fork" "bootstrap.ssz_snappy") None
           "decoded as eth2spec.bellatrix.minimal:LightClientBootstrap" "bellatrix"
           (run_sample ["bellatrix"]
              (sync_case "altair" "altair_bellatrix_fork" "bootstrap.ssz_snappy")).2).
  vm_compute. reflexivity.
Defined.

(** ** The exit status of [main] *)

Section MainProperties.
Context {ssz_type obj : Type}.
Variable Deltas : ssz_type.
Variable import_module : string → outcome (string → option ssz_type).
Variable get_ssz_object_from_ssz_encoded : path → ssz_type → outcome obj.
Variable output_ssz_to_file : path → obj → outcome unit.
Variable PREVIOUS_FORK_OF : gmap string string.
Variable dir : directory.
Variable path_exists : path → bool.

Local Abbreviation main' :=
  (main Deltas import_module get_ssz_object_from_ssz_encoded output_ssz_to_file
     PREVIOUS_FORK_OF dir path_exists).

Lemma main_run argv s :
  argv !! 1%nat = Some s → path_exists (Path s) = true →
  main' argv
  = match run_deserialize Deltas import_module get_ssz_object_from_ssz_encoded
            output_ssz_to_file PREVIOUS_FORK_OF dir (Path s) (Path <$> argv !! 2%nat) with
    | (Ok _, _, log) => (0, Stdout <$> log)
    | (Raise e, _, log) =>
        if expected_error e then (2, (Stdout <$> log) ++ [ErrSkipping e])
        else (1, (Stdout <$> log) ++ [ErrUnexpected e])
    end.
Proof.
  intros Hs Hexists. unfold main.
  rewrite bool_decide_eq_false_2 by (apply lookup_lt_Some in Hs; lia).
  rewrite Hs. simpl. by rewrite Hexists.
Qed.

(** X18: exit status 0 of [main] means that the input file exists,
    its path was resolved, an object was decoded from it with the class of
    some fork for the resolved preset and type name, and, when an output
    path was given, written to it. *)
Theorem main_exit_zero_means_decoded argv out :
  main' argv = (0, out) →
  ∃ s t plog fork o,
    argv !! 1%nat = Some s
    ∧ path_exists (Path s) = true
    ∧ run_parse PREVIOUS_FORK_OF dir (Path s) = (Ok t, plog)
    ∧ decode_with Deltas import_module get_ssz_object_from_ssz_encoded (Path s)
        (t_preset t) (t_type_name t) fork = Ok o
    ∧ (∀ p, argv !! 2%nat = Some p → output_ssz_to_file (Path p) o = Ok tt).
Proof.
  unfold main. case_bool_decide as Hlen; [done|].
  destruct (argv !! 1%nat) as [s|] eqn:Hs.
  2:{ apply lookup_ge_None in Hs. lia. }
  simpl. destruct (path_exists (Path s)) eqn:Hexists; [simpl|done].
  destruct (run_deserialize _ _ _ _ _ _ _ _) as [[[o|e] fork] log] eqn:Hrun.
  2:{ by destruct (expected_error e). }
  intros _.
  apply deserialize_returned in Hrun as (t & plog & Hparse & Hdecode & _ & Hout).
  exists s, t, plog, fork, o. repeat split; try done.
  intros p Hp. apply Hout. by rewrite Hp.
Qed.

(** X19: when the path resolution fails nothing is decoded, and the
    exit status of [main] is 2 (skip this file) for a [ValueError],
    [AttributeError] or [ImportError], and 1 for any other exception, such
    as the [TypeError] of a [fork_block] that is not a number. *)
Theorem main_status_of_failed_resolution argv s e plog :
  argv !! 1%nat = Some s → path_exists (Path s) = true →
  run_parse PREVIOUS_FORK_OF dir (Path s) = (Raise e, plog) →
  main' argv
  = if bool_decide (exn_cls e ∈ [ValueError; AttributeError; ImportError])
    then (2, (Stdout <$> plog) ++ [ErrSkipping e])
    else (1, (Stdout <$> plog) ++ [ErrUnexpected e]).
Proof.
  intros Hs Hexists Hparse. rewrite (main_run _ _ Hs Hexists).
  by rewrite (deserialize_parse_failure _ _ _ _ _ _ _ _ _ _ Hparse).
Qed.

(** X20: an existing file whose path has no ['tests'] part, or fewer
    than four parts after the first one, is skipped by [main]: status 2,
    one line on the standard error about a [ValueError], nothing on the
    standard output. *)
Theorem main_skips_paths_outside_the_layout argv s :
  argv !! 1%nat = Some s → path_exists (Path s) = true →
  ("tests" ∉ Path s
   ∨ ∃ pre rest, Path s = pre ++ ("tests" :: rest) ∧ ("tests" ∉ pre) ∧ (length rest < 4)%nat) →
  ∃ e, exn_cls e = ValueError ∧ main' argv = (2, [ErrSkipping e]).
Proof.
  intros Hs Hexists Hout. rewrite (main_run _ _ Hs Hexists).
  destruct Hout as [Hnot|(pre & rest & Hparts & Hnot & Hlen)].
  - eexists. split; [|].
    2:{ rewrite (deserialize_parse_failure _ _ _ _ _ _ _ _ _ _
                   (run_parse_without_tests _ _ _ Hnot)). reflexivity. }
    reflexivity.
  - eexists. split; [|].
    2:{ rewrite Hparts.
        rewrite (deserialize_parse_failure _ _ _ _ _ _ _ _ _ _
                   (run_parse_too_short _ _ _ _ Hnot Hlen)). reflexivity. }
    reflexivity.
Qed.

End MainProperties.

Lemma main_exit_zero_means_decoded_witness :
  ∃ s t plog fork o,
    ["deserialize_ssz.py"; "data/tests/minimal/phase0/operations/attestation/pyspec_tests/one_basic_attestation/attestation.ssz_snappy"]
      !! 1%nat = Some s
    ∧ (λ _ : path, true) (Path s) = true
    ∧ run_parse sample_table (Directory Absent Absent) (Path s) = (Ok t, plog)
    ∧ decode_with "Deltas" sample_import (sample_decode ["phase0"]) (Path s)
        (t_preset t) (t_type_name t) fork = Ok o
    ∧ (∀ p,
         ["deserialize_ssz.py"; "data/tests/minimal/phase0/operations/attestation/pyspec_tests/one_basic_attestation/attestation.ssz_snappy"]
           !! 2%nat = Some p →
         sample_output (Path p) o = Ok tt).
Proof.
  apply (main_exit_zero_means_decoded "Deltas" sample_import (sample_decode ["phase0"])
           sample_output sample_table (Directory Absent Absent) (λ _, true)
           ["deserialize_ssz.py"; "data/tests/minimal/phase0/operations/attestation/pyspec_tests/one_basic_attestation/attestation.ssz_snappy"]
           (main_sample ["phase0"] (Directory Absent Absent)
              ["deserialize_ssz.py"; "data/tests/minimal/phase0/operations/attestation/pyspec_tests/one_basic_attestation/attestation.ssz_snappy"]).2).
  vm_compute. reflexivity.
Defined.

Lemma main_status_of_failed_resolution_witness :
  main_sample [] (Directory (Present (Ok (VDict meta_text_fork_block))) Absent)
    ["deserialize_ssz.py"; "/data/tests/minimal/altair/transition/core/pyspec_tests/normal_transition/blocks_1.ssz_snappy"]
  = (1, [ErrUnexpected
           (Exn TypeError "'<=' not supported between instances of 'int' and 'str'")])
  ∧ main_sample [] (Directory (Present (Ok (VList []))) Absent)
      ["deserialize_ssz.py"; "/data/tests/minimal/altair/transition/core/pyspec_tests/normal_transition/blocks_1.ssz_snappy"]
    = (2, [ErrSkipping (Exn AttributeError "'list' object has no attribute 'get'")]).
Proof.
  unfold main_sample. split.
  - etransitivity.
    + apply (main_status_of_failed_resolution "Deltas" sample_import (sample_decode [])
               sample_output sample_table
               (Directory (Present (Ok (VDict meta_text_fork_block))) Absent)
               (λ _, true) _
               "/data/tests/minimal/altair/transition/core/pyspec_tests/normal_transition/blocks_1.ssz_snappy"
               (Exn TypeError "'<=' not supported between instances of 'int' and 'str'")
               []).
      * reflexivity.
      * reflexivity.
      * vm_compute. reflexivity.
    + reflexivity.
  - etransitivity.
    + apply (main_status_of_failed_resolution "Deltas" sample_import (sample_decode [])
               sample_output sample_table
               (Directory (Present (Ok (VList []))) Absent) (λ _, true) _
               "/data/tests/minimal/altair/transition/core/pyspec_tests/normal_transition/blocks_1.ssz_snappy"
               (Exn AttributeError "'list' object has no attribute 'get'") []).
      * reflexivity.
      * reflexivity.
      * vm_compute. reflexivity.
    + reflexivity.
Defined.

Lemma main_skips_paths_outside_the_layout_witness :
  ∃ e,
    exn_cls e = ValueError
    ∧ main_sample [] (Directory Absent Absent)
        ["deserialize_ssz.py"; "input.ssz_snappy"; "output.yaml"]
      = (2, [ErrSkipping e]).
Proof.
  apply (main_skips_paths_outside_the_layout "Deltas" sample_import (sample_decode [])
           sample_output sample_table (Directory Absent Absent) (λ _, true)
           ["deserialize_ssz.py"; "input.ssz_snappy"; "output.yaml"] "input.ssz_snappy").
  - reflexivity.
  - reflexivity.
  - left. compute_done.
Defined.

(** ** Reward deltas need no module *)

Lemma derive_type_deltas test_suite filename :
  Py.endswith filename "_deltas.ssz_snappy" = true →
  derive_type_from_suite "rewards" test_suite filename = "Deltas".
Proof.
  intros Hend. unfold derive_type_from_suite, in_list.
  assert (Hno : ∀ name, Py.endswith name "_deltas.ssz_snappy" = false →
                        (filename == name) = false).
  { intros name Hname. apply bool_decide_eq_false_2. intros ->. congruence. }
  rewrite bool_decide_eq_false_2.
  2:{ unfold state_filenames. intros Hin.
      repeat (apply elem_of_cons in Hin as [->|Hin]; [by vm_compute in Hend|]).
      by apply elem_of_nil in Hin. }
  rewrite !Hno by reflexivity. simpl. by rewrite Hend.
Qed.

Section Deltas.
Context {ssz_type obj : Type}.
Variable Deltas : ssz_type.
Variable import_module : string → outcome (string → option ssz_type).
Variable get_ssz_object_from_ssz_encoded : path → ssz_type → outcome obj.
Variable output_ssz_to_file : path → obj → outcome unit.
Variable PREVIOUS_FORK_OF : gmap string string.
Variable dir : directory.

(** X17: a file of the [rewards] category whose name ends in
    [_deltas.ssz_snappy] resolves to the type [Deltas] under the directory
    fork, and is decoded with the class [Deltas] of the script itself: no
    module is imported, so a fork or preset without module does not make
    it fail. *)
Theorem reward_deltas_need_no_module parts i preset F test_suite filename :
  decomposes parts i preset F "rewards" test_suite filename →
  Py.endswith filename "_deltas.ssz_snappy" = true →
  run_parse PREVIOUS_FORK_OF dir parts = (Ok (Target preset F "Deltas" filename), [])
  ∧ type_class Deltas import_module preset F "Deltas" = Ok Deltas
  ∧ ∀ o, get_ssz_object_from_ssz_encoded parts Deltas = Ok o →
      run_deserialize Deltas import_module get_ssz_object_from_ssz_encoded
        output_ssz_to_file PREVIOUS_FORK_OF dir parts None
      = (Ok o, F,
         [EvDetected preset F "Deltas" filename; EvLoadedType;
          EvDeserializing (path_str parts); EvSuccess; EvPrintObject]).
Proof.
  intros Hd Hend.
  assert (Hparse : run_parse PREVIOUS_FORK_OF dir parts
                   = (Ok (Target preset F "Deltas" filename), [])).
  { destruct (run_parse_unruled PREVIOUS_FORK_OF dir _ _ _ _ _ _ _ Hd)
      as (ty & -> & _ & _ & Hty); [reflexivity|].
    rewrite Hty; [by rewrite derive_type_deltas | done | by intros [? _]]. }
  split; [exact Hparse|]. split; [reflexivity|].
  intros o Ho.
  by rewrite (deserialize_first_success Deltas import_module _ output_ssz_to_file _ _
                parts None _ _ Deltas o Hparse eq_refl Ho).
Qed.

End Deltas.

Lemma reward_deltas_need_no_module_witness :
  run_parse sample_table (Directory Absent Absent)
    (rewards_case "source_deltas.ssz_snappy")
  = (Ok (Target "mainnet" "gloas" "Deltas" "source_deltas.ssz_snappy"), [])
  ∧ type_class "Deltas" failing_import "mainnet" "gloas" "Deltas" = Ok "Deltas"
  ∧ ∀ o,
      sample_decode [] (rewards_case "source_deltas.ssz_snappy") "Deltas" = Ok o →
      run_deserialize "Deltas" failing_import (sample_decode []) sample_output
        sample_table (Directory Absent Absent)
        (rewards_case "source_deltas.ssz_snappy") None
      = (Ok o, "gloas",
         [EvDetected "mainnet" "gloas" "Deltas" "source_deltas.ssz_snappy"; EvLoadedType;
          EvDeserializing (path_str (rewards_case "source_deltas.ssz_snappy"));
          EvSuccess; EvPrintObject]).
Proof.
  apply (reward_deltas_need_no_module "Deltas" failing_import (sample_decode [])
           sample_output sample_table (Directory Absent Absent)
           (rewards_case "source_deltas.ssz_snappy") 1 "mainnet" "gloas" "basic"
           "source_deltas.ssz_snappy").
  - repeat split; reflexivity.
  - reflexivity.
Defined.

(** ** The audit: the category counts and the list agree *)

Lemma total_by_test_type_increment k d :
  total_by_test_type (increment k d) = S (total_by_test_type d).
Proof.
  unfold total_by_test_type, increment.
  assert (Hcomm : ∀ (j1 j2 : string) (z1 z2 y : nat),
            (z1 + (z2 + y) = z2 + (z1 + y))%nat) by (intros; lia).
  destruct (d !! k) as [n|] eqn:Hk; simpl.
  - rewrite <- (insert_delete_eq d k (S n)).
    rewrite map_fold_insert_L; [|by intros; apply Hcomm|by rewrite lookup_delete_eq].
    rewrite (map_fold_delete_L _ _ k n d); [lia|by intros; apply Hcomm|done].
  - rewrite map_fold_insert_L; [done|by intros; apply Hcomm|done].
Qed.

Lemma foldl_invariant {A B} (I : A → Prop) (f : A → B → A) (l : list B) (a : A) :
  (∀ a b, I a → I (f a b)) → I a → I (foldl f a l).
Proof. intros Hf. revert a. induction l; simpl; auto. Qed.

Lemma consistent_visit_file root dirs files r file :
  consistent r → consistent (visit_file root dirs files r file).
Proof.
  intros (Hsum & Hle & Hpos). unfold visit_file.
  destruct (is_ssz file); [|done].
  destruct (has_yaml dirs files file); [done|].
  case_bool_decide; unfold consistent; simpl.
  - rewrite total_by_test_type_increment, length_app, Hsum. simpl.
    split; [lia|]. split; [lia|].
    intros key n. unfold increment.
    destruct (decide (test_key (root ++ [file]) = key)) as [->|Hne].
    + rewrite lookup_insert_eq. intros [= <-]. lia.
    + rewrite lookup_insert_ne by done. apply Hpos.
  - split; [done|]. split; [lia | done].
Qed.

Lemma consistent_check tests_dir : consistent (check_missing_yamls tests_dir).
Proof.
  unfold check_missing_yamls. apply foldl_invariant.
  - intros r preset Hr. unfold visit_preset.
    destruct (find_entry preset tests_dir); [|done].
    apply foldl_invariant; [|done].
    intros r' [[root dirs] files] Hr'. unfold visit_directory.
    apply foldl_invariant; [|done].
    intros r'' file. apply consistent_visit_file.
  - unfold consistent. simpl. split; [reflexivity|]. split; [lia|].
    intros key n. by rewrite lookup_empty.
Qed.

(** X24: in every report of the audit the per-category counts add up
    to the length of the list of missing files, which is at most the
    missing count, and no category has a count of zero. *)
Theorem category_counts_sum_to_listed_files tests_dir :
  let r := check_missing_yamls tests_dir in
  total_by_test_type (missing_by_test_type r) = length (missing_files r)
  ∧ (length (missing_files r) ≤ missing_count r)%nat
  ∧ ∀ key n, missing_by_test_type r !! key = Some n → (1 ≤ n)%nat.
Proof. apply consistent_check. Qed.

(** ** The audit: a category key is what the resolver reads from the path *)

Lemma find_entry_name name entries n :
  find_entry name entries = Some n → node_name n = name.
Proof.
  unfold find_entry. intros H. apply head_Some_elem_of in H.
  by apply list_elem_of_filter in H as [? _].
Qed.

Lemma folder_at_head n p entries :
  folder_at n p entries → ∃ p', p = node_name n :: p'.
Proof. destruct 1; simpl; eauto. Qed.

(** X25: every key of the per-category counts is
    [preset/fork/test_type/test_suite] for a listed missing file under the
    [minimal] or [mainnet] preset, and these four are what
    [parse_ssz_path] reads from the path of that file below any tests
    directory whose own path has no other ['tests'] part. *)
Theorem category_key_is_the_resolved_category tests_dir key n :
  let r := check_missing_yamls tests_dir in
  missing_by_test_type r !! key = Some n →
  ∃ parts preset fork test_type test_suite,
    Py.join "/" parts ∈ missing_files r
    ∧ preset ∈ ["minimal"; "mainnet"]
    ∧ key = Py.join "/" [preset; fork; test_type; test_suite]
    ∧ ∀ base, "tests" ∉ base →
        decomposes (base ++ "tests" :: parts) (length base)
          preset fork test_type test_suite
          (default test_suite (last (drop 4 parts))).
Proof.
  intros r Hkey.
  destruct (consistent_check tests_dir) as (_ & _ & Hpos).
  apply Hpos in Hkey as Hn.
  destruct (accounts_check tests_dir) as (_ & _ & _ & Hfiles & Hcount).
  specialize (Hcount key). fold r in Hcount, Hfiles. rewrite Hkey in Hcount.
  simpl in Hcount. rewrite lookup_empty in Hcount. simpl in Hcount.
  destruct (with_key key (keyed (fixtures tests_dir))) as [|[parts companion] rest] eqn:Hwith;
    [simpl in Hcount; lia|].
  assert (Hin : Fixture parts companion ∈ with_key key (keyed (fixtures tests_dir))).
  { rewrite Hwith. by left. }
  unfold with_key in Hin. apply list_elem_of_filter in Hin as [Hk Hin]. simpl in Hk.
  assert (Hlisted : Py.join "/" parts ∈ missing_files r).
  { rewrite Hfiles. simpl. apply list_elem_of_fmap.
    exists (Fixture parts companion). done. }
  unfold keyed, unrendered in Hin.
  apply list_elem_of_filter in Hin as [Hlen Hin]. simpl in Hlen.
  apply list_elem_of_filter in Hin as [_ Hin].
  apply elem_of_fixtures in Hin
    as (preset & nd & p & entries & file & Hpreset & Hfind & Hat & _ & _ & -> & _).
  apply find_entry_name in Hfind.
  apply folder_at_head in Hat as (p' & ->). rewrite Hfind in *.
  destruct (p' ++ [file]) as [|fork [|test_type [|test_suite rest']]] eqn:Hp';
    try (rewrite <- app_comm_cons, Hp' in Hlen; simpl in Hlen; lia).
  exists ((preset :: p') ++ [file]), preset, fork, test_type, test_suite.
  split; [done|]. split; [done|].
  rewrite <- app_comm_cons, Hp' in *. split; [by rewrite <- Hk|].
  intros base Hbase. simpl. by apply decomposes_first_tests.
Qed.

Lemma category_key_is_the_resolved_category_witness :
  ∃ parts preset fork test_type test_suite,
    Py.join "/" parts ∈ missing_files (check_missing_yamls sample_tree)
    ∧ preset ∈ ["minimal"; "mainnet"]
    ∧ "mainnet/phase0/sanity/blocks" = Py.join "/" [preset; fork; test_type; test_suite]
    ∧ ∀ base, "tests" ∉ base →
        decomposes (base ++ "tests" :: parts) (length base)
          preset fork test_type test_suite
          (default test_suite (last (drop 4 parts))).
Proof.
  apply (category_key_is_the_resolved_category sample_tree
           "mainnet/phase0/sanity/blocks" 1%nat).
  vm_compute. reflexivity.
Defined.

(** ** Reversal, prefixes and suffixes of strings *)

Lemma prefix_cons a p b s :
  String.prefix (String a p) (String b s)
  = if ascii_dec a b then String.prefix p s else false.
Proof. reflexivity. Qed.

Lemma prefix_nil s : String.prefix "" s = true.
Proof. by destruct s. Qed.

Lemma append_cons c (a b : string) : String c a +:+ b = String c (a +:+ b).
Proof. reflexivity. Qed.

Lemma rev_app_append s1 s2 : String.rev_app s1 s2 = String.rev s1 +:+ s2.
Proof.
  unfold String.rev. revert s2. induction s1 as [|c s1 IH]; intros s2; simpl; [done|].
  rewrite IH, (IH (String c "")), append_assoc. reflexivity.
Qed.

Lemma rev_cons c s : String.rev (String c s) = String.rev s +:+ String c "".
Proof. unfold String.rev at 1. simpl. apply rev_app_append. Qed.

Lemma rev_append a b : String.rev (a +:+ b) = String.rev b +:+ String.rev a.
Proof.
  induction a as [|c a IH].
  - change ("" +:+ b) with b. by rewrite append_nil_r.
  - rewrite append_cons, !rev_cons, IH, append_assoc. reflexivity.
Qed.

Lemma rev_involutive s : String.rev (String.rev s) = s.
Proof.
  induction s as [|c s IH]; [done|].
  rewrite rev_cons, rev_append, IH. reflexivity.
Qed.

(** ** The audit: which files are binary fixtures *)

(** X26: a file is counted as a binary fixture exactly when its name
    ends in [.ssz_snappy] (the second test of line 34 never changes the
    answer), and the companion name [file + '.yaml'] is never counted as
    one. *)
Theorem binary_fixture_is_the_suffix_test file :
  is_ssz file = Py.endswith file ".ssz_snappy"
  ∧ is_ssz (file +:+ ".yaml") = false.
Proof.
  split.
  - unfold is_ssz, Py.endswith.
    change (String.rev ".ssz_snappy") with "yppans_zss.".
    change (String.rev ".ssz_snappy.yaml") with "lmay.yppans_zss.".
    destruct (String.rev file) as [|c s]; [reflexivity|].
    rewrite !prefix_cons.
    destruct (ascii_dec "y" c) as [<-|]; [|reflexivity].
    destruct (ascii_dec "l" "y"); [discriminate|]. apply andb_true_r.
  - unfold is_ssz, Py.endswith. rewrite rev_append.
    change (String.rev ".ssz_snappy") with "yppans_zss.".
    change (String.rev ".yaml") with "lmay.".
    rewrite append_cons, prefix_cons.
    destruct (ascii_dec "y" "l"); [discriminate | reflexivity].
Qed.

(** ** The loaded table is in lower case *)

Lemma lower_char_idem c : Py.lower_char (Py.lower_char c) = Py.lower_char c.
Proof. destruct c as [[] [] [] [] [] [] [] []]; reflexivity. Qed.

Lemma lower_idem s : Py.lower (Py.lower s) = Py.lower s.
Proof.
  unfold Py.lower. induction s as [|c s IH]; simpl; [done|].
  by rewrite lower_char_idem, IH.
Qed.

Lemma lower_nonempty s : s ≠ "" → Py.lower s ≠ "".
Proof. by destruct s. Qed.

Lemma lower_case_parse_line t line :
  lower_case_table t → lower_case_table (parse_line t line).
Proof.
  intros Ht. unfold parse_line.
  destruct (_ && _); [|done].
  destruct (Py.split ":" (Py.strip line)) as [|part0 [|part1 [|]]]; try done.
  destruct (_ && _) eqn:Hv; [|done].
  apply andb_prop in Hv as [Hv _]. apply negb_true_iff, bool_decide_eq_false_1 in Hv.
  intros k v. destruct (decide (Py.lower (Py.strip part0) = k)) as [<-|Hne].
  - rewrite lookup_insert_eq. intros [= <-].
    rewrite !lower_idem. split; [done|]. split; [done|]. by apply lower_nonempty.
  - rewrite lookup_insert_ne by done. apply Ht.
Qed.

Lemma lower_case_loaded constants :
  lower_case_table (load_previous_fork_mapping constants).
Proof.
  assert (Hempty : lower_case_table ∅) by (intros k v; by rewrite lookup_empty).
  unfold load_previous_fork_mapping.
  destruct constants as [content|]; [|done].
  destruct (re_search content) as [dict_content|]; [|done].
  apply foldl_invariant; [|done].
  intros t line. apply lower_case_parse_line.
Qed.

(** X21: in the table that [load_previous_fork_mapping] returns every
    key and every value is in lower case and no value is empty; so a
    version name with an upper-case letter has no predecessor in it. *)
Theorem loaded_table_is_lower_case constants :
  let table := load_previous_fork_mapping constants in
  (∀ k v, table !! k = Some v → Py.lower k = k ∧ Py.lower v = v ∧ v ≠ "")
  ∧ (∀ fork, Py.lower fork ≠ fork → table !! fork = None).
Proof.
  intros table. split; [apply lower_case_loaded|].
  intros fork Hne. destruct (table !! fork) as [v|] eqn:Hv; [|done].
  by apply lower_case_loaded in Hv as [? _].
Qed.

(** ** Loading a written dictionary *)

Lemma append_nil_l (s : string) : "" +:+ s = s.
Proof. reflexivity. Qed.

Lemma all_chars_append p a b :
  all_chars p (a +:+ b) = all_chars p a && all_chars p b.
Proof.
  induction a as [|c a IH]; [done|].
  rewrite append_cons. simpl. by rewrite IH, andb_assoc.
Qed.

Lemma all_chars_rev p s : all_chars p (String.rev s) = all_chars p s.
Proof.
  induction s as [|c s IH]; [done|].
  rewrite rev_cons, all_chars_append, IH. simpl.
  rewrite andb_true_r. apply andb_comm.
Qed.

Lemma all_chars_impl (p q : ascii → bool) s :
  (∀ c, p c = true → q c = true) → all_chars p s = true → all_chars q s = true.
Proof.
  intros Hpq. induction s as [|c s IH]; simpl; [done|].
  intros [Hc Hs]%andb_prop. by rewrite (Hpq _ Hc), IH.
Qed.

Lemma lstrip_all p s :
  all_chars (λ c, negb (p c)) s = true → Py.lstrip_with p s = s.
Proof.
  destruct s as [|c s]; simpl; [done|].
  intros [Hc _]%andb_prop. apply negb_true_iff in Hc. by rewrite Hc.
Qed.

Lemma rstrip_all p s :
  all_chars (λ c, negb (p c)) s = true → Py.rstrip_with p s = s.
Proof.
  intros H. unfold Py.rstrip_with.
  rewrite lstrip_all by (by rewrite all_chars_rev). apply rev_involutive.
Qed.

Lemma lstrip_stop p x c z :
  p c = false →
  Py.lstrip_with p (x +:+ String c z) = Py.lstrip_with p x +:+ String c z.
Proof.
  intros Hc. induction x as [|a x IH].
  - simpl. rewrite append_nil_l. simpl. by rewrite Hc.
  - rewrite append_cons. simpl. destruct (p a); [exact IH | reflexivity].
Qed.

Lemma rstrip_stop p z c x :
  p c = false →
  Py.rstrip_with p (z +:+ String c x) = z +:+ String c (Py.rstrip_with p x).
Proof.
  intros Hc. unfold Py.rstrip_with.
  rewrite rev_append, rev_cons, append_assoc.
  change (String c "" +:+ String.rev z) with (String c (String.rev z)).
  rewrite lstrip_stop by done.
  rewrite rev_append, rev_cons, rev_involutive, append_assoc. reflexivity.
Qed.

Lemma split_stop sep x rest :
  all_chars (λ c, negb (Ascii.eqb c sep)) x = true →
  Py.split sep (x +:+ String sep rest) = x :: Py.split sep rest.
Proof.
  induction x as [|c x IH]; intros Hx.
  - rewrite append_nil_l. simpl. by rewrite Ascii.eqb_refl.
  - simpl in Hx. apply andb_prop in Hx as [Hc Hx]. apply negb_true_iff in Hc.
    rewrite append_cons. simpl. rewrite Hc, IH by done. reflexivity.
Qed.

Lemma split_whole sep x :
  all_chars (λ c, negb (Ascii.eqb c sep)) x = true → Py.split sep x = [x].
Proof.
  induction x as [|c x IH]; intros Hx; [done|].
  simpl in Hx. apply andb_prop in Hx as [Hc Hx]. apply negb_true_iff in Hc.
  simpl. by rewrite Hc, IH.
Qed.

Lemma span_until_stop c body rest :
  all_chars (λ a, negb (Ascii.eqb a c)) body = true →
  span_until c (body +:+ String c rest) = (body, String c rest).
Proof.
  induction body as [|a body IH]; intros Hb.
  - rewrite append_nil_l. simpl. by rewrite Ascii.eqb_refl.
  - simpl in Hb. apply andb_prop in Hb as [Ha Hb]. apply negb_true_iff in Ha.
    rewrite append_cons. simpl. rewrite Ha, IH by done. reflexivity.
Qed.

Lemma drop_prefix_append p s : drop_prefix p (p +:+ s) = Some s.
Proof.
  induction p as [|a p IH]; [by destruct s|].
  rewrite append_cons. simpl. by rewrite Ascii.eqb_refl.
Qed.

Lemma drop_prefix_prefix p s r : drop_prefix p s = Some r → String.prefix p s = true.
Proof.
  revert s. induction p as [|a p IH]; intros s; [by destruct s|].
  destruct s as [|b s]; [done|]. rewrite prefix_cons.
  change (drop_prefix (String a p) (String b s))
    with (if Ascii.eqb a b then drop_prefix p s else None).
  destruct (Ascii.eqb_spec a b) as [->|]; [|done].
  intros H. destruct (ascii_dec b b); [by eapply IH | done].
Qed.

Lemma prefix_shorter p y x :
  String.prefix p x = true → String.prefix y x = true →
  (String.length p ≤ String.length y)%nat → String.prefix p y = true.
Proof.
  revert y x. induction p as [|a p IH]; intros y x; [intros; apply prefix_nil|].
  destruct x as [|b x]; [done|].
  destruct y as [|c y]; [intros _ _ Hlen; simpl in Hlen; lia|].
  rewrite !prefix_cons. simpl String.length.
  destruct (ascii_dec a b) as [->|]; [|done].
  destruct (ascii_dec c b) as [->|]; [|done].
  destruct (ascii_dec b b); [|done].
  intros Hp Hy Hlen. eapply IH; [done..|lia].
Qed.

Lemma prefix_within p b y x :
  String.prefix p (b +:+ x) = true → String.prefix y x = true →
  (String.length p ≤ String.length b + String.length y)%nat →
  String.prefix p (b +:+ y) = true.
Proof.
  revert p. induction b as [|c b IH]; intros p.
  - rewrite !append_nil_l. apply prefix_shorter.
  - rewrite !append_cons. destruct p as [|a p]; [done|].
    rewrite !prefix_cons. destruct (ascii_dec a c); [|done].
    intros Hp Hy Hlen. apply IH; [done..|simpl in Hlen; lia].
Qed.

Lemma re_search_unfold s :
  re_search s
  = match match_previous_fork_of s with
    | Some group => Some group
    | None =>
        match s with
        | EmptyString => None
        | String _ s' => re_search s'
        end
    end.
Proof. by destruct s. Qed.

(** The search passes over a text in which the name does not start. *)
Lemma re_search_skip before rest :
  Py.contains "PREVIOUS_FORK_OF" (before +:+ "PREVIOUS_FORK_O") = false →
  String.prefix "PREVIOUS_FORK_O" rest = true →
  re_search (before +:+ rest) = re_search rest.
Proof.
  intros Hnot Hrest. induction before as [|c b IH]; [done|].
  rewrite append_cons in Hnot. rewrite contains_unfold in Hnot.
  apply orb_false_elim in Hnot as [Hhere Hlater].
  rewrite append_cons, re_search_unfold.
  assert (Hnone : drop_prefix "PREVIOUS_FORK_OF" (String c (b +:+ rest)) = None).
  { destruct (drop_prefix _ _) as [r|] eqn:Hr; [|done].
    apply drop_prefix_prefix in Hr.
    rewrite <- append_cons in Hr.
    apply (prefix_within _ _ "PREVIOUS_FORK_O") in Hr; [|done|simpl; lia].
    rewrite append_cons in Hr. congruence. }
  unfold match_previous_fork_of. rewrite Hnone. simpl. by apply IH.
Qed.

Lemma match_dictionary body after :
  body ≠ "" →
  all_chars (λ c, negb (Ascii.eqb c "}")) body = true →
  match_previous_fork_of ("PREVIOUS_FORK_OF = {" +:+ body +:+ "}" +:+ after) = Some body.
Proof.
  intros Hne Hbody. unfold match_previous_fork_of.
  change ("PREVIOUS_FORK_OF = {" +:+ body +:+ "}" +:+ after)
    with ("PREVIOUS_FORK_OF" +:+ String " " (String "=" (String " " (String "{"
            (body +:+ String "}" after))))).
  rewrite drop_prefix_append. simpl.
  rewrite span_until_stop by done. by destruct body.
Qed.

Lemma name_char_other c :
  name_char c = true →
  Py.isspace c = false
  ∧ c ≠ ":"%char ∧ c ≠ ","%char ∧ c ≠ "#"%char ∧ c ≠ "}"%char ∧ c ≠ "010"%char.
Proof.
  destruct c as [[] [] [] [] [] [] [] []]; vm_compute; intros; repeat split; congruence.
Qed.

Lemma is_name_all (P : ascii → bool) s :
  (∀ c, name_char c = true → P c = true) →
  is_name s = true → all_chars P s = true.
Proof.
  intros HP Hs. apply (all_chars_impl name_char); [done|]. by destruct s.
Qed.

Lemma is_name_first s :
  is_name s = true → ∃ c s', s = String c s' ∧ name_char c = true.
Proof.
  destruct s as [|c s']; simpl; [done|]. intros [Hc _]%andb_prop. eauto.
Qed.

Lemma neqb_of_ne (c d : ascii) : c ≠ d → negb (Ascii.eqb c d) = true.
Proof. intros H. by destruct (Ascii.eqb_spec c d). Qed.

Lemma rstrip_strip_last p z c :
  p c = true → Py.rstrip_with p (z +:+ String c "") = Py.rstrip_with p z.
Proof.
  intros Hc. unfold Py.rstrip_with. rewrite rev_append.
  change (String.rev (String c "")) with (String c "").
  rewrite append_cons, append_nil_l. simpl. by rewrite Hc.
Qed.

(** What an entry line gives: its two names. *)
Lemma entry_line_parts key value :
  is_name key = true → is_name value = true →
  let line := Py.strip ("    " +:+ key +:+ ": " +:+ value +:+ ",") in
  (Py.contains ":" line && negb (Py.startswith line "#")) = true
  ∧ ∃ part0 part1,
      Py.split ":" line = [part0; part1]
      ∧ Py.strip part0 = key
      ∧ Py.rstrip_comma (Py.strip part1) = value.
Proof.
  intros Hkey Hvalue line.
  destruct (is_name_first _ Hkey) as (c & key' & Hk & Hc).
  destruct (is_name_first _ Hvalue) as (d & value' & Hv & Hd).
  destruct (name_char_other _ Hc) as (Hcs & _ & _ & Hchash & _).
  destruct (name_char_other _ Hd) as (Hds & _).
  assert (Hline : line = key +:+ String ":" (" " +:+ value +:+ ",")).
  { subst line. unfold Py.strip.
    rewrite Hk at 1. rewrite (append_cons c key').
    rewrite (lstrip_stop Py.isspace "    ") by done.
    change (Py.lstrip_with Py.isspace "    ") with "". rewrite append_nil_l.
    rewrite <- (append_cons c key'), <- Hk.
    replace (key +:+ ": " +:+ value +:+ ",")
      with ((key +:+ ": " +:+ value) +:+ String "," "")
      by (by rewrite !append_assoc).
    rewrite rstrip_stop by done.
    change (Py.rstrip_with Py.isspace "") with "".
    by rewrite !append_assoc. }
  rewrite Hline. split.
  - apply andb_true_intro. split.
    + apply (contains_append key ":" (" " +:+ value +:+ ",")).
    + rewrite Hk, append_cons. unfold Py.startswith. rewrite prefix_cons.
      by destruct (ascii_dec "#" c) as [<-|].
  - exists key, (" " +:+ value +:+ ","). split; [|split].
    + rewrite split_stop.
      2:{ apply (is_name_all _ _ (λ c Hc, neqb_of_ne _ _
                   (proj1 (proj2 (name_char_other c Hc)))) Hkey). }
      rewrite split_whole; [done|].
      rewrite !all_chars_append. simpl. rewrite andb_true_r.
      apply (is_name_all _ _ (λ c Hc, neqb_of_ne _ _
               (proj1 (proj2 (name_char_other c Hc)))) Hvalue).
    + unfold Py.strip. rewrite lstrip_all, rstrip_all; [done|..];
        apply (is_name_all _ _ (λ c Hc, proj2 (negb_true_iff _)
                 (proj1 (name_char_other c Hc))) Hkey).
    + unfold Py.strip, Py.rstrip_comma.
      rewrite Hv at 1. rewrite (append_cons d value').
      rewrite (lstrip_stop Py.isspace " ") by done.
      change (Py.lstrip_with Py.isspace " ") with "". rewrite append_nil_l.
      rewrite <- (append_cons d value'), <- Hv.
      rewrite (rstrip_stop Py.isspace value "," "") by done.
      change (Py.rstrip_with Py.isspace "") with "".
      rewrite rstrip_strip_last by done.
      apply rstrip_all.
      apply (is_name_all (λ c, negb (Ascii.eqb "," c)) _); [|done].
      intros a Ha. destruct (name_char_other _ Ha) as (_ & _ & Hcomma & _).
      by destruct (Ascii.eqb_spec "," a) as [<-|].
Qed.

Lemma parse_line_rendered table line :
  well_formed line →
  parse_line table (render_line line)
  = match line with
    | Entry key (Some value) => <[Py.lower key := Py.lower value]> table
    | _ => table
    end.
Proof.
  destruct line as [key previous|text]; simpl.
  - intros [Hkey Hprevious].
    assert (Hname : is_name (default "None" previous) = true).
    { destruct previous as [value|]; [|reflexivity]. by apply Hprevious. }
    destruct (entry_line_parts key (default "None" previous) Hkey Hname)
      as (Hguard & part0 & part1 & Hsplit & Hpart0 & Hpart1).
    unfold parse_line. rewrite Hguard, Hsplit, Hpart0, Hpart1.
    destruct previous as [value|]; simpl; [|reflexivity].
    destruct (Hprevious value eq_refl) as [Hvalue Hnone].
    rewrite !bool_decide_eq_false_2; [done | done |].
    intros ->. done.
  - intros _. unfold parse_line, Py.strip.
    change ("    #" +:+ text) with ("    " +:+ String "#" text).
    rewrite (lstrip_stop Py.isspace "    ") by done.
    change (Py.lstrip_with Py.isspace "    " +:+ String "#" text)
      with ("" +:+ String "#" text).
    rewrite (rstrip_stop Py.isspace "" "#" text) by done.
    rewrite append_nil_l. unfold Py.startswith at 1. rewrite prefix_cons.
    destruct (ascii_dec "#" "#"); [|done].
    rewrite prefix_nil. simpl negb. by rewrite andb_false_r.
Qed.

Lemma foldr_lines_close (lines : list dict_line) (close : string) :
  foldr (λ line rest, render_line line +:+ newline +:+ rest) close lines
  = foldr (λ line rest, render_line line +:+ newline +:+ rest) "" lines +:+ close.
Proof.
  induction lines as [|line lines IH]; simpl; [done|].
  by rewrite IH, !append_assoc.
Qed.

Lemma render_line_chars (P : ascii → bool) line :
  (∀ c, name_char c = true → P c = true) →
  P " "%char = true → P ":"%char = true → P ","%char = true → P "#"%char = true →
  (∀ text, line = Comment text → all_chars P text = true) →
  well_formed line → all_chars P (render_line line) = true.
Proof.
  intros Hname Hspace Hcolon Hcomma Hhash Htext.
  destruct line as [key previous|text]; simpl.
  - intros [Hkey Hprevious].
    assert (Hvalue : is_name (default "None" previous) = true).
    { destruct previous as [value|]; [|reflexivity]. by apply Hprevious. }
    rewrite !all_chars_append. simpl.
    rewrite Hspace, Hcolon, Hcomma, (is_name_all P _ Hname Hkey),
      (is_name_all P _ Hname Hvalue). reflexivity.
  - intros Hwf. rewrite all_chars_append. simpl.
    by rewrite Hspace, Hhash, (Htext text eq_refl).
Qed.

Lemma split_lines (lines : list dict_line) :
  Forall well_formed lines →
  Py.split "010"
    (foldr (λ line rest, render_line line +:+ newline +:+ rest) "" lines)
  = (render_line <$> lines) ++ [""].
Proof.
  induction 1 as [|line lines Hline _ IH]; simpl; [done|].
  change (newline +:+ ?rest) with (String "010" rest).
  rewrite split_stop, IH; [done|].
  apply render_line_chars; try done.
  - intros c Hc. apply neqb_of_ne. apply (name_char_other c Hc).
  - intros text ->. simpl in Hline.
    eapply all_chars_impl; [|exact Hline]. intros c Hc. simpl in Hc.
    by apply andb_prop in Hc as [? _].
Qed.

Lemma no_brace_lines (lines : list dict_line) :
  Forall well_formed lines →
  all_chars (λ c, negb (Ascii.eqb c "}"))
    (foldr (λ line rest, render_line line +:+ newline +:+ rest) "" lines) = true.
Proof.
  induction 1 as [|line lines Hline _ IH]; simpl; [done|].
  rewrite !all_chars_append, IH, andb_true_r. simpl.
  apply render_line_chars; try done.
  - intros c Hc. apply neqb_of_ne. apply (name_char_other c Hc).
  - intros text ->. simpl in Hline.
    eapply all_chars_impl; [|exact Hline]. intros c Hc. simpl in Hc.
    by apply andb_prop in Hc as [_ ?].
Qed.

Lemma load_dictionary before after lines :
  Py.contains "PREVIOUS_FORK_OF" (before +:+ "PREVIOUS_FORK_O") = false →
  Forall well_formed lines →
  load_previous_fork_mapping (Some (before +:+ dictionary_text lines +:+ after))
  = table_of lines.
Proof.
  intros Hbefore Hlines. unfold load_previous_fork_mapping, dictionary_text.
  set (blob := foldr (λ line rest, render_line line +:+ newline +:+ rest) "" lines).
  rewrite foldr_lines_close. fold blob.
  replace (("PREVIOUS_FORK_OF = {" +:+ newline +:+ blob +:+ "}") +:+ after)
    with ("PREVIOUS_FORK_OF = {" +:+ (newline +:+ blob) +:+ "}" +:+ after)
    by (by rewrite !append_assoc).
  rewrite re_search_skip; [|done|reflexivity].
  rewrite re_search_unfold, match_dictionary; [|done|].
  2:{ rewrite all_chars_append. simpl. by apply no_brace_lines. }
  change (newline +:+ blob) with ("" +:+ String "010" blob).
  rewrite (split_stop "010" "" blob) by done.
  subst blob. rewrite split_lines by done.
  simpl. rewrite foldl_app. simpl.
  change (parse_line ∅ "") with (∅ : gmap string string).
  unfold table_of. generalize (∅ : gmap string string).
  induction Hlines as [|line lines Hline _ IH]; intros table; simpl; [done|].
  rewrite parse_line_rendered by done. apply IH.
Qed.

(** X22: reading back a dictionary written one line per entry
    ([KEY: VALUE,], with comment lines in between) gives its table:
    comments and entries whose value is [None] add nothing, names are put
    in lower case, and a later entry replaces an earlier one of the same
    key.  The text before the assignment must not contain its name; the
    text after the closing brace is free. *)
Theorem written_dictionary_is_loaded before after lines :
  Py.contains "PREVIOUS_FORK_OF" (before +:+ "PREVIOUS_FORK_O") = false →
  Forall well_formed lines →
  load_previous_fork_mapping (Some (before +:+ dictionary_text lines +:+ after))
  = table_of lines.
Proof. apply load_dictionary. Qed.

Lemma written_dictionary_is_loaded_witness :
  load_previous_fork_mapping
    (Some (("PHASE0 = SpecForkName('phase0')" +:+ newline +:+ newline)
           +:+ dictionary_text sample_lines +:+ newline))
  = table_of sample_lines.
Proof.
  apply (written_dictionary_is_loaded
           ("PHASE0 = SpecForkName('phase0')" +:+ newline +:+ newline) newline
           sample_lines).
  - vm_compute. reflexivity.
  - unfold sample_lines.
    repeat (apply Forall_cons_2;
            [first [ exact eq_refl
                   | split; [reflexivity|];
                     intros value [= <-]; split; [reflexivity | discriminate]
                   | split; [reflexivity | discriminate] ]|]).
    apply Forall_nil_2.
Defined.

(** ** The walk over a loaded table (C9) *)

Lemma linked_keys_app l1 l2 : linked_keys (l1 ++ l2) = linked_keys l1 ++ linked_keys l2.
Proof. apply omap_app. Qed.

(** A link of the table was written by one of the lines. *)
Lemma table_of_lookup lines k v :
  table_of lines !! k = Some v →
  ∃ l1 key value l2,
    lines = l1 ++ Entry key (Some value) :: l2
    ∧ Py.lower key = k ∧ Py.lower value = v.
Proof.
  assert (H : ∀ acc : gmap string string,
            foldl (λ table line,
                     match line with
                     | Entry key (Some value) => <[Py.lower key := Py.lower value]> table
                     | _ => table
                     end) acc lines !! k = Some v →
            acc !! k = Some v
            ∨ ∃ l1 key value l2,
                lines = l1 ++ Entry key (Some value) :: l2
                ∧ Py.lower key = k ∧ Py.lower value = v).
  { induction lines as [|line lines IH]; intros acc; simpl; [by left|].
    intros [Hacc|(l1 & key & value & l2 & -> & Hk & Hv)]%IH.
    - destruct line as [key [value|]|text]; try by left.
      apply lookup_insert_Some in Hacc as [[<- <-]|[_ Hacc]]; [|by left].
      right. by exists [], key, value, lines.
    - right. by exists (line :: l1), key, value, l2. }
  unfold table_of. intros [Hempty|?]%H; [by rewrite lookup_empty in Hempty | done].
Qed.

Lemma predecessors_first_cons key value rest :
  predecessors_first (Entry key (Some value) :: rest) = true →
  Py.lower value ≠ Py.lower key
  ∧ (Py.lower key ∉ linked_keys rest)
  ∧ (Py.lower value ∉ linked_keys rest)
  ∧ predecessors_first rest = true.
Proof.
  cbn [predecessors_first].
  intros [[[Hne Hk]%andb_prop Hv]%andb_prop Hrest]%andb_prop.
  apply bool_decide_eq_true_1 in Hne, Hk, Hv. done.
Qed.

Lemma predecessors_first_app l1 l2 :
  predecessors_first (l1 ++ l2) = true →
  predecessors_first l2 = true
  ∧ ∀ key value, Entry key (Some value) ∈ l1 →
      (Py.lower key ∉ linked_keys l2) ∧ (Py.lower value ∉ linked_keys l2).
Proof.
  induction l1 as [|line l1 IH].
  - intros H. split; [done|]. intros key value Hin. by apply elem_of_nil in Hin.
  - change ((line :: l1) ++ l2) with (line :: (l1 ++ l2)).
    destruct line as [key [value|]|text].
    + intros (Hne & Hk & Hv & Hrest)%predecessors_first_cons.
      destruct (IH Hrest) as [H2 Hall]. split; [done|].
      intros key' value' [[= -> ->]|Hin]%elem_of_cons; [|by apply Hall].
      rewrite linked_keys_app in Hk, Hv.
      split; intros ?; [apply Hk | apply Hv]; apply elem_of_app; by right.
    + intros Hrest. destruct (IH Hrest) as [H2 Hall]. split; [done|].
      intros key' value' [[=]|Hin]%elem_of_cons. by apply Hall.
    + intros Hrest. destruct (IH Hrest) as [H2 Hall]. split; [done|].
      intros key' value' [[=]|Hin]%elem_of_cons. by apply Hall.
Qed.

(** Every link leads to a version of lower rank. *)
Lemma links_decrease_rank lines k v :
  predecessors_first lines = true →
  table_of lines !! k = Some v → (rank_of lines v < rank_of lines k)%nat.
Proof.
  intros Hpf (l1 & key & value & l2 & -> & <- & <-)%table_of_lookup.
  destruct (predecessors_first_app _ _ Hpf) as [Hhere Hbefore].
  apply predecessors_first_cons in Hhere as (Hne & Hk & Hv & _).
  assert (Hkeys : linked_keys (l1 ++ Entry key (Some value) :: l2)
                  = linked_keys l1 ++ Py.lower key :: linked_keys l2).
  { by rewrite linked_keys_app. }
  assert (Hfresh : Py.lower key ∉ linked_keys l1).
  { intros Hin. unfold linked_keys in Hin.
    apply list_elem_of_omap in Hin as (line & Hline & Hsome).
    destruct line as [key' [value'|]|]; simplify_eq/=.
    destruct (Hbefore key' value' Hline) as [Hk' _]. apply Hk'.
    change (linked_keys (Entry key (Some value) :: l2))
      with (Py.lower key :: linked_keys l2).
    rewrite Hsome. by left. }
  unfold rank_of. rewrite Hkeys, (index_first _ _ _ Hfresh).
  destruct (Py.index (Py.lower value) _) as [n|] eqn:Hn; [|lia].
  apply index_Some in Hn as (pre & rest & Heq & Hnot & ->).
  assert (Hat : (linked_keys l1 ++ Py.lower key :: linked_keys l2) !! length pre
                = Some (Py.lower value)).
  { rewrite Heq. by apply list_lookup_middle. }
  destruct (decide (length pre < length (linked_keys l1))%nat); [lia|]. exfalso.
  rewrite lookup_app_r in Hat by lia.
  destruct (length pre - length (linked_keys l1))%nat as [|m]; simpl in Hat.
  - injection Hat as Hat. by apply Hne.
  - apply Hv. by eapply list_elem_of_lookup_2.
Qed.


Lemma sample_lines_well_formed : Forall well_formed sample_lines.
Proof.
  unfold sample_lines.
  repeat (apply Forall_cons_2;
          [first [ exact eq_refl
                 | split; [reflexivity|];
                   intros value [= <-]; split; [reflexivity | discriminate]
                 | split; [reflexivity | discriminate] ]|]).
  apply Forall_nil_2.
Qed.


(** On that text the walk from [gloas] ends at [phase0], after seven
    links. *)
Example sample_walk_ends_at_phase0 :
  let table :=
    load_previous_fork_mapping
      (Some (("PHASE0 = SpecForkName('phase0')" +:+ newline +:+ newline)
             +:+ dictionary_text sample_lines +:+ newline)) in
  size table = 8%nat ∧ follow table 7 "gloas" = Some "phase0"
  ∧ follow table 6 "gloas" = None.
Proof. vm_compute. repeat split; reflexivity. Qed.


(** ** A text without the dictionary *)

Lemma all_chars_drop_prefix P p s r :
  drop_prefix p s = Some r → all_chars P s = true → all_chars P r = true.
Proof.
  revert s. induction p as [|a p IH]; intros s; [by destruct s; intros [= <-]|].
  destruct s as [|b s]; [done|].
  change (drop_prefix (String a p) (String b s))
    with (if Ascii.eqb a b then drop_prefix p s else None).
  destruct (Ascii.eqb a b); [|done].
  intros Hr [_ Hs]%andb_prop. by eapply IH.
Qed.

Lemma all_chars_lstrip P p s :
  all_chars P s = true → all_chars P (Py.lstrip_with p s) = true.
Proof.
  induction s as [|c s IH]; simpl; [done|].
  intros Hs. destruct (p c); [|done].
  apply andb_prop in Hs as [_ Hs]. by apply IH.
Qed.

Lemma span_until_absent c s :
  all_chars (λ a, negb (Ascii.eqb a c)) s = true → span_until c s = (s, "").
Proof.
  induction s as [|a s IH]; simpl; [done|].
  intros [Ha Hs]%andb_prop. apply negb_true_iff in Ha. by rewrite Ha, IH.
Qed.

Lemma match_needs_name s :
  Py.contains "PREVIOUS_FORK_OF" s = false → match_previous_fork_of s = None.
Proof.
  intros Hnot. unfold match_previous_fork_of.
  destruct (drop_prefix "PREVIOUS_FORK_OF" s) as [r|] eqn:Hr; [|done].
  apply drop_prefix_prefix in Hr. rewrite contains_unfold, Hr in Hnot. done.
Qed.

Lemma match_needs_brace s :
  all_chars (λ c, negb (Ascii.eqb c "}")) s = true → match_previous_fork_of s = None.
Proof.
  intros Hs. unfold match_previous_fork_of, mbind, option_bind.
  destruct (drop_prefix "PREVIOUS_FORK_OF" s) as [s1|] eqn:H1; [|done].
  apply (all_chars_drop_prefix _ _ _ _ H1) in Hs.
  apply (all_chars_lstrip _ Py.isspace) in Hs.
  destruct (drop_prefix "=" (Py.lstrip_with Py.isspace s1)) as [s2|] eqn:H2; [|done].
  apply (all_chars_drop_prefix _ _ _ _ H2) in Hs.
  apply (all_chars_lstrip _ Py.isspace) in Hs.
  destruct (drop_prefix "{" (Py.lstrip_with Py.isspace s2)) as [s3|] eqn:H3; [|done].
  apply (all_chars_drop_prefix _ _ _ _ H3) in Hs.
  rewrite span_until_absent by done. by destruct s3.
Qed.

(** X23: a [constants.py] in which the name [PREVIOUS_FORK_OF] does
    not occur, or which has no closing brace, gives the empty table. *)
Theorem text_without_dictionary_loads_nothing content :
  Py.contains "PREVIOUS_FORK_OF" content = false
  ∨ all_chars (λ c, negb (Ascii.eqb c "}")) content = true →
  load_previous_fork_mapping (Some content) = ∅.
Proof.
  intros Hcontent. unfold load_previous_fork_mapping.
  assert (Hnone : re_search content = None); [|by rewrite Hnone].
  induction content as [|c content IH]; rewrite re_search_unfold.
  - by destruct Hcontent as [H|H];
      [rewrite match_needs_name | rewrite match_needs_brace].
  - assert (Hhere : match_previous_fork_of (String c content) = None).
    { by destruct Hcontent as [H|H];
        [apply match_needs_name | apply match_needs_brace]. }
    rewrite Hhere. apply IH.
    destruct Hcontent as [H|H]; [left|right].
    + rewrite contains_unfold in H. by apply orb_false_elim in H as [_ ?].
    + simpl in H. by apply andb_prop in H as [_ ?].
Qed.

Lemma text_without_dictionary_loads_nothing_witness :
  load_previous_fork_mapping (Some "ALL_FORKS = [PHASE0, ALTAIR]") = ∅.
Proof.
  apply (text_without_dictionary_loads_nothing "ALL_FORKS = [PHASE0, ALTAIR]").
  left. reflexivity.
Defined.

(** ** The slot rule only selects activated forks *)

Lemma select_fork_state {L} config epoch forks current (l : L) log :
  (select_fork config epoch forks current l log).1.2 = l
  ∧ (select_fork config epoch forks current l log).2 = log.
Proof.
  revert current. induction forks as [|v forks IH]; intros current; simpl; [done|].
  destruct (config !! fork_epoch_key v) as [x|]; [|apply IH].
  unfold bind, int_ge.
  destruct x; simpl; try done;
    match goal with |- context [if ?c then _ else _] => destruct c end;
    first [apply IH | done].
Qed.

Lemma select_fork_activated {L} config epoch forks current (l : L) log r l' log' :
  select_fork config epoch forks current l log = (Ok r, l', log') →
  r = current
  ∨ (r ∈ forks
     ∧ ∃ x, config !! fork_epoch_key r = Some x ∧ activated_at epoch x).
Proof.
  revert current. induction forks as [|v forks IH]; intros current; simpl.
  - intros [= <- _ _]. by left.
  - destruct (config !! fork_epoch_key v) as [x|] eqn:Hx.
    + assert (Hcmp : ∀ b : bool,
                (b = true → activated_at epoch x) →
                (if b then select_fork config epoch forks v l log
                 else (Ok current, l, log)) = (Ok r, l', log') →
                r = current
                ∨ (r ∈ v :: forks
                   ∧ ∃ x0, config !! fork_epoch_key r = Some x0
                           ∧ activated_at epoch x0)).
      { intros [|] Hb.
        - intros [->|[Hin Hact]]%IH; right.
          + split; [by left|]. exists x. split; [done | by apply Hb].
          + split; [by right | done].
        - intros [= <- _ _]. by left. }
      assert (Hrun : (∃ b : bool, (b = true → activated_at epoch x)
                                  ∧ int_ge epoch x l log = (Ok b, l, log))
                     ∨ ∃ e, int_ge epoch x l log = (Raise e, l, log)).
      { unfold int_ge, ret, raise. destruct x; simpl; eauto; left; eexists.
        - split; [|reflexivity]. intros Hb. left. eexists.
          split; [reflexivity|]. by apply Z.leb_le.
        - split; [|reflexivity]. intros Hb. left. eexists.
          split; [reflexivity|]. by apply Z.leb_le.
        - split; [|reflexivity]. intros Hb. right. by eexists. }
      unfold bind. destruct Hrun as [(b & Hb & ->)|(e & ->)]; [|done].
      destruct b; exact (Hcmp _ Hb).
    + intros [->|[Hin Hact]]%IH; [by left|]. right. split; [by right | done].
Qed.



(** ** The warnings about names that could not be parsed *)

Section Behaves.
Context {L : Type}.
Implicit Types (E : exn → Prop) (P : event → Prop).

Lemma behaves_ret {A} E P (a : A) : behaves (L:=L) E P (ret a).
Proof. intros l log. exists []. by rewrite app_nil_r. Qed.

Lemma behaves_modify E P f : behaves (L:=L) E P (modify f).
Proof. intros l log. exists []. by rewrite app_nil_r. Qed.

Lemma behaves_get E P : behaves (L:=L) E P get.
Proof. intros l log. exists []. by rewrite app_nil_r. Qed.

Lemma behaves_print E P ev : P ev → behaves (L:=L) E P (print ev).
Proof.
  intros H l log. exists [ev]. split; [done|]. split; [by repeat constructor | done].
Qed.

Lemma behaves_raise {A} E P e : E e → behaves (L:=L) (A:=A) E P (raise e).
Proof. intros H l log. exists []. by rewrite app_nil_r. Qed.

Lemma behaves_bind {A B} E P (m : M L A) (k : A → M L B) :
  behaves E P m → (∀ a, behaves E P (k a)) → behaves E P (bind m k).
Proof.
  intros Hm Hk l log. unfold bind.
  destruct (Hm l log) as (more1 & Hlog1 & HP1 & HE1).
  destruct (m l log) as [[[a|e] l1] log1]; simpl in *; [|by exists more1].
  subst log1. destruct (Hk a l1 (log ++ more1)) as (more2 & Hlog2 & HP2 & HE2).
  exists (more1 ++ more2). rewrite Hlog2, app_assoc.
  split; [done|]. split; [by apply Forall_app | done].
Qed.

Lemma behaves_when E P c (m : M L unit) : behaves E P m → behaves E P (when c m).
Proof. destruct c; [done | intros _; apply behaves_ret]. Qed.

Lemma behaves_try {A} E E' P catches (m : M L A) h :
  behaves E' P m →
  (∀ e, E' e → catches e = true → behaves E P (h e)) →
  (∀ e, E' e → catches e = false → E e) →
  behaves E P (try_except m catches h).
Proof.
  intros Hm Hh Hpass l log. unfold try_except.
  destruct (Hm l log) as (more1 & Hlog1 & HP1 & HE1).
  destruct (m l log) as [[[a|e] l1] log1]; simpl in *; [by exists more1|].
  destruct (catches e) eqn:Hc.
  - subst log1. destruct (Hh e HE1 Hc l1 (log ++ more1)) as (more2 & Hlog2 & HP2 & HE2).
    exists (more1 ++ more2). rewrite Hlog2, app_assoc.
    split; [done|]. split; [by apply Forall_app | done].
  - exists more1. split; [done|]. split; [done|]. by apply Hpass.
Qed.

Lemma behaves_weaken {A} (E E' : exn → Prop) P (m : M L A) :
  (∀ e, E e → E' e) → behaves E P m → behaves E' P m.
Proof.
  intros Hsub Hm l log. destruct (Hm l log) as (more & Hlog & HP & HE).
  exists more. split; [done|]. split; [done|].
  destruct ((m l log).1.1); [done | by apply Hsub].
Qed.

Lemma behaves_or_raise {A} E P (o : option A) e :
  (o = None → E e) → behaves (L:=L) E P (or_raise o e).
Proof. destruct o; intros H; [apply behaves_ret | by apply behaves_raise, H]. Qed.

Lemma behaves_of_outcome {A} E P (o : outcome A) :
  (∀ e, o = Raise e → E e) → behaves (L:=L) E P (of_outcome o).
Proof. destruct o; intros H; [apply behaves_ret | by apply behaves_raise, H]. Qed.
End Behaves.

Lemma behaves_bind_or_raise {L A B} (E : exn → Prop) P (o : option A) e
    (k : A → M L B) :
  (o = None → E e) → (∀ a, o = Some a → behaves E P (k a)) →
  behaves E P (bind (or_raise o e) k).
Proof.
  intros He Hk. destruct o as [a|].
  - intros l log. unfold bind. simpl. by apply Hk.
  - intros l log. exists []. rewrite app_nil_r. split; [done|]. split; [done|].
    by apply He.
Qed.

Section FoundedWarnings.
Variable table : gmap string string.
Variable dir : directory.

Local Abbreviation founded := (warning_is_founded dir).
Local Abbreviation shape_error :=
  (λ e : exn, exn_cls e ∈ [AttributeError; TypeError]).
Local Abbreviation meta_error :=
  (λ e : exn, shape_error e ∨ meta_yaml dir = Present (Raise e)).
Local Abbreviation config_error :=
  (λ e : exn, shape_error e ∨ config_yaml dir = Present (Raise e)).

Lemma behaves_dict_get {L} (E : exn → Prop) P d key dflt :
  (∀ e, shape_error e → E e) → behaves (L:=L) E P (dict_get d key dflt).
Proof.
  intros HE. destruct d; try (apply behaves_raise, HE; compute_done).
  apply behaves_ret.
Qed.

Lemma behaves_str_lower {L} (E : exn → Prop) P v :
  (∀ e, shape_error e → E e) → behaves (L:=L) E P (str_lower v).
Proof.
  intros HE. destruct v; try (apply behaves_raise, HE; compute_done).
  apply behaves_ret.
Qed.

Lemma behaves_int_le {L} (E : exn → Prop) P n v :
  (∀ e, shape_error e → E e) → behaves (L:=L) E P (int_le n v).
Proof.
  intros HE. unfold int_le.
  destruct v; simpl;
    first [apply behaves_ret | apply behaves_raise, HE; compute_done].
Qed.

Lemma behaves_int_ge {L} (E : exn → Prop) P n v :
  (∀ e, shape_error e → E e) → behaves (L:=L) E P (int_ge n v).
Proof.
  intros HE. unfold int_ge.
  destruct v; simpl;
    first [apply behaves_ret | apply behaves_raise, HE; compute_done].
Qed.

Lemma behaves_select_fork {L} (E : exn → Prop) P config epoch forks selected :
  (∀ e, shape_error e → E e) →
  behaves (L:=L) E P (select_fork config epoch forks selected).
Proof.
  intros HE. revert selected. induction forks as [|v forks IH]; intros selected; simpl.
  - apply behaves_ret.
  - destruct (config !! _) as [x|]; [|apply IH].
    apply behaves_bind; [by apply behaves_int_ge|].
    intros [|]; [apply IH | apply behaves_ret].
Qed.

Lemma behaves_fork_test_rule E fork test_type filename :
  behaves E founded (fork_test_rule table fork test_type filename).
Proof.
  unfold fork_test_rule. apply behaves_when. destruct (table !! fork).
  - apply behaves_bind; [apply behaves_modify|]. intros _. by apply behaves_print.
  - by apply behaves_print.
Qed.

Lemma behaves_transition_pre_rule (E : exn → Prop) parts fork test_type filename :
  (∀ e, shape_error e → E e) → (∀ e, meta_yaml dir = Present (Raise e) → E e) →
  behaves E founded (transition_pre_rule table dir parts fork test_type filename).
Proof.
  intros Hshape Hload.
  unfold transition_pre_rule. apply behaves_when.
  destruct (meta_yaml dir) as [|load] eqn:Hmeta; [by apply behaves_print|].
  apply behaves_bind.
  { apply behaves_of_outcome. intros e ->. by apply Hload. }
  intros meta.
  apply behaves_bind; [by apply behaves_dict_get|]. intros v.
  apply behaves_bind; [by apply behaves_str_lower|]. intros post_fork.
  destruct (table !! post_fork); [|by apply behaves_print].
  apply behaves_bind; [apply behaves_modify|]. intros _. by apply behaves_print.
Qed.

Lemma behaves_transition_blocks_body (E : exn → Prop) parts fork N :
  (∀ e, shape_error e → E e) → (∀ e, meta_yaml dir = Present (Raise e) → E e) →
  behaves E founded (transition_blocks_body table dir parts fork N).
Proof.
  intros Hshape Hload.
  unfold transition_blocks_body.
  destruct (meta_yaml dir) as [|load] eqn:Hmeta; [by apply behaves_print|].
  apply behaves_bind.
  { apply behaves_of_outcome. intros e ->. by apply Hload. }
  intros meta.
  apply behaves_bind; [by apply behaves_dict_get|]. intros v.
  apply behaves_bind; [by apply behaves_str_lower|]. intros post_fork.
  apply behaves_bind; [by apply behaves_dict_get|]. intros fork_block.
  assert (Hrest : behaves E founded
            (let* at_or_before := int_le N fork_block in
             if at_or_before : bool then
               match table !! post_fork with
               | Some previous =>
                   modify (set_actual_fork previous) ;;
                   print (EvBlockPreFork N fork_block previous)
               | None => print (WarnNoPreviousForkOfPostBlock post_fork)
               end
             else
               modify (set_actual_fork post_fork) ;;
               print (EvBlockPostFork N fork_block post_fork))%M).
  { apply behaves_bind; [by apply behaves_int_le|]. intros [|].
    - destruct (table !! post_fork); [|by apply behaves_print].
      apply behaves_bind; [apply behaves_modify|]. intros _. by apply behaves_print.
    - apply behaves_bind; [apply behaves_modify|]. intros _. by apply behaves_print. }
  destruct fork_block; try exact Hrest. by apply behaves_print.
Qed.

Lemma shape_error_not_caught e : shape_error e → value_or_index_error e = false.
Proof.
  unfold value_or_index_error.
  intros [->|[->|[]%elem_of_nil]%elem_of_cons]%elem_of_cons; reflexivity.
Qed.

Lemma behaves_transition_blocks_rule parts fork test_type filename :
  behaves meta_error founded
    (transition_blocks_rule table dir parts fork test_type filename).
Proof.
  unfold transition_blocks_rule. apply behaves_when.
  apply (behaves_try _
           (λ e, (block_index filename = None ∧ value_or_index_error e = true)
                 ∨ meta_error e)).
  - unfold item, int, block_index.
    apply behaves_bind_or_raise; [intros ->; by left|]. intros second ->.
    simpl.
    apply behaves_bind_or_raise; [intros ->; by left|]. intros first ->.
    simpl.
    apply behaves_bind_or_raise; [intros ->; by left|]. intros N _.
    apply behaves_transition_blocks_body; intros e' He'; right; [by left | by right].
  - intros e [[Hnone _]|[Hshape|Hload]] Hcatch; apply behaves_print; simpl.
    + by left.
    + by rewrite shape_error_not_caught in Hcatch.
    + by right.
  - intros e [[_ Hc]|He] Hcatch; [congruence | done].
Qed.

Lemma behaves_light_client_slot_body (E : exn → Prop) fork test_suite test_case slot :
  (∀ e, shape_error e → E e) → (∀ e, config_yaml dir = Present (Raise e) → E e) →
  behaves E founded (light_client_slot_body dir fork test_suite test_case slot).
Proof.
  intros Hshape Hload.
  unfold light_client_slot_body.
  destruct (config_yaml dir) as [|load] eqn:Hconfig; [apply behaves_ret|].
  apply behaves_bind.
  { apply behaves_of_outcome. intros e ->. by apply Hload. }
  intros config.
  apply behaves_bind; [by apply behaves_dict_get|]. intros v.
  apply behaves_bind; [by apply behaves_str_lower|]. intros preset_base.
  apply behaves_bind.
  { destruct config; try apply behaves_ret. by apply behaves_select_fork. }
  intros selected. apply behaves_when.
  apply behaves_bind; [apply behaves_modify|]. intros _. by apply behaves_print.
Qed.

Lemma behaves_light_client_rule parts i fork test_type test_suite filename :
  behaves config_error founded
    (light_client_rule dir parts i fork test_type test_suite filename).
Proof.
  unfold light_client_rule. apply behaves_when.
  apply behaves_bind; [apply behaves_modify|]. intros _.
  apply behaves_bind.
  - unfold light_client_slot_rule. apply behaves_when.
    apply (behaves_try _ config_error).
    + destruct (first_int _); [|apply behaves_ret].
      apply behaves_bind; [apply behaves_modify|]. intros _.
      apply behaves_light_client_slot_body; intros e' He'; [by left | by right].
    + intros e [Hshape|Hload] Hcatch; apply behaves_print; simpl.
      * by rewrite shape_error_not_caught in Hcatch.
      * done.
    + done.
  - intros _. apply behaves_bind; [apply behaves_get|]. intros l.
    do 2 apply behaves_when.
    apply behaves_bind; [apply behaves_modify|]. intros _. by apply behaves_print.
Qed.

Lemma behaves_parse_ssz_path parts i preset fork test_type test_suite filename :
  decomposes parts i preset fork test_type test_suite filename →
  behaves (λ _, True) founded (parse_ssz_path table dir parts).
Proof.
  intros Hd. rewrite (parse_ssz_path_decomposed _ _ _ _ _ _ _ _ _ Hd).
  apply behaves_bind; [apply behaves_modify|]. intros _.
  apply behaves_bind; [apply behaves_fork_test_rule|]. intros _.
  apply behaves_bind.
  { by apply behaves_transition_pre_rule. }
  intros _. apply behaves_bind.
  { eapply behaves_weaken; [|apply behaves_transition_blocks_rule]. done. }
  intros _. apply behaves_bind.
  { eapply behaves_weaken; [|apply behaves_light_client_rule]. done. }
  intros _. apply behaves_bind.
  { intros l log. destruct (type_name_rule_run _ _ _ _ _ _ _ l log Hd) as (ty & -> & _).
    exists []. by rewrite app_nil_r. }
  intros ty. apply behaves_bind; [apply behaves_get|]. intros l.
  apply behaves_ret.
Qed.

End FoundedWarnings.


